(** * virt-manager: the engine's registry, tick loop and window counter,
      and the TPM device defaults

    A shallow embedding of [virtManager/engine.py] (class [vmmEngine]) and of
    [virtinst/devices/tpm.py] (class [DeviceTpm]).

    Python objects the engine only holds references to (connections, dialogs,
    threads, the system tray) are object identifiers; every call into such a
    collaborator is recorded in the engine's event log and either returns or
    raises, as the environment decides.  Python integers are [Z]; dicts used
    as maps are [gmap]s. *)

From stdpp Require Import base gmap strings list pretty.

Open Scope Z_scope.

(** ** Python exceptions and results *)

Module Py.

(** The exceptions the two files raise, catch or let through.  [Exception]
    stands for any other subclass of Python's [Exception];
    [KeyboardInterrupt] and [SystemExit] derive from [BaseException] only. *)
Inductive exn : Type :=
| KeyboardInterrupt
| SystemExit
| libvirtError (dom code : option Z) (msg : string)
| RuntimeError (msg : string)
| KeyError (key : string)
| Exception (msg : string).

Global Instance exn_eq_dec : EqDecision exn.
Proof. solve_decision. Defined.

(** [isinstance(e, Exception)]: what [except Exception] catches. *)
Definition is_Exception (e : exn) : bool :=
  match e with
  | KeyboardInterrupt | SystemExit => false
  | _ => true
  end.

(** [isinstance(e, libvirt.libvirtError)] *)
Definition is_libvirtError (e : exn) : bool :=
  match e with
  | libvirtError _ _ _ => true
  | _ => false
  end.

(** [repr(s)] of a byte string, as Python 2 writes it: between double
    quotes when [s] holds an apostrophe and no double quote, between
    apostrophes otherwise; the quote and the backslash after a backslash;
    tab, newline and carriage return as backslash and [t], [n], [r]; every
    other byte below the space or from 127 on as backslash, [x] and two
    hexadecimal digits. *)
Definition apostrophe : Ascii.ascii := Ascii.ascii_of_nat 39.
Definition double_quote : Ascii.ascii := Ascii.ascii_of_nat 34.
Definition backslash : Ascii.ascii := Ascii.ascii_of_nat 92.

Definition hex_digit (n : nat) : Ascii.ascii :=
  default (Ascii.ascii_of_nat 48) (String.get n "0123456789abcdef").

Definition repr_byte (quote c : Ascii.ascii) : string :=
  let n := Ascii.nat_of_ascii c in
  if Ascii.eqb c quote || Ascii.eqb c backslash then
    String backslash (String c "")
  else if (n =? 9)%nat then String backslash "t"
  else if (n =? 10)%nat then String backslash "n"
  else if (n =? 13)%nat then String backslash "r"
  else if (n <? 32)%nat || (127 <=? n)%nat then
    String backslash
      ("x" +:+ String (hex_digit (n / 16)%nat)
                 (String (hex_digit (n mod 16)%nat) ""))
  else String c "".

Definition holds (c : Ascii.ascii) (s : string) : bool :=
  existsb (Ascii.eqb c) (String.list_ascii_of_string s).

Definition repr (s : string) : string :=
  let quote :=
    if holds apostrophe s && negb (holds double_quote s) then double_quote
    else apostrophe in
  String quote (String.concat "" (repr_byte quote <$> String.list_ascii_of_string s))
  +:+ String quote "".

(** [str(e)].  The text of a [KeyError] is the [repr] of its key. *)
Definition str (e : exn) : string :=
  match e with
  | KeyboardInterrupt | SystemExit => ""
  | libvirtError _ _ msg => msg
  | RuntimeError msg => msg
  | KeyError key => repr key
  | Exception msg => msg
  end.

(** [str(x)] of a variable that holds an exception or [None]. *)
Definition str_opt (x : option exn) : string :=
  match x with
  | Some e => str e
  | None => "None"
  end.

(** The outcome of a call: a value, or an exception on its way up. *)
Inductive res (A : Type) : Type :=
| Ret (a : A)
| Raise (e : exn).
Arguments Ret {A} a.
Arguments Raise {A} e.

(** Truth value of a string-or-[None] attribute: [None] and [""] are false. *)
Definition truthy (x : option string) : bool :=
  match x with
  | None => false
  | Some s => negb (String.eqb s "")
  end.

(** [x in l] on values compared with [==]. *)
Definition py_in `{EqDecision A} (x : A) (l : list A) : bool :=
  existsb (λ y, bool_decide (x = y)) l.

End Py.

(** ** [virtinst/devices/tpm.py] *)

Module Tpm.
Import Py.

Definition TYPE_PASSTHROUGH : string := "passthrough".
Definition TYPE_EMULATOR : string := "emulator".
Definition TYPES : list string := [TYPE_PASSTHROUGH; TYPE_EMULATOR].

Definition MODEL_TIS : string := "tpm-tis".
Definition MODEL_CRB : string := "tpm-crb".
Definition MODELS : list string := [MODEL_TIS; MODEL_CRB].

Definition VERSION_1_2 : string := "1.2".
Definition VERSION_2_0 : string := "2.0".
Definition VERSIONS : list string := [VERSION_1_2; VERSION_2_0].

(** The four [XMLProperty] attributes of a [DeviceTpm].  [XMLProperty] is
    declared in [virtinst/xmlbuilder.py]; here a property is the string its
    XPath holds, or [None] when the attribute is absent, and assigning one
    property leaves the others as they are. *)
Record DeviceTpm : Type := {
  type : option string;          (* ./backend/@type *)
  version : option string;       (* ./backend/@version *)
  model : option string;         (* ./@model *)
  device_path : option string    (* ./backend/device/@path *)
}.

Definition set_type (v : string) (d : DeviceTpm) : DeviceTpm :=
  {| type := Some v; version := version d; model := model d;
     device_path := device_path d |}.

Definition set_model (v : string) (d : DeviceTpm) : DeviceTpm :=
  {| type := type d; version := version d; model := Some v;
     device_path := device_path d |}.

(** [DeviceTpm.set_defaults(self, guest)]; [guest] is not used. *)
Definition set_defaults {Guest : Type} (self : DeviceTpm) (guest : Guest)
  : DeviceTpm :=
  let self := if negb (truthy (type self))
              then set_type TYPE_PASSTHROUGH self else self in
  let self := if negb (truthy (model self))
              then set_model MODEL_TIS self else self in
  self.

Definition get_pretty_type (tpm_type : string) : string :=
  if String.eqb tpm_type TYPE_PASSTHROUGH then "Passthrough device"
  else if String.eqb tpm_type TYPE_EMULATOR then "Emulated device"
  else tpm_type.

Definition get_pretty_model (tpm_model : string) : string :=
  if String.eqb tpm_model MODEL_TIS then "TIS"
  else if String.eqb tpm_model MODEL_CRB then "CRB"
  else tpm_model.

End Tpm.

(** ** [virtManager/engine.py] *)

Module Engine.
Import Py.

Definition DETAILS_PERF : Z := 1.
Definition DETAILS_CONFIG : Z := 2.
Definition DETAILS_CONSOLE : Z := 3.

(** *** Collaborators *)

(** Modelled from the spec: [vmmConnection] is declared in
    [virtManager/connection.py].  A connection is "identified by URI (string,
    unique key)": the object made by [vmmConnection(uri)] answers [get_uri()]
    with that URI.  [conn_id] is the identity of the Python object. *)
Record vmmConnection : Type := {
  conn_id : nat;
  conn_uri : string
}.

Definition get_uri (c : vmmConnection) : string := conn_uri c.

Global Instance vmmConnection_eq_dec : EqDecision vmmConnection.
Proof. solve_decision. Defined.

(** The object [conn.get_vm(uuid)] hands out. *)
Record vmmDomain : Type := {
  vm_conn : vmmConnection;
  vm_uuid : string
}.

Global Instance vmmDomain_eq_dec : EqDecision vmmDomain.
Proof. solve_decision. Defined.

(** The four page activations of a details window. *)
Inductive page_activation : Type :=
| activate_performance_page
| activate_config_page
| activate_console_page
| activate_default_page.

Global Instance page_activation_eq_dec : EqDecision page_activation.
Proof. solve_decision. Defined.

(** Calls into collaborators that do work outside the engine.  Windows,
    threads and the tray are named by their object identity. *)
Inductive extcall : Type :=
| conn_tick (c : vmmConnection)
| conn_open (c : vmmConnection)
| conn_close (c : vmmConnection)
| conn_set_autoconnect (c : vmmConnection) (b : bool)
| conn_cleanup (c : vmmConnection)
| conn_get_vm (c : vmmConnection) (uuid : string)
| config_get_conn_uris
| config_add_conn (uri : string)
| config_remove_conn (uri : string)
| win_cleanup (w : nat)
| details_activate (w : nat) (p : page_activation)
| details_show (w : nat)
| vm_reboot (vm : vmmDomain)
| vm_manual_reboot (vm : vmmDomain).

Global Instance extcall_eq_dec : EqDecision extcall.
Proof. solve_decision. Defined.

(** The callables the engine hands to [idle_add]. *)
Inductive callback : Type :=
| cb_show_err_error_msg (frame : nat)
    (* [lambda: self.err.show_err(error_msg)]; [error_msg] is the variable
       of the [_tick] frame that made the lambda, read when it runs *)
| cb_conn_close (c : vmmConnection)       (* [conn.close] *)
| cb_exit_app (src : nat).                (* [self.exit_app, src] *)

Global Instance callback_eq_dec : EqDecision callback.
Proof. solve_decision. Defined.

(** What the engine does that the rest of the process can observe. *)
Inductive event : Type :=
| logging_debug (msg : string)
| logging_exception (msg : string) (e : exn)
| called (c : extcall)
| emit_conn_added (c : vmmConnection)
| emit_conn_removed (uri : string)
| idle_add (cb : callback)
| thread_start (t : nat)
| show_err (src : nat) (msg : string)
| async_error (src : nat) (errorintro : string) (e : exn).

Global Instance event_eq_dec : EqDecision event.
Proof. solve_decision. Defined.

(** The three constants [_tick] reads with [getattr(libvirt, name, None)]. *)
Record libvirt_module : Type := {
  VIR_FROM_REMOTE : option Z;
  VIR_FROM_RPC : option Z;
  VIR_ERR_SYSTEM_ERROR : option Z
}.

(** What the collaborators answer during one call into the engine. *)
Record environment : Type := {
  libvirt : libvirt_module;
  raises : extcall → option exn;        (* the call raises this, or returns *)
  isAlive : nat → bool;                 (* [Thread.isAlive()] *)
  is_visible : nat → bool;              (* [window.is_visible()] *)
  get_name : vmmDomain → string;        (* [vm.get_name()] *)
  chkbox_helper : nat → string → bool;  (* [util.chkbox_helper(src, ..., text1)] *)
  is_error_nosupport : exn → bool       (* [virtinst.util.is_error_nosupport] *)
}.

(** *** The engine *)

(** One value of [self.conns]. *)
Record conn_entry : Type := {
  conn : vmmConnection;
  windowHost : option nat;
  windowDetails : gmap string nat;
  windowClone : option nat
}.

(** The attributes of [vmmEngine] the modelled methods use, followed by the
    state they reach outside the object: the URI list kept by [self.config],
    the [error_msg] variables of [_tick] frames captured by lambdas, the
    next fresh object identity and the event log. *)
Record vmmEngine : Type := {
  conns : gmap string conn_entry;
  timer : option nat;
  _tick_thread : option nat;
  _tick_thread_slow : bool;
  windows : Z;
  systray : option nat;
  conn_uris : option (list string);
  error_msg : gmap nat string;
  next_id : nat;
  log : list event
}.

Definition set_conns (v : gmap string conn_entry) (s : vmmEngine) :=
  {| conns := v; timer := timer s; _tick_thread := _tick_thread s;
     _tick_thread_slow := _tick_thread_slow s; windows := windows s;
     systray := systray s; conn_uris := conn_uris s;
     error_msg := error_msg s; next_id := next_id s; log := log s |}.

Definition set_tick_thread (v : option nat) (s : vmmEngine) :=
  {| conns := conns s; timer := timer s; _tick_thread := v;
     _tick_thread_slow := _tick_thread_slow s; windows := windows s;
     systray := systray s; conn_uris := conn_uris s;
     error_msg := error_msg s; next_id := next_id s; log := log s |}.

Definition set_tick_thread_slow (v : bool) (s : vmmEngine) :=
  {| conns := conns s; timer := timer s; _tick_thread := _tick_thread s;
     _tick_thread_slow := v; windows := windows s;
     systray := systray s; conn_uris := conn_uris s;
     error_msg := error_msg s; next_id := next_id s; log := log s |}.

Definition set_windows (v : Z) (s : vmmEngine) :=
  {| conns := conns s; timer := timer s; _tick_thread := _tick_thread s;
     _tick_thread_slow := _tick_thread_slow s; windows := v;
     systray := systray s; conn_uris := conn_uris s;
     error_msg := error_msg s; next_id := next_id s; log := log s |}.

Definition set_conn_uris (v : option (list string)) (s : vmmEngine) :=
  {| conns := conns s; timer := timer s; _tick_thread := _tick_thread s;
     _tick_thread_slow := _tick_thread_slow s; windows := windows s;
     systray := systray s; conn_uris := v;
     error_msg := error_msg s; next_id := next_id s; log := log s |}.

Definition set_error_msg (v : gmap nat string) (s : vmmEngine) :=
  {| conns := conns s; timer := timer s; _tick_thread := _tick_thread s;
     _tick_thread_slow := _tick_thread_slow s; windows := windows s;
     systray := systray s; conn_uris := conn_uris s;
     error_msg := v; next_id := next_id s; log := log s |}.

Definition set_next_id (v : nat) (s : vmmEngine) :=
  {| conns := conns s; timer := timer s; _tick_thread := _tick_thread s;
     _tick_thread_slow := _tick_thread_slow s; windows := windows s;
     systray := systray s; conn_uris := conn_uris s;
     error_msg := error_msg s; next_id := v; log := log s |}.

Definition set_log (v : list event) (s : vmmEngine) :=
  {| conns := conns s; timer := timer s; _tick_thread := _tick_thread s;
     _tick_thread_slow := _tick_thread_slow s; windows := windows s;
     systray := systray s; conn_uris := conn_uris s;
     error_msg := error_msg s; next_id := next_id s; log := v |}.

(** [vmmEngine.__init__] up to the calls that populate it: no connection,
    counter at zero, no tick thread yet. *)
Definition init (tray : option nat) (uris : option (list string)) : vmmEngine :=
  {| conns := ∅; timer := None; _tick_thread := None;
     _tick_thread_slow := false; windows := 0; systray := tray;
     conn_uris := uris; error_msg := ∅; next_id := 0%nat; log := [] |}.

(** *** A method: the engine before, the outcome and the engine after.
    Mutations made before an exception stay made. *)
Definition M (A : Type) : Type := vmmEngine → res A * vmmEngine.

Global Instance M_ret : MRet M := λ A a s, (Ret a, s).

Global Instance M_bind : MBind M := λ A B f m s,
  match m s with
  | (Ret a, s') => f a s'
  | (Raise e, s') => (Raise e, s')
  end.

Definition get : M vmmEngine := λ s, (Ret s, s).
Definition modify (f : vmmEngine → vmmEngine) : M unit := λ s, (Ret tt, f s).
Definition raise {A} (e : exn) : M A := λ s, (Raise e, s).

(** [try: body / except ..., e: handler e]; a handler re-raises what its
    clauses do not name. *)
Definition try_except {A} (body : M A) (handler : exn → M A) : M A := λ s,
  match body s with
  | (Ret a, s') => (Ret a, s')
  | (Raise e, s') => handler e s'
  end.

(** [for x in l: body x] *)
Fixpoint for_ {A} (l : list A) (body : A → M unit) : M unit :=
  match l with
  | [] => mret tt
  | x :: l' => body x ;; for_ l' body
  end.

Definition when (b : bool) (m : M unit) : M unit := if b then m else mret tt.

Definition record (ev : event) : M unit :=
  modify (λ s, set_log (log s ++ [ev]) s).

(** A new Python object: its identity. *)
Definition fresh : M nat := λ s, (Ret (next_id s), set_next_id (S (next_id s)) s).

(** A call into a collaborator. *)
Definition call (env : environment) (c : extcall) : M unit :=
  record (called c) ;;
  match raises env c with
  | Some e => raise e
  | None => mret tt
  end.

(** [d.keys()] and [d.values()]: every key and every value once.  A Python
    dict yields them in an order of its own, which the language does not
    fix; the model takes the order of the map. *)
Definition dict_keys {V} (d : gmap string V) : list string := (map_to_list d).*1.
Definition dict_values {V} (d : gmap string V) : list V := (map_to_list d).*2.

(** [self.conns[uri]] *)
Definition getitem_conns (uri : string) : M conn_entry :=
  self ← get;
  match conns self !! uri with
  | Some e => mret e
  | None => raise (KeyError uri)
  end.

(** [del(self.conns[uri])] *)
Definition delitem_conns (uri : string) : M unit :=
  self ← get;
  match conns self !! uri with
  | Some _ => modify (λ s, set_conns (delete uri (conns s)) s)
  | None => raise (KeyError uri)
  end.

(** *** The tick loop *)

(** [self._tick_thread and self._tick_thread.isAlive()] *)
Definition worker_alive (env : environment) (self : vmmEngine) : bool :=
  match _tick_thread self with
  | Some t => isAlive env t
  | None => false
  end.

(** [vmmEngine.tick]: the timer callback. *)
Definition tick (env : environment) : M Z :=
  self ← get;
  if worker_alive env self
  then
    when (negb (_tick_thread_slow self))
      (record (logging_debug "Tick is slow, not running at requested rate.") ;;
       modify (set_tick_thread_slow true)) ;;
    mret 1
  else
    t ← fresh;
    modify (set_tick_thread (Some t)) ;;
    record (thread_start t) ;;
    mret 1.

(** Modelled from the spec: [timeout_add] is declared in
    [virtManager/baseclass.py], over GLib.  A tick that returns leaves "the
    existing timer armed": the timeout source stays for as long as its
    callback returns a true value. *)
Definition keeps_timer (r : res Z) : bool :=
  match r with
  | Ret v => negb (v =? 0)
  | Raise _ => false
  end.

(** [dom in [from_remote, from_rpc] and code in [sys_error]] *)
Definition is_transient (env : environment) (dom code : option Z) : bool :=
  let from_remote := VIR_FROM_REMOTE (libvirt env) in
  let from_rpc := VIR_FROM_RPC (libvirt env) in
  let sys_error := VIR_ERR_SYSTEM_ERROR (libvirt env) in
  py_in dom [from_remote; from_rpc] && py_in code [sys_error].

(** The body of the loop of [_tick], run for [uri] in the frame [frame]. *)
Definition _tick_conn (env : environment) (frame : nat) (uri : string) : M unit :=
  e ← getitem_conns uri;
  let conn := conn e in
  try_except (call env (conn_tick conn))
    (λ e,
       match e with
       | KeyboardInterrupt => raise e
       | libvirtError dom code _ =>
           (if is_transient env dom code then
              record (logging_exception
                        ("Could not refresh connection " +:+ uri) e) ;;
              record (logging_debug
                        "Closing connection since libvirtd appears to have stopped")
            else
              modify (λ s, set_error_msg
                             (<[frame :=
                                  "Error polling connection '" +:+ get_uri conn
                                  +:+ "': " +:+ str e]> (error_msg s)) s) ;;
              record (idle_add (cb_show_err_error_msg frame))) ;;
           record (idle_add (cb_conn_close conn))
       | _ => raise e
       end).

(** [vmmEngine._tick]: one refresh pass, over [self.conns.keys()]. *)
Definition _tick (env : environment) : M Z :=
  frame ← fresh;
  self ← get;
  for_ (dict_keys (conns self)) (_tick_conn env frame) ;;
  mret 1.

(** *** The window counter *)

Definition increment_window_counter (src : nat) : M unit :=
  modify (λ s, set_windows (windows s + 1) s) ;;
  self ← get;
  record (logging_debug
            ("window counter incremented to " +:+ pretty (windows self))).

Definition decrement_window_counter (env : environment) (src : nat) : M unit :=
  modify (λ s, set_windows (windows s - 1) s) ;;
  self ← get;
  record (logging_debug
            ("window counter decremented to " +:+ pretty (windows self))) ;;
  when ((windows self <=? 0) &&
        match systray self with
        | Some tray => negb (is_visible env tray)
        | None => false
        end)
    (record (idle_add (cb_exit_app src))).

(** *** The registry *)

Definition _check_conn (uri : string) : M (option vmmConnection) :=
  self ← get;
  match conns self !! uri with
  | Some e => mret (Some (conn e))
  | None => mret None
  end.

Definition _lookup_conn (uri : string) : M vmmConnection :=
  c ← _check_conn uri;
  match c with
  | Some c => mret c
  | None => raise (RuntimeError ("Unknown connection URI " +:+ uri))
  end.

(** [vmmEngine.add_conn_to_ui].  Making the [vmmConnection] object and wiring
    its two signals allocate and register only. *)
Definition add_conn_to_ui (env : environment) (uri : string) : M vmmConnection :=
  c ← _check_conn uri;
  match c with
  | Some c => mret c
  | None =>
      i ← fresh;
      let conn := {| conn_id := i; conn_uri := uri |} in
      modify (λ s, set_conns
                     (<[uri := {| conn := conn; windowHost := None;
                                  windowDetails := ∅;
                                  windowClone := None |}]> (conns s)) s) ;;
      call env (conn_tick conn) ;;
      record (emit_conn_added conn) ;;
      mret conn
  end.

(** Modelled from the spec: [self.config] is declared in
    [virtManager/config.py].  It keeps the "list of known connection URIs",
    which [config.get_conn_uris()] reads; the engine "writes back on
    connection add/remove". *)
Definition get_conn_uris (env : environment) : M (option (list string)) :=
  call env config_get_conn_uris ;;
  self ← get;
  mret (conn_uris self).

(** Modelled from the spec: [config.add_conn(uri)] "persists the URI to the
    known-URI list". *)
Definition add_conn (env : environment) (uri : string) : M unit :=
  call env (config_add_conn uri) ;;
  modify (λ s, set_conn_uris (Some (default [] (conn_uris s) ++ [uri])) s).

(** Modelled from the spec: [config.remove_conn(uri)] "persists removal". *)
Definition remove_conn_uri (env : environment) (uri : string) : M unit :=
  call env (config_remove_conn uri) ;;
  modify (λ s, set_conn_uris
                 (filter (λ u, u ≠ uri) <$> conn_uris s) s).

(** [vmmEngine.connect_to_uri(uri, autoconnect=None, do_start=True)] *)
Definition connect_to_uri (env : environment) (uri : string)
    (autoconnect : option bool) (do_start : bool) : M (option vmmConnection) :=
  try_except
    (conn ← add_conn_to_ui env uri;
     uris ← get_conn_uris env;
     when (negb (py_in (get_uri conn) (default [] uris)))
       (add_conn env (get_uri conn)) ;;
     match autoconnect with
     | Some a => call env (conn_set_autoconnect conn a)
     | None => mret tt
     end ;;
     when do_start (call env (conn_open conn)) ;;
     mret (Some conn))
    (λ e,
       if is_Exception e then
         record (logging_exception ("Error connecting to " +:+ uri) e) ;;
         mret None
       else raise e).

(** [vmmEngine.cleanup_conn]; the bare [except:] catches everything. *)
Definition cleanup_conn (env : environment) (uri : string) : M unit :=
  try_except
    (e ← getitem_conns uri;
     match windowHost e with
     | Some w => call env (win_cleanup w)
     | None => mret tt
     end ;;
     e ← getitem_conns uri;
     match windowClone e with
     | Some w => call env (win_cleanup w)
     | None => mret tt
     end ;;
     e ← getitem_conns uri;
     let details := windowDetails e in
     for_ (dict_values details) (λ win, call env (win_cleanup win)) ;;
     e ← getitem_conns uri;
     call env (conn_cleanup (conn e)))
    (λ e, record (logging_exception "Error cleaning up conn in engine" e)).

(** [vmmEngine.remove_conn] *)
Definition remove_conn (env : environment) (src : nat) (uri : string) : M unit :=
  cleanup_conn env uri ;;
  delitem_conns uri ;;
  record (emit_conn_removed uri) ;;
  remove_conn_uri env uri.

(** *** Dialogs *)

(** [con.get_vm(uuid)] *)
Definition get_vm (env : environment) (con : vmmConnection) (uuid : string)
  : M vmmDomain :=
  call env (conn_get_vm con uuid) ;;
  mret {| vm_conn := con; vm_uuid := uuid |}.

(** [self.conns[uri]["windowDetails"][uuid] = obj] *)
Definition setitem_windowDetails (uri uuid : string) (obj : nat) : M unit :=
  e ← getitem_conns uri;
  modify (λ s, set_conns
                 (<[uri := {| conn := conn e; windowHost := windowHost e;
                              windowDetails := <[uuid := obj]> (windowDetails e);
                              windowClone := windowClone e |}]> (conns s)) s).

(** [self.conns[uri]["windowDetails"][uuid]] *)
Definition getitem_windowDetails (uri uuid : string) : M nat :=
  e ← getitem_conns uri;
  match windowDetails e !! uuid with
  | Some w => mret w
  | None => raise (KeyError uuid)
  end.

(** [vmmEngine._get_details_dialog].  Making the [vmmDetails] object and
    wiring its signals allocate and register only. *)
Definition _get_details_dialog (env : environment) (uri uuid : string) : M nat :=
  e ← getitem_conns uri;
  if bool_decide (is_Some (windowDetails e !! uuid)) then
    getitem_windowDetails uri uuid
  else
    con ← _lookup_conn uri;
    vm ← get_vm env con uuid;
    obj ← fresh;
    setitem_windowDetails uri uuid obj ;;
    getitem_windowDetails uri uuid.

(** The [if]/[elif] chain on [page] in [_show_vm_helper]: the activation
    it calls, if any.  [page] is [None] or a number. *)
Definition page_activation_of (page : option Z) : option page_activation :=
  match page with
  | Some p =>
      if p =? DETAILS_PERF then Some activate_performance_page
      else if p =? DETAILS_CONFIG then Some activate_config_page
      else if p =? DETAILS_CONSOLE then Some activate_console_page
      else None
  | None => Some activate_default_page
  end.

(** [vmmEngine._show_vm_helper(src, uri, uuid, page=None, forcepage=False)] *)
Definition _show_vm_helper (env : environment) (src : nat) (uri uuid : string)
    (page : option Z) (forcepage : bool) : M (option nat) :=
  try_except
    (details ← _get_details_dialog env uri uuid;
     when (forcepage || negb (is_visible env details))
       match page_activation_of page with
       | Some p => call env (details_activate details p)
       | None => mret tt
       end ;;
     call env (details_show details) ;;
     mret (Some details))
    (λ e,
       if is_Exception e then
         record (show_err src ("Error launching details: " +:+ str e)) ;;
         mret None
       else raise e).

Definition _do_show_vm (env : environment) (src : nat) (uri uuid : string)
  : M unit :=
  _show_vm_helper env src uri uuid None false ;; mret tt.

(** *** Domain actions *)

(** The nested function [reboot_cb] of [_do_reboot_domain]. *)
Definition reboot_cb (env : environment) (vm : vmmDomain) : M unit :=
  let no_support := false in
  let reboot_err := None in
  '(no_support, reboot_err) ←
    try_except
      (call env (vm_reboot vm) ;; mret (no_support, reboot_err))
      (λ e,
         if is_Exception e then
           let reboot_err := Some e in
           let no_support := is_error_nosupport env e in
           if negb no_support then
             raise (RuntimeError
                      ("Error rebooting domain: " +:+ str_opt reboot_err))
           else mret (no_support, reboot_err)
         else raise e);
  if negb no_support then mret tt
  else
    record (logging_debug "Hypervisor doesn't support reboot, let's fake it") ;;
    try_except (call env (vm_manual_reboot vm))
      (λ e,
         record (logging_exception "Could not fake a reboot" e) ;;
         raise (RuntimeError
                  ("Error rebooting domain: " +:+ str_opt reboot_err))).

(** Modelled from the spec: [vmmAsyncJob.simple_async_noshow] is declared in
    [virtManager/asyncjob.py].  It "invokes the corresponding hypervisor
    operation asynchronously"; a failure is "caught at the dispatch boundary
    and routed to the shared error-reporting surface". *)
Definition simple_async_noshow (callback : M unit) (src : nat)
    (errorintro : string) : M unit :=
  try_except callback (λ e, record (async_error src errorintro e)).

(** [vmmEngine._do_reboot_domain] *)
Definition _do_reboot_domain (env : environment) (src : nat) (uri uuid : string)
  : M unit :=
  conn ← _lookup_conn uri;
  vm ← get_vm env conn uuid;
  if negb (chkbox_helper env src
             ("Are you sure you want to reboot '" +:+ get_name env vm +:+ "'?"))
  then mret tt
  else
    record (logging_debug ("Rebooting vm '" +:+ get_name env vm +:+ "'")) ;;
    simple_async_noshow (reboot_cb env vm) src "".

(** *** Observations on the event log *)

(** The events a method adds: what the log holds past its old length. *)
Definition new_events (before after : vmmEngine) : list event :=
  drop (length (log before)) (log after).

Definition count_event (ev : event) (l : list event) : nat :=
  length (filter (λ x, x = ev) l).

Definition is_thread_start (ev : event) : bool :=
  match ev with
  | thread_start _ => true
  | _ => false
  end.

(** A method that touches the engine by adding events to the log only,
    each of them satisfying [P]. *)
Definition adds_only (P : event → Prop) {A} (m : M A) : Prop :=
  ∀ s, ∃ added, (m s).2 = set_log (log s ++ added) s ∧ Forall P added.

(** A method that only adds to the log, raises only what a collaborator it
    called has raised, and returns only when every collaborator it called
    has returned. *)
Definition raises_from_calls (env : environment) {A} (m : M A) : Prop :=
  ∀ s, ∃ added,
    log (m s).2 = log s ++ added ∧
    (∀ e, (m s).1 = Raise e → ∃ c, raises env c = Some e ∧ called c ∈ added) ∧
    (∀ a, (m s).1 = Ret a → ∀ c, called c ∈ added → raises env c = None).

Definition is_conn_removed (ev : event) : bool :=
  match ev with
  | emit_conn_removed _ => true
  | _ => false
  end.

Definition is_conn_added (ev : event) : bool :=
  match ev with
  | emit_conn_added _ => true
  | _ => false
  end.

Definition slow_warning : event :=
  logging_debug "Tick is slow, not running at requested rate.".

End Engine.

(** ** Runs of the engine: call sequences and sample environments *)

Module Runs.
Import Py Engine.

(** A call of one of the two window-counter methods. *)
Inductive counter_call : Type :=
| increment (src : nat)
| decrement (src : nat).

Definition do_counter_call (env : environment) (c : counter_call) : M unit :=
  match c with
  | increment src => increment_window_counter src
  | decrement src => decrement_window_counter env src
  end.

(** The value of [self.windows] after each call of a sequence; every call
    comes with the environment it runs in. *)
Fixpoint counter_history (calls : list (environment * counter_call))
    (s : vmmEngine) : list Z :=
  match calls with
  | [] => []
  | (env, c) :: calls' =>
      let s' := (do_counter_call env c s).2 in
      windows s' :: counter_history calls' s'
  end.

Definition is_increment (c : environment * counter_call) : bool :=
  match c.2 with
  | increment _ => true
  | decrement _ => false
  end.

Definition increments (calls : list (environment * counter_call)) : nat :=
  length (filter (λ c, is_increment c = true) calls).

Definition decrements (calls : list (environment * counter_call)) : nat :=
  length (filter (λ c, is_increment c = false) calls).

(** What a call adds to the counter. *)
Definition delta (c : environment * counter_call) : Z :=
  if is_increment c then 1 else -1.

(** The engine after a sequence of timer expiries, one environment each. *)
Fixpoint run_ticks (envs : list environment) (s : vmmEngine) : vmmEngine :=
  match envs with
  | [] => s
  | env :: envs' => run_ticks envs' (tick env s).2
  end.

(** The outcomes of successive [add_conn_to_ui(uri)] calls, and the engine
    after the last. *)
Fixpoint add_conn_to_ui_seq (envs : list environment) (uri : string)
    (s : vmmEngine) : list (res vmmConnection) * vmmEngine :=
  match envs with
  | [] => ([], s)
  | env :: envs' =>
      let '(r, s') := add_conn_to_ui env uri s in
      let '(rs, s'') := add_conn_to_ui_seq envs' uri s' in
      (r :: rs, s'')
  end.

(** The registry entry [add_conn_to_ui] makes for a new connection. *)
Definition fresh_entry (c : vmmConnection) : conn_entry :=
  {| conn := c; windowHost := None; windowDetails := ∅; windowClone := None |}.

(** The events one iteration of the refresh pass adds, in the frame [frame],
    for the connection [c] registered at [uri] whose [tick] raises a
    [libvirtError] of domain [dom] and code [code]. *)
Definition libvirt_fault_events (env : environment) (frame : nat)
    (uri : string) (c : vmmConnection) (dom code : option Z) (msg : string)
  : list event :=
  [called (conn_tick c)] ++
  (if is_transient env dom code then
     [logging_exception ("Could not refresh connection " +:+ uri)
        (libvirtError dom code msg);
      logging_debug "Closing connection since libvirtd appears to have stopped"]
   else [idle_add (cb_show_err_error_msg frame)]) ++
  [idle_add (cb_conn_close c)].




(** libvirt's values of the three constants. *)
Definition libvirt_constants : libvirt_module :=
  {| VIR_FROM_REMOTE := Some 13; VIR_FROM_RPC := Some 7;
     VIR_ERR_SYSTEM_ERROR := Some 38 |}.

(** An environment in which every collaborator returns, no thread is alive,
    no window is visible and every confirmation is given. *)
Definition calm : environment :=
  {| libvirt := libvirt_constants;
     raises := λ _, None;
     isAlive := λ _, false;
     is_visible := λ _, false;
     get_name := vm_uuid;
     chkbox_helper := λ _ _, true;
     is_error_nosupport := λ _, false |}.

Definition with_raises (f : extcall → option exn) (env : environment)
  : environment :=
  {| libvirt := libvirt env; raises := f; isAlive := isAlive env;
     is_visible := is_visible env; get_name := get_name env;
     chkbox_helper := chkbox_helper env;
     is_error_nosupport := is_error_nosupport env |}.

Definition with_isAlive (f : nat → bool) (env : environment) : environment :=
  {| libvirt := libvirt env; raises := raises env; isAlive := f;
     is_visible := is_visible env; get_name := get_name env;
     chkbox_helper := chkbox_helper env;
     is_error_nosupport := is_error_nosupport env |}.

Definition with_is_visible (f : nat → bool) (env : environment) : environment :=
  {| libvirt := libvirt env; raises := raises env; isAlive := isAlive env;
     is_visible := f; get_name := get_name env;
     chkbox_helper := chkbox_helper env;
     is_error_nosupport := is_error_nosupport env |}.

Definition with_is_error_nosupport (f : exn → bool) (env : environment)
  : environment :=
  {| libvirt := libvirt env; raises := raises env; isAlive := isAlive env;
     is_visible := is_visible env; get_name := get_name env;
     chkbox_helper := chkbox_helper env;
     is_error_nosupport := f |}.

(** Every thread still runs. *)
Definition busy : environment := with_isAlive (λ _, true) calm.

(** A fresh engine with a system tray (object 0) and no stored URI. *)
Definition engine0 : vmmEngine := init (Some 0%nat) None.

(** Every [conn.tick()] raises [e]; everything else is as in [calm]. *)
Definition polling_fault (e : exn) : environment :=
  with_raises (λ c, match c with
                    | conn_tick _ => Some e
                    | _ => None
                    end) calm.

Definition qemu_system : vmmConnection :=
  {| conn_id := 0; conn_uri := "qemu:///system" |}.

Definition xen : vmmConnection := {| conn_id := 1; conn_uri := "xen:///" |}.

(** An engine with one, and with two, registered connections. *)
Definition one_conn : vmmEngine :=
  (add_conn_to_ui calm "qemu:///system" engine0).2.

Definition two_conns : vmmEngine :=
  (add_conn_to_ui calm "xen:///" one_conn).2.

(** One connection with a host window, a clone window and the details
    window of one guest. *)
Definition windowed_entry : conn_entry :=
  {| conn := qemu_system; windowHost := Some 10%nat;
     windowDetails := {["guest1" := 11%nat]}; windowClone := Some 12%nat |}.

Definition windowed : vmmEngine :=
  set_conns (<["qemu:///system" := windowed_entry]> (conns one_conn)) one_conn.

(** [conn.open()] is refused, and [conn.open()] is interrupted from the
    keyboard. *)
Definition open_refused : environment :=
  with_raises (λ c, match c with
                    | conn_open _ => Some (Exception "connection refused")
                    | _ => None
                    end) calm.

Definition open_interrupted : environment :=
  with_raises (λ c, match c with
                    | conn_open _ => Some KeyboardInterrupt
                    | _ => None
                    end) calm.

(** Window 11 is on screen. *)
Definition guest1_visible : environment :=
  with_is_visible (λ w, bool_decide (w = 11%nat)) calm.


(** The hypervisor does not support reboot, and the emulated reboot fails
    as well. *)
Definition no_support_error : exn :=
  libvirtError (Some 10) (Some 3) "this function is not supported".

Definition reboot_unsupported : environment :=
  with_is_error_nosupport (λ e, bool_decide (e = no_support_error))
    (with_raises (λ c, match c with
                       | vm_reboot _ => Some no_support_error
                       | vm_manual_reboot _ => Some (Exception "shutdown failed")
                       | _ => None
                       end) calm).

Definition guest1 : vmmDomain := {| vm_conn := qemu_system; vm_uuid := "guest1" |}.

(** The engine after a first tick that starts a worker and a second one
    that finds it still running. *)
Definition slow_engine : vmmEngine := run_ticks [calm; busy] engine0.

End Runs.

(** ** [virtManager/engine.py]: the other registry and window methods *)

Module EngineRest.
Import Py Engine Runs.

(** [str(l)] of a list of strings, as ["%s"] prints it: the [repr] of every
    element. *)
Definition str_list (l : list string) : string :=
  "[" +:+ String.concat ", " (repr <$> l) +:+ "]".

(** [vmmEngine.load_stored_uris] *)
Definition load_stored_uris (env : environment) : M unit :=
  uris ← get_conn_uris env;
  match uris with
  | None | Some [] => mret tt
  | Some uris =>
      record (logging_debug ("About to connect to uris " +:+ str_list uris)) ;;
      for_ uris (λ uri, add_conn_to_ui env uri ;; mret tt)
  end.

(** [vmmEngine.autostart_conns]; [get_autoconnect] answers
    [conn.get_autoconnect()]. *)
Definition autostart_conns (env : environment)
    (get_autoconnect : vmmConnection → bool) : M unit :=
  self ← get;
  for_ (dict_keys (conns self))
    (λ uri,
       e ← getitem_conns uri;
       let conn := conn e in
       if get_autoconnect conn then connect_to_uri env uri None true ;; mret tt
       else mret tt).

(** [del(self.conns[uri]["windowDetails"][uuid])] *)
Definition delitem_windowDetails (uri uuid : string) : M unit :=
  e ← getitem_conns uri;
  match windowDetails e !! uuid with
  | Some _ =>
      modify (λ s, set_conns
                     (<[uri := {| conn := conn e; windowHost := windowHost e;
                                  windowDetails := delete uuid (windowDetails e);
                                  windowClone := windowClone e |}]> (conns s)) s)
  | None => raise (KeyError uuid)
  end.

(** [vmmEngine._do_vm_removed(conn, vmuuid)] *)
Definition _do_vm_removed (env : environment) (conn : vmmConnection)
    (vmuuid : string) : M unit :=
  let hvuri := get_uri conn in
  e ← getitem_conns hvuri;
  if negb (bool_decide (is_Some (windowDetails e !! vmuuid))) then mret tt
  else
    w ← getitem_windowDetails hvuri vmuuid;
    call env (win_cleanup w) ;;
    delitem_windowDetails hvuri vmuuid.

(** A method whose effect on the log is to add events that all satisfy
    [P]. *)
Definition logs_only (P : event → Prop) {A} (m : M A) : Prop :=
  ∀ s, ∃ added, log (m s).2 = log s ++ added ∧ Forall P added.

(** A method that leaves the registry, the window counter, the tick flags,
    the timer and the tray as they are. *)
Definition keeps_engine {A} (m : M A) : Prop :=
  ∀ s, conns (m s).2 = conns s ∧ windows (m s).2 = windows s ∧
       _tick_thread (m s).2 = _tick_thread s ∧
       _tick_thread_slow (m s).2 = _tick_thread_slow s ∧
       timer (m s).2 = timer s ∧ systray (m s).2 = systray s.

(** A method that keeps the property [I] of the engine, whether it returns
    or raises. *)
Definition preserves (I : vmmEngine → Prop) {A} (m : M A) : Prop :=
  ∀ s, I s → I (m s).2.

(** Every entry of the registry holds a connection that answers
    [get_uri()] with the entry's key. *)
Definition registry_keyed (s : vmmEngine) : Prop :=
  ∀ uri en, conns s !! uri = Some en → get_uri (conn en) = uri.

(** The engine after a sequence of window-counter calls. *)
Fixpoint run_counter_calls (calls : list (environment * counter_call))
    (s : vmmEngine) : vmmEngine :=
  match calls with
  | [] => s
  | (env, c) :: calls' => run_counter_calls calls' (do_counter_call env c s).2
  end.

Definition is_idle_add (ev : event) : bool :=
  match ev with
  | idle_add _ => true
  | _ => false
  end.

(** The engine after one [connect_to_uri("qemu:///system")]. *)
Definition connected_once : vmmEngine :=
  (connect_to_uri calm "qemu:///system" None true engine0).2.

(** Every [conn.open()] is refused. *)
Definition every_open_refused : environment :=
  with_raises (λ c, match c with
                    | conn_open _ => Some (Exception "connection refused")
                    | _ => None
                    end) calm.

(** The engine with the two connections stored in the configuration. *)
Definition two_stored : vmmEngine :=
  set_conn_uris (Some ["qemu:///system"; "xen:///"]) engine0.

(** The details window's [cleanup()] raises. *)
Definition details_cleanup_fails : environment :=
  with_raises (λ c, match c with
                    | win_cleanup 11 => Some (Exception "already destroyed")
                    | _ => None
                    end) calm.

(** Nobody confirms. *)
Definition declined : environment :=
  {| libvirt := libvirt calm; raises := raises calm; isAlive := isAlive calm;
     is_visible := is_visible calm; get_name := get_name calm;
     chkbox_helper := λ _ _, false;
     is_error_nosupport := is_error_nosupport calm |}.

End EngineRest.

(** ** [virtManager/engine.py]: singleton windows, timer, exit and actions *)

Module EngineWindows.
Import Py Engine Runs EngineRest.

(** Modelled from the spec: the state of a connection, "enum: disconnected,
    connecting, active, error" ([virtManager/connection.py]). *)
Inductive conn_state : Type :=
| STATE_DISCONNECTED
| STATE_CONNECTING
| STATE_ACTIVE
| STATE_ERROR.

Global Instance conn_state_eq_dec : EqDecision conn_state.
Proof. solve_decision. Defined.

(** The further calls into collaborators these methods make. *)
Inductive extcall2 : Type :=
| uihelpers_cleanup
| obj_cleanup (o : nat)                 (* [inspection.cleanup()], [systray.cleanup()] *)
| GLib_source_remove (t : nat)
| remove_gobject_timeout (t : nat)
| timeout_add (interval : Z) (t : nat)  (* [self.timeout_add(interval, self.tick)], giving [t] *)
| Gtk_main_quit
| application_remove_window
| win_show (w : nat)
| win_close (w : nat)
| clone_set_orig_vm (w : nat) (vm : vmmDomain)
| vm_destroy (vm : vmmDomain)
| vm_suspend (vm : vmmDomain)
| vm_resume (vm : vmmDomain)
| vm_shutdown (vm : vmmDomain)
| vm_reset (vm : vmmDomain).

Global Instance extcall2_eq_dec : EqDecision extcall2.
Proof. solve_decision. Defined.

(** What these methods do that the rest of the process can observe: what
    the registry methods they call do, and their own calls. *)
Inductive event2 : Type :=
| core_event (ev : event)
| called2 (c : extcall2).

Global Instance event2_eq_dec : EqDecision event2.
Proof. solve_decision. Defined.

(** What the collaborators answer during one call. *)
Record environment2 : Type := {
  env : environment;
  raises2 : extcall2 → option exn;
  get_view_system_tray : bool;          (* [config.get_view_system_tray()] *)
  get_stats_update_interval : Z;        (* [config.get_stats_update_interval()] *)
  main_level : nat;                     (* [Gtk.main_level()] *)
  get_state : vmmConnection → conn_state;      (* [conn.get_state()] *)
  create_conn : nat → option vmmConnection     (* [windowCreate.conn] *)
}.

(** The engine with its singleton windows, its error dialog and the trace
    of what it did. *)
Record vmmEngineFull : Type := {
  core : vmmEngine;
  windowConnect : option nat;
  windowPreferences : option nat;
  windowAbout : option nat;
  windowCreate : option nat;
  windowManager : option nat;
  windowMigrate : option nat;
  delete_dialog : option nat;
  inspection : option nat;
  err : option nat;
  trace : list event2
}.

Definition set_core (v : vmmEngine) (s : vmmEngineFull) :=
  {| core := v; windowConnect := windowConnect s;
     windowPreferences := windowPreferences s; windowAbout := windowAbout s;
     windowCreate := windowCreate s; windowManager := windowManager s;
     windowMigrate := windowMigrate s; delete_dialog := delete_dialog s;
     inspection := inspection s; err := err s; trace := trace s |}.

Definition set_windowConnect (v : option nat) (s : vmmEngineFull) :=
  {| core := core s; windowConnect := v;
     windowPreferences := windowPreferences s; windowAbout := windowAbout s;
     windowCreate := windowCreate s; windowManager := windowManager s;
     windowMigrate := windowMigrate s; delete_dialog := delete_dialog s;
     inspection := inspection s; err := err s; trace := trace s |}.

Definition set_windowPreferences (v : option nat) (s : vmmEngineFull) :=
  {| core := core s; windowConnect := windowConnect s;
     windowPreferences := v; windowAbout := windowAbout s;
     windowCreate := windowCreate s; windowManager := windowManager s;
     windowMigrate := windowMigrate s; delete_dialog := delete_dialog s;
     inspection := inspection s; err := err s; trace := trace s |}.

Definition set_windowAbout (v : option nat) (s : vmmEngineFull) :=
  {| core := core s; windowConnect := windowConnect s;
     windowPreferences := windowPreferences s; windowAbout := v;
     windowCreate := windowCreate s; windowManager := windowManager s;
     windowMigrate := windowMigrate s; delete_dialog := delete_dialog s;
     inspection := inspection s; err := err s; trace := trace s |}.

Definition set_windowCreate (v : option nat) (s : vmmEngineFull) :=
  {| core := core s; windowConnect := windowConnect s;
     windowPreferences := windowPreferences s; windowAbout := windowAbout s;
     windowCreate := v; windowManager := windowManager s;
     windowMigrate := windowMigrate s; delete_dialog := delete_dialog s;
     inspection := inspection s; err := err s; trace := trace s |}.

Definition set_windowManager (v : option nat) (s : vmmEngineFull) :=
  {| core := core s; windowConnect := windowConnect s;
     windowPreferences := windowPreferences s; windowAbout := windowAbout s;
     windowCreate := windowCreate s; windowManager := v;
     windowMigrate := windowMigrate s; delete_dialog := delete_dialog s;
     inspection := inspection s; err := err s; trace := trace s |}.

Definition set_windowMigrate (v : option nat) (s : vmmEngineFull) :=
  {| core := core s; windowConnect := windowConnect s;
     windowPreferences := windowPreferences s; windowAbout := windowAbout s;
     windowCreate := windowCreate s; windowManager := windowManager s;
     windowMigrate := v; delete_dialog := delete_dialog s;
     inspection := inspection s; err := err s; trace := trace s |}.

Definition set_delete_dialog (v : option nat) (s : vmmEngineFull) :=
  {| core := core s; windowConnect := windowConnect s;
     windowPreferences := windowPreferences s; windowAbout := windowAbout s;
     windowCreate := windowCreate s; windowManager := windowManager s;
     windowMigrate := windowMigrate s; delete_dialog := v;
     inspection := inspection s; err := err s; trace := trace s |}.

Definition set_inspection (v : option nat) (s : vmmEngineFull) :=
  {| core := core s; windowConnect := windowConnect s;
     windowPreferences := windowPreferences s; windowAbout := windowAbout s;
     windowCreate := windowCreate s; windowManager := windowManager s;
     windowMigrate := windowMigrate s; delete_dialog := delete_dialog s;
     inspection := v; err := err s; trace := trace s |}.

Definition set_err (v : option nat) (s : vmmEngineFull) :=
  {| core := core s; windowConnect := windowConnect s;
     windowPreferences := windowPreferences s; windowAbout := windowAbout s;
     windowCreate := windowCreate s; windowManager := windowManager s;
     windowMigrate := windowMigrate s; delete_dialog := delete_dialog s;
     inspection := inspection s; err := v; trace := trace s |}.

Definition set_trace (v : list event2) (s : vmmEngineFull) :=
  {| core := core s; windowConnect := windowConnect s;
     windowPreferences := windowPreferences s; windowAbout := windowAbout s;
     windowCreate := windowCreate s; windowManager := windowManager s;
     windowMigrate := windowMigrate s; delete_dialog := delete_dialog s;
     inspection := inspection s; err := err s; trace := v |}.

(** [self.timer = v], [self.systray = v] and [self.conns = v] on the part of
    the engine the registry methods share. *)
Definition set_timer (v : option nat) (s : vmmEngine) : vmmEngine :=
  {| conns := conns s; timer := v; _tick_thread := _tick_thread s;
     _tick_thread_slow := _tick_thread_slow s; windows := windows s;
     systray := systray s; conn_uris := conn_uris s;
     error_msg := error_msg s; next_id := next_id s; log := log s |}.

Definition set_systray (v : option nat) (s : vmmEngine) : vmmEngine :=
  {| conns := conns s; timer := timer s; _tick_thread := _tick_thread s;
     _tick_thread_slow := _tick_thread_slow s; windows := windows s;
     systray := v; conn_uris := conn_uris s;
     error_msg := error_msg s; next_id := next_id s; log := log s |}.

(** [vmmEngine.__init__], as far as these attributes go: no window yet, the
    error dialog [err_dialog] in place. *)
Definition init_full (c : vmmEngine) (err_dialog : nat) : vmmEngineFull :=
  {| core := c; windowConnect := None; windowPreferences := None;
     windowAbout := None; windowCreate := None; windowManager := None;
     windowMigrate := None; delete_dialog := None; inspection := None;
     err := Some err_dialog; trace := [] |}.

(** *** Methods over the whole engine *)

Definition M2 (A : Type) : Type := vmmEngineFull → res A * vmmEngineFull.

Global Instance M2_ret : MRet M2 := λ A a s, (Ret a, s).

Global Instance M2_bind : MBind M2 := λ A B f m s,
  match m s with
  | (Ret a, s') => f a s'
  | (Raise e, s') => (Raise e, s')
  end.

Definition get2 : M2 vmmEngineFull := λ s, (Ret s, s).
Definition modify2 (f : vmmEngineFull → vmmEngineFull) : M2 unit :=
  λ s, (Ret tt, f s).
Definition raise2 {A} (e : exn) : M2 A := λ s, (Raise e, s).

Definition try_except2 {A} (body : M2 A) (handler : exn → M2 A) : M2 A := λ s,
  match body s with
  | (Ret a, s') => (Ret a, s')
  | (Raise e, s') => handler e s'
  end.

Fixpoint for2 {A} (l : list A) (body : A → M2 unit) : M2 unit :=
  match l with
  | [] => mret tt
  | x :: l' => body x ;; for2 l' body
  end.

Definition when2 (b : bool) (m : M2 unit) : M2 unit := if b then m else mret tt.

(** A registry method run on the whole engine: what it adds to its log goes
    into the trace. *)
Definition lift {A} (m : M A) : M2 A := λ s,
  let '(r, c) := m (core s) in
  (r, set_trace (trace s ++ (core_event <$> new_events (core s) c))
        (set_core c s)).

Definition record2 (ev : event2) : M2 unit :=
  modify2 (λ s, set_trace (trace s ++ [ev]) s).

Definition call2 (env2 : environment2) (c : extcall2) : M2 unit :=
  record2 (called2 c) ;;
  match raises2 env2 c with
  | Some e => raise2 e
  | None => mret tt
  end.

(** [if self.<window>: self.<window>.cleanup(); self.<window> = None], the
    statement [_cleanup] repeats for each singleton window. *)
Definition cleanup_window (env2 : environment2)
    (field : vmmEngineFull → option nat)
    (clear : vmmEngineFull → vmmEngineFull) : M2 unit :=
  self ← get2;
  match field self with
  | Some w => lift (call (env env2) (win_cleanup w)) ;; modify2 clear
  | None => mret tt
  end.

(** [vmmEngine.connect(name, callback)]: registering an observer of
    [conn-added] replays the event for every registered connection. *)
Definition connect (name : string) : M2 unit :=
  when2 (String.eqb name "conn-added")
    (self ← get2;
     for2 (dict_keys (conns (core self)))
       (λ uri,
          e ← lift (getitem_conns uri);
          lift (record (emit_conn_added (conn e))))).

(** [vmmEngine.get_manager].  Making the [vmmManager] object and wiring its
    own signals allocate and register only. *)
Definition get_manager : M2 nat :=
  self ← get2;
  match windowManager self with
  | Some w => mret w
  | None =>
      obj ← lift fresh;
      connect "conn-added" ;;
      connect "conn-removed" ;;
      modify2 (set_windowManager (Some obj)) ;;
      mret obj
  end.

(** [vmmEngine._do_show_manager(src)]; [src] is [None] when called from
    [show_manager]. *)
Definition _do_show_manager (env2 : environment2) (src : option nat) : M2 unit :=
  try_except2
    (manager ← get_manager;
     call2 env2 (win_show manager))
    (λ e,
       if is_Exception e then
         match src with
         | None => raise2 e
         | Some src =>
             lift (record (show_err src ("Error launching manager: " +:+ str e)))
         end
       else raise2 e).

Definition show_manager (env2 : environment2) : M2 unit :=
  _do_show_manager env2 None.

(** [vmmEngine._do_toggle_manager] *)
Definition _do_toggle_manager (env2 : environment2) : M2 unit :=
  manager ← get_manager;
  if is_visible (env env2) manager then call2 env2 (win_close manager)
  else call2 env2 (win_show manager).

(** [vmmEngine.system_tray_changed] *)
Definition system_tray_changed (env2 : environment2) : M2 unit :=
  let systray_enabled := get_view_system_tray env2 in
  self ← get2;
  when2 ((windows (core self) =? 0) && negb systray_enabled)
    (show_manager env2).

(** [vmmEngine.schedule_timer] *)
Definition schedule_timer (env2 : environment2) : M2 unit :=
  let interval := get_stats_update_interval env2 * 1000 in
  self ← get2;
  match timer (core self) with
  | Some t =>
      call2 env2 (remove_gobject_timeout t) ;;
      modify2 (λ s, set_core (set_timer None (core s)) s)
  | None => mret tt
  end ;;
  t ← lift fresh;
  call2 env2 (timeout_add interval t) ;;
  modify2 (λ s, set_core (set_timer (Some t) (core s)) s).

(** [vmmEngine._cleanup], statement by statement. *)
Definition _cleanup (env2 : environment2) : M2 unit :=
  call2 env2 uihelpers_cleanup ;;
  modify2 (set_err None) ;;
  (self ← get2;
   match inspection self with
   | Some i => call2 env2 (obj_cleanup i) ;; modify2 (set_inspection None)
   | None => mret tt
   end) ;;
  (self ← get2;
   match timer (core self) with
   | Some t => call2 env2 (GLib_source_remove t)
   | None => mret tt
   end) ;;
  (self ← get2;
   match systray (core self) with
   | Some t =>
       call2 env2 (obj_cleanup t) ;;
       modify2 (λ s, set_core (set_systray None (core s)) s)
   | None => mret tt
   end) ;;
  get_manager ;;
  cleanup_window env2 windowManager (set_windowManager None) ;;
  cleanup_window env2 windowPreferences (set_windowPreferences None) ;;
  cleanup_window env2 windowAbout (set_windowAbout None) ;;
  cleanup_window env2 windowConnect (set_windowConnect None) ;;
  cleanup_window env2 windowCreate (set_windowCreate None) ;;
  cleanup_window env2 windowMigrate (set_windowMigrate None) ;;
  cleanup_window env2 delete_dialog (set_delete_dialog None) ;;
  (self ← get2;
   for2 (dict_keys (conns (core self)))
     (λ uri, lift (cleanup_conn (env env2) uri))) ;;
  modify2 (λ s, set_core (set_conns ∅ (core s)) s).

(** [vmmEngine.exit_app(src)].  [cleanup] is the method the engine inherits
    from [vmmGObject] ([virtManager/baseclass.py]).  The branch under
    [debug_ref_leaks], a module constant set to [False], is not taken. *)
Definition exit_app (env2 : environment2) (cleanup : M2 unit) (src : nat)
  : M2 unit :=
  self ← get2;
  match err self with
  | None => mret tt
  | Some _ =>
      cleanup ;;
      lift (record (logging_debug "Exiting app normally.")) ;;
      when2 (negb (Nat.eqb (main_level env2) 0))
        (lift (record (logging_debug
                         (pretty (main_level env2) +:+
                          " other gtk main loops running, killing them."))) ;;
         for2 (seq 0 (main_level env2)) (λ _, call2 env2 Gtk_main_quit)) ;;
      call2 env2 application_remove_window
  end.

(** [self.conns[uri]["windowHost"] = obj] *)
Definition setitem_windowHost (uri : string) (obj : nat) : M unit :=
  e ← getitem_conns uri;
  modify (λ s, set_conns
                 (<[uri := {| conn := conn e; windowHost := Some obj;
                              windowDetails := windowDetails e;
                              windowClone := windowClone e |}]> (conns s)) s).

(** [self.conns[uri]["windowClone"] = obj] *)
Definition setitem_windowClone (uri : string) (obj : nat) : M unit :=
  e ← getitem_conns uri;
  modify (λ s, set_conns
                 (<[uri := {| conn := conn e; windowHost := windowHost e;
                              windowDetails := windowDetails e;
                              windowClone := Some obj |}]> (conns s)) s).

(** [vmmEngine._get_host_dialog].  Making the [vmmHost] object and wiring
    its signals allocate and register only. *)
Definition _get_host_dialog (uri : string) : M nat :=
  e ← getitem_conns uri;
  match windowHost e with
  | Some w => mret w
  | None =>
      con ← _lookup_conn uri;
      obj ← fresh;
      setitem_windowHost uri obj ;;
      mret obj
  end.

(** The handler of the dialog launchers:
    [except Exception, e: src.err.show_err(intro % str(e))]. *)
Definition report_to (src : nat) (intro : string) (e : exn) : M2 unit :=
  if is_Exception e then lift (record (show_err src (intro +:+ str e)))
  else raise2 e.

(** [vmmEngine._do_show_host] *)
Definition _do_show_host (env2 : environment2) (src : nat) (uri : string)
  : M2 unit :=
  try_except2
    (w ← lift (_get_host_dialog uri);
     call2 env2 (win_show w))
    (report_to src "Error launching host dialog: ").

(** [vmmEngine._do_show_about] *)
Definition _do_show_about (env2 : environment2) (src : nat) : M2 unit :=
  try_except2
    (self ← get2;
     w ← match windowAbout self with
         | None =>
             obj ← lift fresh;
             modify2 (set_windowAbout (Some obj)) ;;
             mret obj
         | Some w => mret w
         end;
     call2 env2 (win_show w))
    (report_to src "Error launching 'About' dialog: ").

(** [vmmEngine._get_preferences] and [_do_show_preferences] *)
Definition _get_preferences : M2 nat :=
  self ← get2;
  match windowPreferences self with
  | Some w => mret w
  | None =>
      obj ← lift fresh;
      modify2 (set_windowPreferences (Some obj)) ;;
      mret obj
  end.

Definition _do_show_preferences (env2 : environment2) (src : nat) : M2 unit :=
  try_except2
    (w ← _get_preferences;
     call2 env2 (win_show w))
    (report_to src "Error launching preferences: ").

(** [vmmEngine._get_create_dialog] and [_do_show_create] *)
Definition _get_create_dialog : M2 nat :=
  self ← get2;
  match windowCreate self with
  | Some w => mret w
  | None =>
      obj ← lift fresh;
      modify2 (set_windowCreate (Some obj)) ;;
      mret obj
  end.

Definition _do_show_create (env2 : environment2) (src : nat) (uri : string)
  : M2 unit :=
  try_except2
    (w ← _get_create_dialog;
     call2 env2 (win_show w))
    (report_to src "Error launching manager: ").

(** [vmmEngine._do_show_clone] *)
Definition _do_show_clone (env2 : environment2) (src : nat) (uri uuid : string)
  : M2 unit :=
  con ← lift (_lookup_conn uri);
  orig_vm ← lift (get_vm (env env2) con uuid);
  e ← lift (getitem_conns uri);
  let clone_window := windowClone e in
  try_except2
    (clone_window ←
       match clone_window with
       | None =>
           obj ← lift fresh;
           lift (setitem_windowClone uri obj) ;;
           mret obj
       | Some w =>
           call2 env2 (clone_set_orig_vm w orig_vm) ;;
           mret w
       end;
     call2 env2 (win_show clone_window))
    (report_to src "Error setting clone parameters: ").

(** [vmmEngine._do_conn_changed] *)
Definition _do_conn_changed (env2 : environment2) (conn : vmmConnection)
  : M2 unit :=
  if bool_decide (get_state env2 conn = STATE_ACTIVE)
     || bool_decide (get_state env2 conn = STATE_CONNECTING)
  then mret tt
  else
    let hvuri := get_uri conn in
    e ← lift (getitem_conns hvuri);
    for2 (dict_keys (windowDetails e))
      (λ vmuuid,
         w ← lift (getitem_windowDetails hvuri vmuuid);
         lift (call (env env2) (win_cleanup w)) ;;
         lift (delitem_windowDetails hvuri vmuuid)) ;;
    self ← get2;
    match windowCreate self with
    | Some w =>
        match create_conn env2 w with
        | Some c =>
            when2 (String.eqb (get_uri c) hvuri) (call2 env2 (win_close w))
        | None => mret tt
        end
    | None => mret tt
    end.

(** The cli launchers of a details window:
    [self._show_vm_helper(self.get_manager(), uri, uuid, page=..., forcepage=True)] *)
Definition show_domain_console (env2 : environment2) (uri uuid : string)
  : M2 unit :=
  manager ← get_manager;
  lift (_show_vm_helper (env env2) manager uri uuid (Some DETAILS_CONSOLE) true) ;;
  mret tt.

Definition show_domain_editor (env2 : environment2) (uri uuid : string)
  : M2 unit :=
  manager ← get_manager;
  lift (_show_vm_helper (env env2) manager uri uuid (Some DETAILS_CONFIG) true) ;;
  mret tt.

Definition show_domain_performance (env2 : environment2) (uri uuid : string)
  : M2 unit :=
  manager ← get_manager;
  lift (_show_vm_helper (env env2) manager uri uuid (Some DETAILS_PERF) true) ;;
  mret tt.

(** [show_host_summary] and [show_domain_creator] *)
Definition show_host_summary (env2 : environment2) (uri : string) : M2 unit :=
  manager ← get_manager;
  _do_show_host env2 manager uri.

Definition show_domain_creator (env2 : environment2) (uri : string) : M2 unit :=
  manager ← get_manager;
  _do_show_create env2 manager uri.

(** [vmmAsyncJob.simple_async_noshow] around a call of this layer; see
    [Engine.simple_async_noshow]. *)
Definition simple_async_noshow2 (callback : M2 unit) (src : nat)
    (errorintro : string) : M2 unit :=
  try_except2 callback (λ e, lift (record (async_error src errorintro e))).

(** The power actions.  Each but [_do_resume_domain] asks first, with a
    question of its own. *)
Definition _do_destroy_domain (env2 : environment2) (src : nat)
    (uri uuid : string) : M2 unit :=
  conn ← lift (_lookup_conn uri);
  vm ← lift (get_vm (env env2) conn uuid);
  if negb (chkbox_helper (env env2) src
             ("Are you sure you want to force poweroff '" +:+
              get_name (env env2) vm +:+ "'?"))
  then mret tt
  else
    lift (record (logging_debug
                    ("Destroying vm '" +:+ get_name (env env2) vm +:+ "'"))) ;;
    simple_async_noshow2 (call2 env2 (vm_destroy vm)) src
      "Error shutting down domain".

Definition _do_suspend_domain (env2 : environment2) (src : nat)
    (uri uuid : string) : M2 unit :=
  conn ← lift (_lookup_conn uri);
  vm ← lift (get_vm (env env2) conn uuid);
  if negb (chkbox_helper (env env2) src
             ("Are you sure you want to pause '" +:+
              get_name (env env2) vm +:+ "'?"))
  then mret tt
  else
    lift (record (logging_debug
                    ("Pausing vm '" +:+ get_name (env env2) vm +:+ "'"))) ;;
    simple_async_noshow2 (call2 env2 (vm_suspend vm)) src
      "Error pausing domain".

Definition _do_resume_domain (env2 : environment2) (src : nat)
    (uri uuid : string) : M2 unit :=
  conn ← lift (_lookup_conn uri);
  vm ← lift (get_vm (env env2) conn uuid);
  lift (record (logging_debug
                  ("Unpausing vm '" +:+ get_name (env env2) vm +:+ "'"))) ;;
  simple_async_noshow2 (call2 env2 (vm_resume vm)) src
    "Error unpausing domain".

Definition _do_shutdown_domain (env2 : environment2) (src : nat)
    (uri uuid : string) : M2 unit :=
  conn ← lift (_lookup_conn uri);
  vm ← lift (get_vm (env env2) conn uuid);
  if negb (chkbox_helper (env env2) src
             ("Are you sure you want to poweroff '" +:+
              get_name (env env2) vm +:+ "'?"))
  then mret tt
  else
    lift (record (logging_debug
                    ("Shutting down vm '" +:+ get_name (env env2) vm +:+ "'"))) ;;
    simple_async_noshow2 (call2 env2 (vm_shutdown vm)) src
      "Error shutting down domain".

Definition _do_reset_domain (env2 : environment2) (src : nat)
    (uri uuid : string) : M2 unit :=
  conn ← lift (_lookup_conn uri);
  vm ← lift (get_vm (env env2) conn uuid);
  if negb (chkbox_helper (env env2) src
             ("Are you sure you want to force reset '" +:+
              get_name (env env2) vm +:+ "'?"))
  then mret tt
  else
    lift (record (logging_debug
                    ("Resetting vm '" +:+ get_name (env env2) vm +:+ "'"))) ;;
    simple_async_noshow2 (call2 env2 (vm_reset vm)) src
      "Error resetting domain".

(** *** Observations on the trace *)

(** What a method adds to the trace. *)
Definition new_trace (before after : vmmEngineFull) : list event2 :=
  drop (length (trace before)) (trace after).

(** [m] only adds to the trace, and only events that satisfy [P]. *)
Definition traces_only (P : event2 → Prop) {A} (m : M2 A) : Prop :=
  ∀ s, ∃ added, trace (m s).2 = trace s ++ added ∧ Forall P added.

(** When [m] returns, [Q] holds. *)
Definition ensures (Q : vmmEngineFull → Prop) {A} (m : M2 A) : Prop :=
  ∀ s, match m s with
       | (Ret _, s') => Q s'
       | (Raise _, _) => True
       end.

(** [m] keeps [I]. *)
Definition preserves2 (I : vmmEngineFull → Prop) {A} (m : M2 A) : Prop :=
  ∀ s, I s → I (m s).2.

(** The timers a trace leaves armed: those [timeout_add] gave and
    [remove_gobject_timeout] has not taken back. *)
Fixpoint armed (tr : list event2) (acc : list nat) : list nat :=
  match tr with
  | [] => acc
  | called2 (timeout_add _ t) :: tr' => armed tr' (acc ++ [t])
  | called2 (remove_gobject_timeout t) :: tr' =>
      armed tr' (filter (λ x, x ≠ t) acc)
  | _ :: tr' => armed tr' acc
  end.

(** The engine's [timer] attribute names the one armed timer, if any. *)
Definition timer_tracks_armed (s : vmmEngineFull) : Prop :=
  armed (trace s) [] = from_option (λ t, [t]) [] (timer (core s)).

(** The window attributes of the engine. *)
Definition no_window_left (s : vmmEngineFull) : Prop :=
  windowManager s = None ∧ windowPreferences s = None ∧ windowAbout s = None ∧
  windowConnect s = None ∧ windowCreate s = None ∧ windowMigrate s = None ∧
  delete_dialog s = None.

(** The singleton windows the launchers make on demand. *)
Inductive singleton : Type :=
| the_manager | the_preferences | the_about | the_create.

Definition singleton_of (k : singleton) : vmmEngineFull → option nat :=
  match k with
  | the_manager => windowManager
  | the_preferences => windowPreferences
  | the_about => windowAbout
  | the_create => windowCreate
  end.

(** The window [w] is the engine's singleton of kind [k]. *)
Definition made (k : singleton) (w : nat) (s : vmmEngineFull) : Prop :=
  singleton_of k s = Some w.

(** The power actions, by name. *)
Inductive power_action : Type :=
| act_destroy | act_suspend | act_resume | act_shutdown | act_reset.

Definition run_power_action (env2 : environment2) (a : power_action)
  : nat → string → string → M2 unit :=
  match a with
  | act_destroy => _do_destroy_domain env2
  | act_suspend => _do_suspend_domain env2
  | act_resume => _do_resume_domain env2
  | act_shutdown => _do_shutdown_domain env2
  | act_reset => _do_reset_domain env2
  end.

(** The hypervisor call of a power action and the question it asks. *)
Definition power_call (a : power_action) (vm : vmmDomain) : extcall2 :=
  match a with
  | act_destroy => vm_destroy vm
  | act_suspend => vm_suspend vm
  | act_resume => vm_resume vm
  | act_shutdown => vm_shutdown vm
  | act_reset => vm_reset vm
  end.

Definition power_question (a : power_action) (name : string) : option string :=
  match a with
  | act_destroy => Some ("Are you sure you want to force poweroff '" +:+ name +:+ "'?")
  | act_suspend => Some ("Are you sure you want to pause '" +:+ name +:+ "'?")
  | act_resume => None
  | act_shutdown => Some ("Are you sure you want to poweroff '" +:+ name +:+ "'?")
  | act_reset => Some ("Are you sure you want to force reset '" +:+ name +:+ "'?")
  end.

(** *** Sample environments and engines *)

(** Every call returns; the tray is off, no nested main loop runs, every
    connection is active and the create window has no connection. *)
Definition calm2 : environment2 :=
  {| env := calm; raises2 := λ _, None; get_view_system_tray := false;
     get_stats_update_interval := 3; main_level := 0;
     get_state := λ _, STATE_ACTIVE; create_conn := λ _, None |}.

Definition with_get_state (f : vmmConnection → conn_state)
    (env2 : environment2) : environment2 :=
  {| env := env env2; raises2 := raises2 env2;
     get_view_system_tray := get_view_system_tray env2;
     get_stats_update_interval := get_stats_update_interval env2;
     main_level := main_level env2; get_state := f;
     create_conn := create_conn env2 |}.

Definition with_env (e : environment) (env2 : environment2) : environment2 :=
  {| env := e; raises2 := raises2 env2;
     get_view_system_tray := get_view_system_tray env2;
     get_stats_update_interval := get_stats_update_interval env2;
     main_level := main_level env2; get_state := get_state env2;
     create_conn := create_conn env2 |}.

Definition with_raises2 (f : extcall2 → option exn) (env2 : environment2)
  : environment2 :=
  {| env := env env2; raises2 := f;
     get_view_system_tray := get_view_system_tray env2;
     get_stats_update_interval := get_stats_update_interval env2;
     main_level := main_level env2; get_state := get_state env2;
     create_conn := create_conn env2 |}.

(** No window can be shown. *)
Definition show_fails : environment2 :=
  with_raises2 (λ c, match c with
                     | win_show _ => Some (Exception "cannot open display")
                     | _ => None
                     end) calm2.

(** The engine of [two_conns] and of [windowed], no singleton window made. *)
Definition full_two_conns : vmmEngineFull := init_full two_conns 100.
Definition full_windowed : vmmEngineFull := init_full windowed 100.

(** An engine in full use: timer armed, tray icon, inspection thread, the
    manager, about and create windows made, over the registry of [windowed]. *)
Definition full_busy : vmmEngineFull :=
  {| core := set_timer (Some 7%nat) (set_systray (Some 8%nat) windowed);
     windowConnect := None; windowPreferences := None;
     windowAbout := Some 21%nat; windowCreate := Some 22%nat;
     windowManager := Some 20%nat; windowMigrate := None;
     delete_dialog := None; inspection := Some 23%nat;
     err := Some 100%nat;
     trace := [called2 (timeout_add 3000 7%nat)] |}.

End EngineWindows.

(** * Properties *)

(** ** [DeviceTpm.set_defaults] *)

Module TpmFacts.
Import Py Tpm.

Lemma truthy_Some_nonempty (x : option string) :
  truthy x = true ↔ ∃ s, x = Some s ∧ s ≠ "".
Proof.
  destruct x as [s|]; simpl.
  - rewrite negb_true_iff. split.
    + intros H. exists s. split; [done|]. intros ->. by rewrite String.eqb_refl in H.
    + intros (s' & [= <-] & Hne). by apply String.eqb_neq.
  - split; [done|]. by intros (? & ? & ?).
Qed.

(** C10.  After [set_defaults], [type] and [model] are non-empty strings;
    each keeps its value when it was already a non-empty string and becomes
    "passthrough", respectively "tpm-tis", otherwise; [version] and
    [device_path] are as before. *)
Theorem set_defaults_fills_type_and_model {Guest : Type}
    (d : DeviceTpm) (guest : Guest) :
  let d' := set_defaults d guest in
  (∃ t, type d' = Some t ∧ t ≠ "") ∧
  (∃ m, model d' = Some m ∧ m ≠ "") ∧
  type d' = (if truthy (type d) then type d else Some "passthrough") ∧
  model d' = (if truthy (model d) then model d else Some "tpm-tis") ∧
  version d' = version d ∧
  device_path d' = device_path d.
Proof.
  intros d'. subst d'. unfold set_defaults.
  rewrite <- !truthy_Some_nonempty.
  destruct d as [t v m p]; simpl.
  destruct (truthy t) eqn:Ht, (truthy m) eqn:Hm; simpl;
    rewrite ?Ht, ?Hm; done.
Qed.

End TpmFacts.

(** ** The engine *)

Module EngineFacts.
Import Py Engine Runs.

(** Unfolds the plumbing of [M] so that a method applied to an engine
    computes. *)
Ltac unfold_M :=
  unfold when, call, record, fresh, modify, get, raise, try_except;
  unfold mbind, M_bind, mret, M_ret; simpl.

Ltac unfold_M_in H :=
  unfold when, call, record, fresh, modify, get, raise, try_except in H;
  unfold mbind, M_bind, mret, M_ret in H; simpl in H.

(** Membership in a list written with [::] and [++]. *)
Ltac in_list :=
  repeat (rewrite elem_of_app || rewrite elem_of_cons); tauto.

Lemma new_events_app (s s' : vmmEngine) (added : list event) :
  log s' = log s ++ added → new_events s s' = added.
Proof. intros H. unfold new_events. rewrite H. apply drop_app_length. Qed.

Lemma count_event_app (ev : event) (l1 l2 : list event) :
  count_event ev (l1 ++ l2) = (count_event ev l1 + count_event ev l2)%nat.
Proof. unfold count_event. by rewrite filter_app, length_app. Qed.

(** *** The window counter *)

Section window_counter.

Lemma increment_window_counter_windows (src : nat) (s : vmmEngine) :
  windows (increment_window_counter src s).2 = windows s + 1.
Proof. reflexivity. Qed.

Lemma decrement_window_counter_windows (env : environment) (src : nat)
    (s : vmmEngine) :
  windows (decrement_window_counter env src s).2 = windows s - 1.
Proof.
  unfold decrement_window_counter. unfold_M.
  destruct (windows s - 1 <=? 0); simpl; [|done].
  destruct (systray s) as [tray|]; [|done].
  by destruct (is_visible env tray).
Qed.

Lemma do_counter_call_windows (c : environment * counter_call) (s : vmmEngine) :
  windows (do_counter_call c.1 c.2 s).2 = windows s + delta c.
Proof.
  destruct c as [env [src|src]]; unfold delta, is_increment;
    cbn [fst snd do_counter_call].
  - apply increment_window_counter_windows.
  - rewrite decrement_window_counter_windows. lia.
Qed.

Lemma increments_cons c calls :
  increments (c :: calls) =
  ((if is_increment c then 1 else 0) + increments calls)%nat.
Proof.
  unfold increments. rewrite filter_cons.
  destruct (is_increment c); by case_decide.
Qed.

Lemma decrements_cons c calls :
  decrements (c :: calls) =
  ((if is_increment c then 0 else 1) + decrements calls)%nat.
Proof.
  unfold decrements. rewrite filter_cons.
  destruct (is_increment c); by case_decide.
Qed.

(** The counter is the balance of the calls made so far. *)
Lemma counter_history_lookup calls s (n : nat) (z : Z) :
  counter_history calls s !! n = Some z →
  z = windows s + Z.of_nat (increments (take (S n) calls))
      - Z.of_nat (decrements (take (S n) calls)).
Proof.
  revert s n. induction calls as [|c calls IH]; intros s n; [done|].
  destruct c as [env c]. simpl counter_history.
  rewrite firstn_cons, increments_cons, decrements_cons.
  pose proof (do_counter_call_windows (env, c) s) as Hw. simpl in Hw.
  destruct n as [|n]; simpl lookup.
  - intros [= <-]. rewrite Hw. unfold delta.
    rewrite take_0.
    change (increments []) with 0%nat. change (decrements []) with 0%nat.
    destruct (is_increment (env, c)); lia.
  - intros H. apply IH in H. rewrite H, Hw. unfold delta.
    destruct (is_increment (env, c)); lia.
Qed.

End window_counter.

(** C2, as the code has it.  The counter moves by exactly one per call and
    nothing clamps it: [increment_window_counter] adds one,
    [decrement_window_counter] takes one off whatever the counter is, zero
    and below included, so that after every call of a sequence the counter
    is its first value plus the increments minus the decrements made so
    far.  Starting from zero it is therefore not negative after each call
    provided that, at every point of the sequence, no more
    [decrement_window_counter] than [increment_window_counter] calls have
    been made. *)
Theorem window_counter_nonneg_when_opens_cover_closes
    (calls : list (environment * counter_call)) (s : vmmEngine) :
  (∀ src s0, windows (increment_window_counter src s0).2 = windows s0 + 1) ∧
  (∀ env src s0,
     windows (decrement_window_counter env src s0).2 = windows s0 - 1) ∧
  (∀ (n : nat) z,
     counter_history calls s !! n = Some z →
     z = windows s + Z.of_nat (increments (take (S n) calls))
         - Z.of_nat (decrements (take (S n) calls))) ∧
  (windows s = 0 →
   (∀ n : nat, (decrements (take n calls) ≤ increments (take n calls))%nat) →
   Forall (λ z, 0 ≤ z) (counter_history calls s)).
Proof.
  split; [apply increment_window_counter_windows|].
  split; [apply decrement_window_counter_windows|].
  split; [intros n z; apply counter_history_lookup|].
  intros Hs Hbal. apply Forall_lookup. intros n z Hn.
  apply counter_history_lookup in Hn. specialize (Hbal (S n)). lia.
Qed.

Lemma window_counter_nonneg_witness :
  Forall (λ z, 0 ≤ z)
    (counter_history [(calm, increment 1); (calm, decrement 1)] engine0).
Proof.
  destruct (window_counter_nonneg_when_opens_cover_closes
              [(calm, increment 1); (calm, decrement 1)] engine0)
    as (_ & _ & _ & Hnonneg).
  apply Hnonneg.
  - reflexivity.
  - intros [|[|[|n]]]; vm_compute; lia.
Defined.

(** C2, as stated, fails: one [decrement_window_counter] on a counter of
    zero leaves it at -1. *)
Lemma window_counter_goes_negative :
  windows engine0 = 0 ∧
  counter_history [(calm, decrement 1)] engine0 = [-1] ∧
  ¬ Forall (λ z, 0 ≤ z) (counter_history [(calm, decrement 1)] engine0).
Proof.
  split; [reflexivity|]. split; [reflexivity|].
  intros H. apply Forall_cons_1 in H as [H _]. vm_compute in H. by apply H.
Qed.

(** *** The timer callback *)

Section tick.

Lemma tick_skip (env : environment) (s : vmmEngine) :
  worker_alive env s = true →
  tick env s =
  (Ret 1,
   if _tick_thread_slow s then s
   else set_tick_thread_slow true (set_log (log s ++ [slow_warning]) s)).
Proof.
  unfold tick. unfold_M. intros ->.
  by destruct (_tick_thread_slow s).
Qed.

Lemma tick_start (env : environment) (s : vmmEngine) :
  worker_alive env s = false →
  tick env s =
  (Ret 1,
   set_log (log s ++ [thread_start (next_id s)])
     (set_tick_thread (Some (next_id s)) (set_next_id (S (next_id s)) s))).
Proof. unfold tick. unfold_M. by intros ->. Qed.

(** [tick] never clears the slow flag. *)
Lemma tick_keeps_slow (env : environment) (s : vmmEngine) :
  _tick_thread_slow s = true → _tick_thread_slow (tick env s).2 = true.
Proof.
  intros Hslow. destruct (worker_alive env s) eqn:Halive.
  - rewrite tick_skip by done. by rewrite Hslow.
  - by rewrite tick_start by done.
Qed.

(** What one [tick] logs, as far as the slow warning goes. *)
Lemma tick_log (env : environment) (s : vmmEngine) :
  ∃ added,
    log (tick env s).2 = log s ++ added ∧
    (count_event slow_warning added ≤
       if _tick_thread_slow s then 0 else 1)%nat ∧
    (count_event slow_warning added = 1%nat →
       _tick_thread_slow (tick env s).2 = true).
Proof.
  destruct (worker_alive env s) eqn:Halive.
  - rewrite tick_skip by done. destruct (_tick_thread_slow s) eqn:Hslow.
    + exists []. rewrite app_nil_r. split; [done|]. split; [done|]. done.
    + exists [slow_warning]. split; [done|]. split; [done|]. done.
  - rewrite tick_start by done. exists [thread_start (next_id s)].
    split; [done|]. split; [|done].
    vm_compute. destruct (_tick_thread_slow s); lia.
Qed.

Lemma run_ticks_log (envs : list environment) (s : vmmEngine) :
  ∃ added,
    log (run_ticks envs s) = log s ++ added ∧
    (count_event slow_warning added ≤
       if _tick_thread_slow s then 0 else 1)%nat.
Proof.
  revert s. induction envs as [|env envs IH]; intros s.
  - exists []. rewrite app_nil_r. split; [done|].
    destruct (_tick_thread_slow s); vm_compute; lia.
  - simpl. destruct (tick_log env s) as (a1 & Hl1 & Hc1 & Hs1).
    destruct (IH (tick env s).2) as (a2 & Hl2 & Hc2).
    exists (a1 ++ a2). split.
    + by rewrite Hl2, Hl1, app_assoc.
    + rewrite count_event_app.
      destruct (_tick_thread_slow s) eqn:Hslow.
      * rewrite (tick_keeps_slow env s Hslow) in Hc2. lia.
      * destruct (decide (count_event slow_warning a1 = 1%nat)) as [H1|H1].
        -- rewrite (Hs1 H1) in Hc2. lia.
        -- destruct (_tick_thread_slow (tick env s).2); lia.
Qed.

End tick.

(** C3, as the code has it.  A [tick] that finds the previous worker alive
    returns 1, which keeps the timer, starts no thread and leaves [timer] and
    [_tick_thread] as they are; it leaves the slow flag set, and logs the
    warning exactly when the flag was clear.  No [tick], skipped or not,
    clears the flag, so over any sequence of ticks the warning is logged at
    most once. *)
Theorem tick_skips_while_worker_alive
    (env : environment) (s : vmmEngine) (t : nat) :
  _tick_thread s = Some t →
  isAlive env t = true →
  (tick env s).1 = Ret 1 ∧
  keeps_timer (tick env s).1 = true ∧
  timer (tick env s).2 = timer s ∧
  _tick_thread (tick env s).2 = Some t ∧
  filter (λ ev, is_thread_start ev = true) (new_events s (tick env s).2) = [] ∧
  _tick_thread_slow (tick env s).2 = true ∧
  new_events s (tick env s).2 =
    (if _tick_thread_slow s then [] else [slow_warning]) ∧
  (∀ env' s', _tick_thread_slow s' = true →
              _tick_thread_slow (tick env' s').2 = true) ∧
  (∀ envs s',
     (count_event slow_warning (new_events s' (run_ticks envs s')) ≤ 1)%nat).
Proof.
  intros Ht Halive.
  assert (worker_alive env s = true) as Hw by (unfold worker_alive; by rewrite Ht).
  rewrite (tick_skip env s Hw). simpl.
  split; [done|]. split; [done|].
  destruct (_tick_thread_slow s) eqn:Hslow; simpl.
  - repeat split; try done.
    + unfold new_events. by rewrite drop_all.
    + unfold new_events. by rewrite drop_all.
    + apply tick_keeps_slow.
    + intros envs s'. destruct (run_ticks_log envs s') as (a & Hl & Hc).
      rewrite (new_events_app _ _ _ Hl). destruct (_tick_thread_slow s'); lia.
  - rewrite (new_events_app s _ [slow_warning]) by done.
    repeat split; try done.
    + apply tick_keeps_slow.
    + intros envs s'. destruct (run_ticks_log envs s') as (a & Hl & Hc).
      rewrite (new_events_app _ _ _ Hl). destruct (_tick_thread_slow s'); lia.
Qed.

Lemma tick_skips_while_worker_alive_witness :
  (tick busy (tick calm engine0).2).1 = Ret 1 ∧
  _tick_thread_slow (tick busy (tick calm engine0).2).2 = true.
Proof.
  pose proof (tick_skips_while_worker_alive busy (tick calm engine0).2 0%nat)
    as H.
  destruct H as (H1 & _ & _ & _ & _ & H2 & _); [reflexivity|reflexivity|].
  split; [exact H1|exact H2].
Defined.

(** C3, as stated, fails on its last part: the tick that follows a skip and
    starts a new worker does not reset the slow flag, and the skip after it
    logs no warning. *)
Lemma slow_flag_not_reset_by_started_tick :
  _tick_thread_slow slow_engine = true ∧
  new_events slow_engine (tick calm slow_engine).2 = [thread_start 1] ∧
  _tick_thread_slow (tick calm slow_engine).2 = true ∧
  new_events (tick calm slow_engine).2
    (tick busy (tick calm slow_engine).2).2 = [].
Proof. vm_compute. done. Qed.

(** *** The refresh pass *)

Section refresh_pass.

Context (env : environment).

(** What the handler of [_tick_conn] adds to the log for a [libvirtError]. *)
Lemma _tick_conn_registered (frame : nat) (uri : string) (s : vmmEngine)
    (en : conn_entry) :
  conns s !! uri = Some en →
  _tick_conn env frame uri s =
  let s1 := set_log (log s ++ [called (conn_tick (conn en))]) s in
  match raises env (conn_tick (conn en)) with
  | None => (Ret tt, s1)
  | Some (libvirtError dom code msg) =>
      if is_transient env dom code then
        (Ret tt,
         set_log (log s1 ++
                    [logging_exception ("Could not refresh connection " +:+ uri)
                       (libvirtError dom code msg);
                     logging_debug
                       "Closing connection since libvirtd appears to have stopped";
                     idle_add (cb_conn_close (conn en))]) s)
      else
        (Ret tt,
         set_log (log s1 ++
                    [idle_add (cb_show_err_error_msg frame);
                     idle_add (cb_conn_close (conn en))])
           (set_error_msg
              (<[frame := "Error polling connection '" +:+ get_uri (conn en)
                          +:+ "': " +:+ msg]> (error_msg s)) s))
  | Some e => (Raise e, s1)
  end.
Proof.
  intros Hen. unfold _tick_conn, getitem_conns. unfold_M. rewrite Hen. simpl.
  destruct (raises env (conn_tick (conn en))) as [[]|]; simpl; try done.
  destruct (is_transient env dom code); simpl.
  - by rewrite <- !app_assoc.
  - by rewrite <- !app_assoc.
Qed.

Lemma _tick_conn_unregistered (frame : nat) (uri : string) (s : vmmEngine) :
  conns s !! uri = None →
  _tick_conn env frame uri s = (Raise (KeyError uri), s).
Proof.
  intros Hen. unfold _tick_conn, getitem_conns. unfold_M. by rewrite Hen.
Qed.

(** One iteration leaves the registry alone, only adds to the log, calls the
    connection's [tick] and lets through only what is not a [libvirtError]. *)
Lemma _tick_conn_step (frame : nat) (uri : string) (s : vmmEngine)
    (en : conn_entry) :
  conns s !! uri = Some en →
  conns (_tick_conn env frame uri s).2 = conns s ∧
  (∃ added, log (_tick_conn env frame uri s).2 = log s ++ added ∧
            called (conn_tick (conn en)) ∈ added) ∧
  (_tick_conn env frame uri s).1 =
    match raises env (conn_tick (conn en)) with
    | Some e => if is_libvirtError e then Ret tt else Raise e
    | None => Ret tt
    end.
Proof.
  intros Hen. rewrite (_tick_conn_registered frame uri s en Hen). simpl.
  destruct (raises env (conn_tick (conn en))) as [e|]; simpl.
  - destruct e; simpl;
      try (split; [done|]; split; [|done]; eexists; split; [done|];
           in_list).
    destruct (is_transient env dom code); simpl;
      (split; [done|]; split; [|done]; eexists; split;
       [by rewrite <- app_assoc|]; in_list).
  - split; [done|]. split; [|done]. eexists. split; [done|]. in_list.
Qed.

(** The loop over a list of registered keys, when every fault is a
    [libvirtError]. *)
Lemma for_tick_conn_completes (frame : nat) (keys : list string)
    (s : vmmEngine) :
  (∀ uri, uri ∈ keys → is_Some (conns s !! uri)) →
  (∀ uri en e, conns s !! uri = Some en →
               raises env (conn_tick (conn en)) = Some e →
               is_libvirtError e = true) →
  (for_ keys (_tick_conn env frame) s).1 = Ret tt ∧
  conns (for_ keys (_tick_conn env frame) s).2 = conns s ∧
  ∃ added,
    log (for_ keys (_tick_conn env frame) s).2 = log s ++ added ∧
    ∀ uri en, uri ∈ keys → conns s !! uri = Some en →
              called (conn_tick (conn en)) ∈ added.
Proof.
  revert s. induction keys as [|k keys IH]; intros s Hreg Hlv.
  - simpl. split; [done|]. split; [done|]. exists [].
    rewrite app_nil_r. split; [done|]. intros ? ? H. by apply elem_of_nil in H.
  - destruct (Hreg k) as [en Hen]; [in_list|].
    destruct (_tick_conn_step frame k s en Hen) as (Hc & (a1 & Hl1 & Hin1) & Hr).
    assert ((_tick_conn env frame k s).1 = Ret tt) as Hok.
    { rewrite Hr. destruct (raises env (conn_tick (conn en))) as [e|] eqn:He;
        [|done]. by rewrite (Hlv k en e Hen He). }
    simpl for_. unfold mbind, M_bind.
    destruct (_tick_conn env frame k s) as [r s1] eqn:Hstep.
    simpl in Hc, Hl1, Hok. subst r.
    destruct (IH s1) as (Hr2 & Hc2 & a2 & Hl2 & Hin2).
    { intros uri Huri. rewrite Hc. apply Hreg. in_list. }
    { intros uri en' e. rewrite Hc. exact (Hlv uri en' e). }
    split; [done|]. split; [congruence|].
    exists (a1 ++ a2). split; [by rewrite Hl2, Hl1, app_assoc|].
    intros uri en' Huri Hen'. apply elem_of_app.
    apply elem_of_cons in Huri as [->|Huri].
    + left. congruence.
    + right. apply (Hin2 uri en'); [done|]. by rewrite Hc.
Qed.


Lemma elem_of_dict_keys {V} (d : gmap string V) (k : string) :
  k ∈ dict_keys d ↔ is_Some (d !! k).
Proof.
  unfold dict_keys. rewrite list_elem_of_fmap. split.
  - intros ([k' v] & -> & H). apply elem_of_map_to_list in H. by exists v.
  - intros [v H]. exists (k, v). split; [done|]. by apply elem_of_map_to_list.
Qed.


End refresh_pass.


(** One iteration, for a registered connection whose [tick] raises a
    [libvirtError]. *)
Lemma _tick_conn_libvirt_fault
    (env : environment) (frame : nat) (uri : string) (s : vmmEngine)
    (en : conn_entry) (dom code : option Z) (msg : string) :
  conns s !! uri = Some en →
  raises env (conn_tick (conn en)) = Some (libvirtError dom code msg) →
  (_tick_conn env frame uri s).1 = Ret tt ∧
  log (_tick_conn env frame uri s).2 =
    log s ++ libvirt_fault_events env frame uri (conn en) dom code msg.
Proof.
  intros Hen Hraise. rewrite (_tick_conn_registered env frame uri s en Hen).
  rewrite Hraise. unfold libvirt_fault_events. simpl.
  destruct (is_transient env dom code); simpl; by rewrite <- ?app_assoc.
Qed.

(** In a loop that completes, the events of each faulting connection stand
    together in the log. *)
Lemma for_tick_conn_block (env : environment) (frame : nat)
    (keys : list string) (s : vmmEngine) (uri : string) (en : conn_entry)
    (dom code : option Z) (msg : string) :
  (∀ k, k ∈ keys → is_Some (conns s !! k)) →
  (∀ k enk e, conns s !! k = Some enk →
              raises env (conn_tick (conn enk)) = Some e →
              is_libvirtError e = true) →
  uri ∈ keys →
  conns s !! uri = Some en →
  raises env (conn_tick (conn en)) = Some (libvirtError dom code msg) →
  ∃ before after,
    log (for_ keys (_tick_conn env frame) s).2 =
    log s ++ before ++
      libvirt_fault_events env frame uri (conn en) dom code msg ++ after.
Proof.
  revert s. induction keys as [|k keys IH]; intros s Hreg Hlv Huri Hen Hraise.
  - by apply elem_of_nil in Huri.
  - destruct (for_tick_conn_completes env frame (k :: keys) s Hreg Hlv)
      as (Hr & _ & _).
    destruct (Hreg k) as [enk Henk]; [in_list|].
    destruct (_tick_conn_step env frame k s enk Henk) as (Hc & (a1 & Hl1 & _) & Hr1).
    assert ((_tick_conn env frame k s).1 = Ret tt) as Hok.
    { rewrite Hr1. destruct (raises env (conn_tick (conn enk))) as [e|] eqn:He;
        [|done]. by rewrite (Hlv k enk e Henk He). }
    assert (∀ k', k' ∈ keys → is_Some (conns (_tick_conn env frame k s).2 !! k'))
      as Hreg'.
    { intros k' Hk'. rewrite Hc. apply Hreg. in_list. }
    assert (∀ k' enk' e, conns (_tick_conn env frame k s).2 !! k' = Some enk' →
                         raises env (conn_tick (conn enk')) = Some e →
                         is_libvirtError e = true) as Hlv'.
    { intros k' enk' e. rewrite Hc. exact (Hlv k' enk' e). }
    simpl for_. unfold mbind, M_bind.
    destruct (_tick_conn env frame k s) as [r s1] eqn:Hstep.
    simpl in Hc, Hl1, Hok, Hreg', Hlv'. subst r.
    destruct (decide (k = uri)) as [->|Hne].
    + destruct (_tick_conn_libvirt_fault env frame uri s en dom code msg Hen Hraise)
        as [_ Hblock].
      rewrite Hstep in Hblock. simpl in Hblock.
      destruct (for_tick_conn_completes env frame keys s1 Hreg' Hlv')
        as (_ & _ & a2 & Hl2 & _).
      exists [], a2. rewrite Hl2, Hblock, <- app_assoc. reflexivity.
    + apply elem_of_cons in Huri as [->|Huri]; [done|].
      destruct (IH s1 Hreg' Hlv' Huri) as (before & after & Hl);
        [by rewrite Hc|done|].
      exists (a1 ++ before), after. rewrite Hl, Hl1. by rewrite <- !app_assoc.
Qed.










(** *** The reboot action *)

Section reboot.

Context (env : environment) (vm : vmmDomain).

Lemma reboot_cb_unfold (s : vmmEngine) :
  reboot_cb env vm s =
  let s1 := set_log (log s ++ [called (vm_reboot vm)]) s in
  match raises env (vm_reboot vm) with
  | None => (Ret tt, s1)
  | Some e =>
      if is_Exception e then
        if is_error_nosupport env e then
          let s2 :=
            set_log (log s1 ++
                       [logging_debug
                          "Hypervisor doesn't support reboot, let's fake it";
                        called (vm_manual_reboot vm)]) s in
          match raises env (vm_manual_reboot vm) with
          | None => (Ret tt, s2)
          | Some e2 =>
              (Raise (RuntimeError ("Error rebooting domain: " +:+ str e)),
               set_log (log s2 ++
                          [logging_exception "Could not fake a reboot" e2]) s)
          end
        else (Raise (RuntimeError ("Error rebooting domain: " +:+ str e)), s1)
      else (Raise e, s1)
  end.
Proof.
  unfold reboot_cb. unfold_M.
  destruct (raises env (vm_reboot vm)) as [e|]; simpl; [|done].
  destruct (is_Exception e); simpl; [|done].
  destruct (is_error_nosupport env e); simpl; [|done].
  destruct (raises env (vm_manual_reboot vm)) as [e2|]; simpl.
  - by rewrite <- !app_assoc.
  - by rewrite <- !app_assoc.
Qed.

End reboot.

Lemma _do_reboot_domain_unfold (env : environment) (src : nat)
    (uri uuid : string) (s : vmmEngine) :
  _do_reboot_domain env src uri uuid s =
  match conns s !! uri with
  | None => (Raise (RuntimeError ("Unknown connection URI " +:+ uri)), s)
  | Some en =>
      let vm := {| vm_conn := conn en; vm_uuid := uuid |} in
      let s1 := set_log (log s ++ [called (conn_get_vm (conn en) uuid)]) s in
      match raises env (conn_get_vm (conn en) uuid) with
      | Some e => (Raise e, s1)
      | None =>
          if chkbox_helper env src
               ("Are you sure you want to reboot '" +:+ get_name env vm +:+ "'?")
          then
            simple_async_noshow (reboot_cb env vm) src ""
              (set_log (log s1 ++
                          [logging_debug
                             ("Rebooting vm '" +:+ get_name env vm +:+ "'")]) s)
          else (Ret tt, s1)
      end
  end.
Proof.
  unfold _do_reboot_domain, _lookup_conn, _check_conn, get_vm.
  unfold mbind at 1, M_bind at 1. unfold mbind at 1, M_bind at 1.
  unfold mbind at 1, M_bind at 1. unfold get at 1.
  destruct (conns s !! uri) as [en|]; [|done].
  unfold mret at 1, M_ret at 1. unfold mret at 1, M_ret at 1.
  unfold mbind at 1, M_bind at 1. unfold mbind at 1, M_bind at 1.
  unfold call at 1. unfold_M.
  destruct (raises env (conn_get_vm (conn en) uuid)); simpl; [done|].
  destruct (chkbox_helper env src _); simpl; [|done].
  unfold simple_async_noshow, try_except. simpl. by rewrite <- app_assoc.
Qed.

(** The reboot callback under [simple_async_noshow]: what is called and what
    reaches the error surface. *)
Lemma reboot_cb_reported (env : environment) (src : nat) (vm : vmmDomain)
    (s : vmmEngine) :
  simple_async_noshow (reboot_cb env vm) src "" s =
  (Ret tt,
   set_log
     (log s ++
      [called (vm_reboot vm)] ++
      match raises env (vm_reboot vm) with
      | None => []
      | Some e =>
          if is_Exception e then
            if is_error_nosupport env e then
              [logging_debug "Hypervisor doesn't support reboot, let's fake it";
               called (vm_manual_reboot vm)] ++
              match raises env (vm_manual_reboot vm) with
              | Some e2 =>
                  [logging_exception "Could not fake a reboot" e2;
                   async_error src ""
                     (RuntimeError ("Error rebooting domain: " +:+ str e))]
              | None => []
              end
            else
              [async_error src ""
                 (RuntimeError ("Error rebooting domain: " +:+ str e))]
          else [async_error src "" e]
      end) s).
Proof.
  unfold simple_async_noshow, try_except. rewrite reboot_cb_unfold.
  destruct (raises env (vm_reboot vm)) as [e|]; simpl; [|done].
  destruct (is_Exception e); simpl;
    [|unfold_M; by rewrite <- !app_assoc].
  destruct (is_error_nosupport env e); simpl;
    [|unfold_M; by rewrite <- !app_assoc].
  destruct (raises env (vm_manual_reboot vm)) as [e2|]; simpl.
  - unfold_M. by rewrite <- !app_assoc.
  - by rewrite <- !app_assoc.
Qed.

(** C5.  The reboot action calls [vm.reboot()] only on the guest of the
    registered connection, once [get_vm] returned and the question was
    answered with yes.  It then returns, and when [vm.reboot()] raises [e]:
    if [e] is an [Exception] that [is_error_nosupport] accepts,
    [vm.manual_reboot()] is called, and when that raises too, whatever it
    raises, what reaches the error surface is the error made from [e], the
    fallback's own being logged only; if [is_error_nosupport] rejects [e],
    the error made from [e] is reported and [vm.manual_reboot()] is not
    called; an [e] that is not an [Exception] is reported as it is, again
    without the fallback. *)
Theorem reboot_falls_back_and_reports_original_error
    (env : environment) (src : nat) (uri uuid : string) (s : vmmEngine) :
  (∀ vm, called (vm_reboot vm)
           ∈ new_events s (_do_reboot_domain env src uri uuid s).2 →
         ∃ en, conns s !! uri = Some en ∧
               vm = {| vm_conn := conn en; vm_uuid := uuid |} ∧
               raises env (conn_get_vm (conn en) uuid) = None ∧
               chkbox_helper env src
                 ("Are you sure you want to reboot '" +:+ get_name env vm +:+ "'?")
               = true) ∧
  (∀ en e,
     conns s !! uri = Some en →
     raises env (conn_get_vm (conn en) uuid) = None →
     chkbox_helper env src
       ("Are you sure you want to reboot '" +:+
        get_name env {| vm_conn := conn en; vm_uuid := uuid |} +:+ "'?") = true →
     raises env (vm_reboot {| vm_conn := conn en; vm_uuid := uuid |}) = Some e →
     (_do_reboot_domain env src uri uuid s).1 = Ret tt ∧
     new_events s (_do_reboot_domain env src uri uuid s).2 =
       [called (conn_get_vm (conn en) uuid);
        logging_debug
          ("Rebooting vm '" +:+
           get_name env {| vm_conn := conn en; vm_uuid := uuid |} +:+ "'");
        called (vm_reboot {| vm_conn := conn en; vm_uuid := uuid |})] ++
       (if is_Exception e then
          if is_error_nosupport env e then
            [logging_debug "Hypervisor doesn't support reboot, let's fake it";
             called (vm_manual_reboot {| vm_conn := conn en; vm_uuid := uuid |})] ++
            match raises env
                    (vm_manual_reboot {| vm_conn := conn en; vm_uuid := uuid |})
            with
            | Some e2 =>
                [logging_exception "Could not fake a reboot" e2;
                 async_error src ""
                   (RuntimeError ("Error rebooting domain: " +:+ str e))]
            | None => []
            end
          else
            [async_error src ""
               (RuntimeError ("Error rebooting domain: " +:+ str e))]
        else [async_error src "" e])).
Proof.
  rewrite _do_reboot_domain_unfold. split.
  - intros vm. destruct (conns s !! uri) as [en|]; simpl.
    + destruct (raises env (conn_get_vm (conn en) uuid)) as [e0|] eqn:Hvm; simpl.
      * erewrite new_events_app; [|done].
        rewrite list_elem_of_singleton. by intros [=].
      * destruct (chkbox_helper env src _) eqn:Hconf; simpl.
        -- rewrite reboot_cb_reported. simpl.
           erewrite new_events_app; [|simpl; by rewrite <- !app_assoc].
           intros Hin. exists en. split; [done|].
           assert (vm = {| vm_conn := conn en; vm_uuid := uuid |}) as ->.
           { revert Hin.
             destruct (raises env (vm_reboot _)) as [e|]; simpl.
             - destruct (is_Exception e), (is_error_nosupport env e); simpl;
                 try destruct (raises env (vm_manual_reboot _)); simpl;
                 repeat (rewrite elem_of_app || rewrite elem_of_cons);
                 rewrite ?elem_of_nil; intuition congruence.
             - repeat (rewrite elem_of_app || rewrite elem_of_cons);
                 rewrite ?elem_of_nil; intuition congruence. }
           done.
        -- erewrite new_events_app; [|done].
           rewrite list_elem_of_singleton. by intros [=].
    + unfold new_events. rewrite drop_all. by intros Hin%elem_of_nil.
  - intros en e Hen Hvm Hconf Hreboot. rewrite Hen. simpl.
    rewrite Hvm, Hconf, reboot_cb_reported, Hreboot. simpl.
    split; [done|].
    erewrite new_events_app; [|simpl; by rewrite <- !app_assoc]. done.
Qed.

Lemma reboot_falls_back_and_reports_original_error_witness :
  (_do_reboot_domain reboot_unsupported 1 "qemu:///system" "guest1" one_conn).1 =
    Ret tt ∧
  new_events one_conn
    (_do_reboot_domain reboot_unsupported 1 "qemu:///system" "guest1"
       one_conn).2 =
  [called (conn_get_vm qemu_system "guest1");
   logging_debug "Rebooting vm 'guest1'";
   called (vm_reboot guest1);
   logging_debug "Hypervisor doesn't support reboot, let's fake it";
   called (vm_manual_reboot guest1);
   logging_exception "Could not fake a reboot" (Exception "shutdown failed");
   async_error 1 ""
     (RuntimeError "Error rebooting domain: this function is not supported")].
Proof.
  destruct (reboot_falls_back_and_reports_original_error
              reboot_unsupported 1 "qemu:///system" "guest1" one_conn)
    as [_ Hreported].
  apply (Hreported (fresh_entry qemu_system) no_support_error);
    [vm_compute; reflexivity|reflexivity|reflexivity|reflexivity].
Defined.

(** *** The registry *)

Section registry.

Context (env : environment).

Lemma add_conn_to_ui_registered (uri : string) (s : vmmEngine)
    (en : conn_entry) :
  conns s !! uri = Some en →
  add_conn_to_ui env uri s = (Ret (conn en), s).
Proof. intros H. unfold add_conn_to_ui, _check_conn. unfold_M. by rewrite H. Qed.

Lemma add_conn_to_ui_new (uri : string) (s : vmmEngine) :
  conns s !! uri = None →
  add_conn_to_ui env uri s =
  let c := {| conn_id := next_id s; conn_uri := uri |} in
  let s1 :=
    set_log (log s ++ [called (conn_tick c)])
      (set_conns (<[uri := fresh_entry c]> (conns s))
         (set_next_id (S (next_id s)) s)) in
  match raises env (conn_tick c) with
  | None => (Ret c, set_log (log s1 ++ [emit_conn_added c]) s1)
  | Some e => (Raise e, s1)
  end.
Proof.
  intros H. unfold add_conn_to_ui, _check_conn. unfold_M. rewrite H. simpl.
  by destruct (raises env _).
Qed.

End registry.

Lemma add_conn_to_ui_seq_registered (envs : list environment) (uri : string)
    (s : vmmEngine) (en : conn_entry) :
  conns s !! uri = Some en →
  add_conn_to_ui_seq envs uri s = (replicate (length envs) (Ret (conn en)), s).
Proof.
  intros H. induction envs as [|env envs IH]; [done|].
  simpl. by rewrite (add_conn_to_ui_registered env uri s en H), IH.
Qed.

(** C6, as the code has it.  After a sequence of one or more
    [add_conn_to_ui(uri)] calls the registry is the old one with one entry
    at [uri], and the engine is as the first call left it: the later calls
    change nothing, emit nothing and all return that entry's connection.
    The first call returns it too, and [conn-added] is emitted once, by
    that call, when [uri] was not registered and the initial [tick] of the
    new connection returns.  When that [tick] raises, the first call raises
    with the entry already stored and [conn-added] is never emitted; when
    [uri] was registered before, nothing is emitted either. *)
Theorem add_conn_to_ui_idempotent
    (env0 : environment) (envs : list environment) (uri : string)
    (s : vmmEngine) :
  ∃ en,
    conns (add_conn_to_ui_seq (env0 :: envs) uri s).2 !! uri = Some en ∧
    conns (add_conn_to_ui_seq (env0 :: envs) uri s).2 = <[uri := en]> (conns s) ∧
    en = default (fresh_entry {| conn_id := next_id s; conn_uri := uri |})
           (conns s !! uri) ∧
    (add_conn_to_ui_seq (env0 :: envs) uri s).1 =
      match conns s !! uri,
            raises env0 (conn_tick {| conn_id := next_id s; conn_uri := uri |})
      with
      | None, Some e => Raise e
      | _, _ => Ret (conn en)
      end :: replicate (length envs) (Ret (conn en)) ∧
    filter (λ ev, is_conn_added ev = true)
      (new_events s (add_conn_to_ui_seq (env0 :: envs) uri s).2) =
      match conns s !! uri,
            raises env0 (conn_tick {| conn_id := next_id s; conn_uri := uri |})
      with
      | None, None => [emit_conn_added (conn en)]
      | _, _ => []
      end ∧
    (add_conn_to_ui_seq (env0 :: envs) uri s).2 = (add_conn_to_ui env0 uri s).2.
Proof.
  simpl add_conn_to_ui_seq.
  destruct (conns s !! uri) as [en|] eqn:Hen.
  - rewrite (add_conn_to_ui_registered env0 uri s en Hen).
    rewrite (add_conn_to_ui_seq_registered envs uri s en Hen). simpl.
    exists en. split; [done|]. split; [by rewrite insert_id|].
    split; [done|]. split; [done|]. split; [|done].
    unfold new_events. by rewrite drop_all.
  - rewrite (add_conn_to_ui_new env0 uri s Hen). cbv zeta.
    set (c := {| conn_id := next_id s; conn_uri := uri |}).
    exists (fresh_entry c).
    destruct (raises env0 (conn_tick c)) as [e|]; simpl;
      match goal with
      | |- context [add_conn_to_ui_seq envs uri ?s1] =>
          rewrite (add_conn_to_ui_seq_registered envs uri s1 (fresh_entry c))
            by apply lookup_insert_eq
      end; simpl.
    + split; [apply lookup_insert_eq|]. split; [done|]. split; [done|].
      split; [done|]. split; [|done].
      erewrite new_events_app; [|done]. done.
    + split; [apply lookup_insert_eq|]. split; [done|]. split; [done|].
      split; [done|]. split; [|done].
      erewrite new_events_app; [|simpl; by rewrite <- app_assoc]. done.
Qed.

Lemma add_conn_to_ui_idempotent_witness :
  ∃ en,
    conns (add_conn_to_ui_seq [calm; calm; busy] "qemu:///system" engine0).2
      !! "qemu:///system" = Some en ∧
    (add_conn_to_ui_seq [calm; calm; busy] "qemu:///system" engine0).1 =
      replicate 3 (Ret (conn en)) ∧
    filter (λ ev, is_conn_added ev = true)
      (new_events engine0
         (add_conn_to_ui_seq [calm; calm; busy] "qemu:///system" engine0).2) =
      [emit_conn_added (conn en)].
Proof.
  destruct (add_conn_to_ui_idempotent calm [calm; busy] "qemu:///system" engine0)
    as (en & Hen & _ & _ & Hres & Hadded & _).
  exists en. split; [exact Hen|]. split; [exact Hres|exact Hadded].
Defined.

(** C6, as stated, fails when the initial [tick] of the new connection
    raises: the entry is stored before [conn.tick()], so the first call
    raises instead of returning the connection, [conn-added] is emitted by
    no call of the sequence, and the later calls find the URI registered. *)
Lemma failed_first_tick_never_announces :
  (add_conn_to_ui_seq [polling_fault (Exception "boom"); calm; calm]
     "qemu:///system" engine0).1 =
    [Raise (Exception "boom"); Ret qemu_system; Ret qemu_system] ∧
  conns (add_conn_to_ui_seq [polling_fault (Exception "boom"); calm; calm]
           "qemu:///system" engine0).2 !! "qemu:///system" =
    Some (fresh_entry qemu_system) ∧
  filter (λ ev, is_conn_added ev = true)
    (new_events engine0
       (add_conn_to_ui_seq [polling_fault (Exception "boom"); calm; calm]
          "qemu:///system" engine0).2) = [].
Proof. repeat split; vm_compute; reflexivity. Qed.

(** *** Removing a connection *)

Section removal.

Context (env : environment).




End removal.

Section adds_only.

Context (P : event → Prop).

Lemma set_log_same (s : vmmEngine) : set_log (log s ++ []) s = s.
Proof. rewrite app_nil_r. by destruct s. Qed.

Lemma adds_only_ret {A} (a : A) : adds_only P (mret a : M A).
Proof. intros s. exists []. split; [by rewrite set_log_same|done]. Qed.

Lemma adds_only_raise {A} (e : exn) : adds_only P (raise e : M A).
Proof. intros s. exists []. split; [by rewrite set_log_same|done]. Qed.

Lemma adds_only_get : adds_only P get.
Proof. intros s. exists []. split; [by rewrite set_log_same|done]. Qed.

Lemma adds_only_record (ev : event) : P ev → adds_only P (record ev).
Proof. intros Hev s. exists [ev]. split; [done|]. by constructor. Qed.

Lemma adds_only_bind {A B} (m : M A) (f : A → M B) :
  adds_only P m → (∀ a, adds_only P (f a)) → adds_only P (m ≫= f).
Proof.
  intros Hm Hf s. unfold mbind, M_bind.
  destruct (Hm s) as (a1 & Hs1 & HP1).
  destruct (m s) as [[a|e] s1]; simpl in Hs1; subst s1.
  - destruct (Hf a (set_log (log s ++ a1) s)) as (a2 & Hs2 & HP2).
    exists (a1 ++ a2). split; [|by apply Forall_app].
    rewrite Hs2. simpl. by rewrite <- app_assoc.
  - by exists a1.
Qed.

Lemma adds_only_try_except {A} (body : M A) (handler : exn → M A) :
  adds_only P body → (∀ e, adds_only P (handler e)) →
  adds_only P (try_except body handler).
Proof.
  intros Hm Hh s. unfold try_except.
  destruct (Hm s) as (a1 & Hs1 & HP1).
  destruct (body s) as [[a|e] s1]; simpl in Hs1; subst s1.
  - by exists a1.
  - destruct (Hh e (set_log (log s ++ a1) s)) as (a2 & Hs2 & HP2).
    exists (a1 ++ a2). split; [|by apply Forall_app].
    rewrite Hs2. simpl. by rewrite <- app_assoc.
Qed.

Lemma adds_only_for {A} (l : list A) (body : A → M unit) :
  (∀ x, adds_only P (body x)) → adds_only P (for_ l body).
Proof.
  intros Hbody. induction l as [|x l IH]; simpl.
  - apply adds_only_ret.
  - apply adds_only_bind; [apply Hbody|]. by intros _.
Qed.

Lemma adds_only_call (env : environment) (c : extcall) :
  P (called c) → adds_only P (call env c).
Proof.
  intros Hc. unfold call. apply adds_only_bind; [by apply adds_only_record|].
  intros _. destruct (raises env c); [apply adds_only_raise|apply adds_only_ret].
Qed.

Lemma adds_only_getitem_conns (uri : string) : adds_only P (getitem_conns uri).
Proof.
  unfold getitem_conns. apply adds_only_bind; [apply adds_only_get|].
  intros self. destruct (conns self !! uri);
    [apply adds_only_ret|apply adds_only_raise].
Qed.

End adds_only.

Section cleanup.

Context (env : environment).

(** [cleanup_conn] only calls collaborators and logs. *)
Lemma cleanup_conn_adds_only (uri : string) :
  adds_only (λ ev, is_conn_removed ev = false) (cleanup_conn env uri).
Proof.
  unfold cleanup_conn. apply adds_only_try_except.
  - apply adds_only_bind; [apply adds_only_getitem_conns|]. intros e1.
    apply adds_only_bind.
    { destruct (windowHost e1); [by apply adds_only_call|apply adds_only_ret]. }
    intros _. apply adds_only_bind; [apply adds_only_getitem_conns|]. intros e2.
    apply adds_only_bind.
    { destruct (windowClone e2); [by apply adds_only_call|apply adds_only_ret]. }
    intros _. apply adds_only_bind; [apply adds_only_getitem_conns|]. intros e3.
    apply adds_only_bind.
    { apply adds_only_for. intros w. by apply adds_only_call. }
    intros _. apply adds_only_bind; [apply adds_only_getitem_conns|]. intros e4.
    by apply adds_only_call.
  - intros e. by apply adds_only_record.
Qed.

(** The bare [except:] lets nothing out. *)
Lemma cleanup_conn_returns (uri : string) (s : vmmEngine) :
  (cleanup_conn env uri s).1 = Ret tt.
Proof.
  unfold cleanup_conn, try_except.
  match goal with |- context [match ?b s with _ => _ end] =>
    destruct (b s) as [[[]|e] s1] end; done.
Qed.


End cleanup.

Section teardown.

Context (env : environment).





End teardown.




(** *** Connecting *)

Section connecting.

Context (env : environment).

Lemma bind_Ret {A B} (m : M A) (f : A → M B) (s s' : vmmEngine) (b : B) :
  (m ≫= f) s = (Ret b, s') →
  ∃ a s1, m s = (Ret a, s1) ∧ f a s1 = (Ret b, s').
Proof.
  unfold mbind, M_bind. destruct (m s) as [[a|e] s1]; [|done].
  intros H. by exists a, s1.
Qed.

Lemma raises_from_calls_silent {A} (m : M A) :
  (∀ s, log (m s).2 = log s ∧ ∃ a, (m s).1 = Ret a) →
  raises_from_calls env m.
Proof.
  intros Hm s. destruct (Hm s) as (Hl & a & Ha). exists [].
  rewrite Hl, app_nil_r, Ha. split; [done|]. split; [done|].
  intros _ _ c Hc. by apply elem_of_nil in Hc.
Qed.

Lemma raises_from_calls_ret {A} (a : A) : raises_from_calls env (mret a : M A).
Proof. apply raises_from_calls_silent. intros s. split; [done|]. by exists a. Qed.

Lemma raises_from_calls_modify (f : vmmEngine → vmmEngine) :
  (∀ s, log (f s) = log s) → raises_from_calls env (modify f).
Proof.
  intros Hf. apply raises_from_calls_silent. intros s.
  split; [apply Hf|]. by exists tt.
Qed.

Lemma raises_from_calls_get : raises_from_calls env get.
Proof. apply raises_from_calls_silent. intros s. split; [done|]. by exists s. Qed.

Lemma raises_from_calls_fresh : raises_from_calls env fresh.
Proof.
  apply raises_from_calls_silent. intros s. split; [done|]. by exists (next_id s).
Qed.

Lemma raises_from_calls_record (ev : event) :
  (∀ c, ev ≠ called c) → raises_from_calls env (record ev).
Proof.
  intros Hev s. exists [ev]. split; [done|]. split; [done|].
  intros _ _ c Hc. apply list_elem_of_singleton in Hc. by destruct (Hev c).
Qed.

Lemma raises_from_calls_bind {A B} (m : M A) (f : A → M B) :
  raises_from_calls env m → (∀ a, raises_from_calls env (f a)) →
  raises_from_calls env (m ≫= f).
Proof.
  intros Hm Hf s. unfold mbind, M_bind.
  destruct (Hm s) as (a1 & Hl1 & He1 & Hr1).
  destruct (m s) as [[a|e] s1]; simpl in Hl1, He1, Hr1.
  - destruct (Hf a s1) as (a2 & Hl2 & He2 & Hr2).
    exists (a1 ++ a2). split; [by rewrite Hl2, Hl1, app_assoc|]. split.
    + intros e He. destruct (He2 e He) as (c & Hc & Hin).
      exists c. split; [done|]. apply elem_of_app. by right.
    + intros b Hb c Hc. apply elem_of_app in Hc as [Hc|Hc].
      * by apply (Hr1 a).
      * by apply (Hr2 b).
  - exists a1. split; [done|]. split; [|done].
    intros e' [= <-]. by apply He1.
Qed.

Lemma raises_from_calls_call (c : extcall) : raises_from_calls env (call env c).
Proof.
  intros s. exists [called c]. unfold call. unfold_M.
  destruct (raises env c) as [e|] eqn:Hc; simpl; (split; [done|]); split;
    try done.
  - intros e' [= <-]. exists c. split; [done|]. in_list.
  - intros _ _ c' Hc'. apply list_elem_of_singleton in Hc'.
    by injection Hc' as ->.
Qed.

Lemma raises_from_calls_when (b : bool) (m : M unit) :
  raises_from_calls env m → raises_from_calls env (when b m).
Proof. destruct b; [done|]. intros _. apply raises_from_calls_ret. Qed.

Lemma add_conn_to_ui_raises_from_calls (uri : string) :
  raises_from_calls env (add_conn_to_ui env uri).
Proof.
  unfold add_conn_to_ui, _check_conn.
  apply raises_from_calls_bind.
  { apply raises_from_calls_bind; [apply raises_from_calls_get|].
    intros self. destruct (conns self !! uri); apply raises_from_calls_ret. }
  intros [c|]; [apply raises_from_calls_ret|].
  apply raises_from_calls_bind; [apply raises_from_calls_fresh|]. intros i.
  apply raises_from_calls_bind; [by apply raises_from_calls_modify|]. intros _.
  apply raises_from_calls_bind; [apply raises_from_calls_call|]. intros _.
  apply raises_from_calls_bind; [by apply raises_from_calls_record|]. intros _.
  apply raises_from_calls_ret.
Qed.

Lemma add_conn_to_ui_Ret (uri : string) (s s' : vmmEngine) (c : vmmConnection) :
  add_conn_to_ui env uri s = (Ret c, s') →
  ∃ en, conns s' !! uri = Some en ∧ conn en = c.
Proof.
  destruct (conns s !! uri) as [en|] eqn:Hen.
  - rewrite (add_conn_to_ui_registered env uri s en Hen). intros [= <- <-].
    by exists en.
  - rewrite (add_conn_to_ui_new env uri s Hen). cbv zeta.
    destruct (raises env _); [done|]. intros [= <- <-]. simpl.
    eexists. split; [apply lookup_insert_eq|done].
Qed.

Lemma call_Ret (c : extcall) (s s' : vmmEngine) (r : res unit) :
  call env c s = (r, s') → s' = set_log (log s ++ [called c]) s.
Proof.
  unfold call. unfold_M. destruct (raises env c); by intros [= <- <-].
Qed.

Lemma py_in_true (x : string) (l : list string) :
  py_in x l = true ↔ x ∈ l.
Proof.
  unfold py_in. rewrite existsb_exists. split.
  - intros (y & Hin & Hy). apply bool_decide_eq_true in Hy as ->.
    by apply list_elem_of_In.
  - intros Hin. exists x. split; [by apply list_elem_of_In|].
    by apply bool_decide_eq_true.
Qed.

(** What the body of the [try] of [connect_to_uri] has done when it
    returns. *)
Lemma connect_to_uri_body_Ret (uri : string) (autoconnect : option bool)
    (do_start : bool) (s s' : vmmEngine) (r : option vmmConnection) :
  (conn ← add_conn_to_ui env uri;
   uris ← get_conn_uris env;
   when (negb (py_in (get_uri conn) (default [] uris)))
     (add_conn env (get_uri conn)) ;;
   match autoconnect with
   | Some a => call env (conn_set_autoconnect conn a)
   | None => mret tt
   end ;;
   when do_start (call env (conn_open conn)) ;;
   mret (Some conn)) s = (Ret r, s') →
  ∃ c en, r = Some c ∧ conns s' !! uri = Some en ∧ conn en = c ∧
          get_uri c ∈ default [] (conn_uris s').
Proof.
  intros H.
  apply bind_Ret in H as (c & s1 & Hadd & H).
  apply add_conn_to_ui_Ret in Hadd as (en & Hen & Hc).
  apply bind_Ret in H as (uris & s2 & Huris & H).
  unfold get_conn_uris in Huris.
  apply bind_Ret in Huris as ([] & s2' & Hcall & Huris).
  apply call_Ret in Hcall. unfold_M. injection Huris as <- <-. subst s2'.
  apply bind_Ret in H as ([] & s3 & Hpersist & H).
  assert (conns s3 = conns s1 ∧ get_uri c ∈ default [] (conn_uris s3))
    as [Hc3 Hin3].
  { unfold when in Hpersist. simpl in Hpersist.
    destruct (py_in (get_uri c) (default [] (conn_uris s1))) eqn:Hin;
      simpl in Hpersist.
    - unfold_M_in Hpersist. injection Hpersist as <-.
      split; [done|]. by apply py_in_true.
    - unfold add_conn in Hpersist.
      apply bind_Ret in Hpersist as ([] & s2' & Hcall & Hpersist).
      apply call_Ret in Hcall. subst s2'. unfold_M_in Hpersist.
      injection Hpersist as <-. simpl. split; [done|]. in_list. }
  apply bind_Ret in H as ([] & s4 & Hauto & H).
  assert (conns s4 = conns s3 ∧ conn_uris s4 = conn_uris s3) as [Hc4 Hu4].
  { destruct autoconnect as [a|].
    - apply call_Ret in Hauto. by subst s4.
    - unfold_M_in Hauto. by injection Hauto as <-. }
  apply bind_Ret in H as ([] & s5 & Hopen & H).
  assert (conns s5 = conns s4 ∧ conn_uris s5 = conn_uris s4) as [Hc5 Hu5].
  { destruct do_start; simpl in Hopen.
    - apply call_Ret in Hopen. by subst s5.
    - unfold_M_in Hopen. by injection Hopen as <-. }
  unfold_M_in H. injection H as <- <-.
  exists c, en. split; [done|]. split; [by rewrite Hc5, Hc4, Hc3|].
  split; [done|]. by rewrite Hu5, Hu4.
Qed.

Lemma connect_to_uri_body_raises_from_calls (uri : string)
    (autoconnect : option bool) (do_start : bool) :
  raises_from_calls env
    (conn ← add_conn_to_ui env uri;
     uris ← get_conn_uris env;
     when (negb (py_in (get_uri conn) (default [] uris)))
       (add_conn env (get_uri conn)) ;;
     match autoconnect with
     | Some a => call env (conn_set_autoconnect conn a)
     | None => mret tt
     end ;;
     when do_start (call env (conn_open conn)) ;;
     mret (Some conn)).
Proof.
  apply raises_from_calls_bind; [apply add_conn_to_ui_raises_from_calls|].
  intros c. apply raises_from_calls_bind.
  { unfold get_conn_uris.
    apply raises_from_calls_bind; [apply raises_from_calls_call|]. intros _.
    apply raises_from_calls_bind; [apply raises_from_calls_get|]. intros self.
    apply raises_from_calls_ret. }
  intros uris. apply raises_from_calls_bind.
  { apply raises_from_calls_when. unfold add_conn.
    apply raises_from_calls_bind; [apply raises_from_calls_call|]. intros _.
    by apply raises_from_calls_modify. }
  intros _. apply raises_from_calls_bind.
  { destruct autoconnect;
      [apply raises_from_calls_call|apply raises_from_calls_ret]. }
  intros _. apply raises_from_calls_bind.
  { apply raises_from_calls_when, raises_from_calls_call. }
  intros _. apply raises_from_calls_ret.
Qed.

End connecting.

(** C8, as the code has it.  [connect_to_uri] ends in one of three ways.
    It returns the connection: then every collaborator it called returned,
    the registry holds the connection at [uri] and the stored URI list holds
    the connection's URI.  It returns [None]: then a collaborator it called
    raised an [Exception], and that is the last thing logged, under
    "Error connecting to <uri>".  It raises: then what it raises is not an
    [Exception] ([KeyboardInterrupt], [SystemExit]) and came from a
    collaborator it called. *)
Theorem connect_to_uri_outcomes
    (env : environment) (uri : string) (autoconnect : option bool)
    (do_start : bool) (s : vmmEngine) :
  (∃ c en,
     (connect_to_uri env uri autoconnect do_start s).1 = Ret (Some c) ∧
     conns (connect_to_uri env uri autoconnect do_start s).2 !! uri = Some en ∧
     conn en = c ∧
     get_uri c
       ∈ default [] (conn_uris (connect_to_uri env uri autoconnect do_start s).2) ∧
     ∀ c', called c'
             ∈ new_events s (connect_to_uri env uri autoconnect do_start s).2 →
           raises env c' = None) ∨
  (∃ e c,
     (connect_to_uri env uri autoconnect do_start s).1 = Ret None ∧
     is_Exception e = true ∧
     raises env c = Some e ∧
     called c ∈ new_events s (connect_to_uri env uri autoconnect do_start s).2 ∧
     last (log (connect_to_uri env uri autoconnect do_start s).2) =
       Some (logging_exception ("Error connecting to " +:+ uri) e)) ∨
  (∃ e c,
     (connect_to_uri env uri autoconnect do_start s).1 = Raise e ∧
     is_Exception e = false ∧
     raises env c = Some e ∧
     called c ∈ new_events s (connect_to_uri env uri autoconnect do_start s).2).
Proof.
  destruct (connect_to_uri_body_raises_from_calls env uri autoconnect do_start s)
    as (added & Hl & Hraise & Hret).
  pose proof (connect_to_uri_body_Ret env uri autoconnect do_start s) as Hbody.
  unfold connect_to_uri, try_except.
  match goal with
  | |- context [match ?b s with _ => _ end] =>
      destruct (b s) as [[r|e] s1] eqn:Hrun
  end; simpl in Hl, Hraise, Hret.
  - left. destruct (Hbody s1 r eq_refl) as (c & en & -> & Hen & Hc & Hin).
    exists c, en. simpl. split; [done|]. split; [done|]. split; [done|].
    split; [done|]. rewrite (new_events_app s s1 added Hl).
    by apply (Hret (Some c)).
  - destruct (Hraise e eq_refl) as (c & Hc & Hin).
    destruct (is_Exception e) eqn:Hexc.
    + right. left. exists e, c. unfold_M. split; [done|]. split; [done|].
      split; [done|]. split.
      * erewrite new_events_app; [|by rewrite Hl, <- app_assoc]. in_list.
      * apply last_snoc.
    + right. right. exists e, c. simpl. split; [done|]. split; [done|].
      split; [done|]. by rewrite (new_events_app s s1 added Hl).
Qed.

(** C8, as stated, fails: a [KeyboardInterrupt] raised by [conn.open()] is
    not an [Exception], so [except Exception] lets it through to the
    caller. *)
Lemma connect_to_uri_lets_KeyboardInterrupt_through :
  (connect_to_uri open_interrupted "qemu:///system" None true engine0).1 =
  Raise KeyboardInterrupt.
Proof. vm_compute. reflexivity. Qed.

(** An [Exception] raised by [conn.open()] is logged and [None] comes back. *)
Example connect_to_uri_refused :
  (connect_to_uri open_refused "qemu:///system" (Some true) true engine0).1 =
    Ret None ∧
  last (log (connect_to_uri open_refused "qemu:///system" (Some true) true
               engine0).2) =
    Some (logging_exception "Error connecting to qemu:///system"
            (Exception "connection refused")).
Proof. split; vm_compute; reflexivity. Qed.

Lemma connect_to_uri_outcomes_witness :
  (connect_to_uri calm "qemu:///system" (Some true) true engine0).1 =
    Ret (Some qemu_system) ∧
  conn_uris (connect_to_uri calm "qemu:///system" (Some true) true engine0).2 =
    Some ["qemu:///system"].
Proof.
  destruct (connect_to_uri_outcomes calm "qemu:///system" (Some true) true
              engine0)
    as [(c & en & Hr & _) | [(e & c & Hr & _) | (e & c & Hr & _)]].
  - split; [|reflexivity]. rewrite Hr. vm_compute in Hr. symmetry. exact Hr.
  - vm_compute in Hr. discriminate Hr.
  - vm_compute in Hr. discriminate Hr.
Defined.

(** *** Showing a details window *)

Section details.

Context (env : environment).

Lemma _get_details_dialog_cached (uri uuid : string) (s : vmmEngine)
    (en : conn_entry) (w : nat) :
  conns s !! uri = Some en →
  windowDetails en !! uuid = Some w →
  _get_details_dialog env uri uuid s = (Ret w, s).
Proof.
  intros Hen Hw. unfold _get_details_dialog, getitem_windowDetails, getitem_conns.
  unfold_M. rewrite Hen. simpl. rewrite Hw. simpl. rewrite Hen. simpl.
  by rewrite Hw.
Qed.

Lemma _get_details_dialog_new (uri uuid : string) (s : vmmEngine)
    (en : conn_entry) :
  conns s !! uri = Some en →
  windowDetails en !! uuid = None →
  raises env (conn_get_vm (conn en) uuid) = None →
  _get_details_dialog env uri uuid s =
  (Ret (next_id s),
   set_conns
     (<[uri := {| conn := conn en; windowHost := windowHost en;
                  windowDetails := <[uuid := next_id s]> (windowDetails en);
                  windowClone := windowClone en |}]> (conns s))
     (set_next_id (S (next_id s))
        (set_log (log s ++ [called (conn_get_vm (conn en) uuid)]) s))).
Proof.
  intros Hen Hw Hvm.
  unfold _get_details_dialog, getitem_windowDetails, setitem_windowDetails,
    getitem_conns, _lookup_conn, _check_conn, get_vm.
  unfold_M. rewrite Hen. simpl. rewrite Hw. simpl. rewrite Hen. simpl.
  rewrite Hvm. simpl. rewrite Hen. simpl.
  rewrite lookup_insert_eq. simpl. by rewrite lookup_insert_eq.
Qed.

End details.

Lemma page_activation_of_requested (page : option Z) (p : page_activation) :
  page_activation_of page = Some p ↔
  page = None ∧ p = activate_default_page ∨
  page = Some DETAILS_PERF ∧ p = activate_performance_page ∨
  page = Some DETAILS_CONFIG ∧ p = activate_config_page ∨
  page = Some DETAILS_CONSOLE ∧ p = activate_console_page.
Proof.
  unfold page_activation_of, DETAILS_PERF, DETAILS_CONFIG, DETAILS_CONSOLE.
  destruct page as [z|].
  - destruct (Z.eqb_spec z 1) as [->|H1]; [intuition congruence|].
    destruct (Z.eqb_spec z 2) as [->|H2]; [intuition congruence|].
    destruct (Z.eqb_spec z 3) as [->|H3]; [intuition congruence|].
    intuition congruence.
  - intuition congruence.
Qed.

(** An event of another kind is not in a list written with [::] and [++]. *)
Ltac no_such_event :=
  repeat (rewrite elem_of_app || rewrite elem_of_cons); rewrite ?elem_of_nil;
  intuition discriminate.

(** [_get_details_dialog] adds nothing to the log but a call of [get_vm]. *)
Lemma _get_details_dialog_log (env : environment) (uri uuid : string)
    (s : vmmEngine) :
  ∃ g, log (_get_details_dialog env uri uuid s).2 = log s ++ g ∧
       ∀ ev, ev ∈ g → ∃ c u, ev = called (conn_get_vm c u).
Proof.
  destruct (conns s !! uri) as [en|] eqn:Hen.
  - destruct (windowDetails en !! uuid) as [w|] eqn:Hw.
    + rewrite (_get_details_dialog_cached env uri uuid s en w Hen Hw).
      exists []. split; [by rewrite app_nil_r|]. by intros ev Hev%elem_of_nil.
    + exists [called (conn_get_vm (conn en) uuid)]. split.
      * unfold _get_details_dialog, getitem_windowDetails,
          setitem_windowDetails, getitem_conns, _lookup_conn, _check_conn,
          get_vm.
        unfold_M. rewrite Hen. simpl. rewrite Hw. simpl. rewrite Hen. simpl.
        destruct (raises env (conn_get_vm (conn en) uuid)); simpl; [done|].
        rewrite Hen. simpl. rewrite lookup_insert_eq. simpl.
        by rewrite lookup_insert_eq.
      * intros ev Hev%list_elem_of_singleton. by eexists _, _.
  - exists []. split; [|by intros ev Hev%elem_of_nil].
    unfold _get_details_dialog, getitem_conns. unfold_M. rewrite Hen. simpl.
    by rewrite app_nil_r.
Qed.

(** [_show_vm_helper] once the details window is there. *)
Lemma _show_vm_helper_obtained (env : environment) (src : nat)
    (uri uuid : string) (page : option Z) (forcepage : bool)
    (s s1 : vmmEngine) (details : nat) :
  _get_details_dialog env uri uuid s = (Ret details, s1) →
  _show_vm_helper env src uri uuid page forcepage s =
  let report (e : exn) (s2 : vmmEngine) : res (option nat) * vmmEngine :=
    if is_Exception e then
      (Ret None,
       set_log (log s2 ++
                  [show_err src ("Error launching details: " +:+ str e)]) s2)
    else (Raise e, s2) in
  let shown (s2 : vmmEngine) : res (option nat) * vmmEngine :=
    let s3 := set_log (log s2 ++ [called (details_show details)]) s2 in
    match raises env (details_show details) with
    | Some e => report e s3
    | None => (Ret (Some details), s3)
    end in
  match (if forcepage || negb (is_visible env details)
         then page_activation_of page else None) with
  | Some p =>
      let s2 := set_log (log s1 ++ [called (details_activate details p)]) s1 in
      match raises env (details_activate details p) with
      | Some e => report e s2
      | None => shown s2
      end
  | None => shown s1
  end.
Proof.
  intros Hget. unfold _show_vm_helper, try_except.
  unfold mbind at 1. unfold M_bind at 1. rewrite Hget.
  destruct (forcepage || negb (is_visible env details)); simpl.
  - destruct (page_activation_of page) as [p|]; simpl.
    + unfold_M. destruct (raises env (details_activate details p)) as [e|]; simpl.
      * by destruct (is_Exception e).
      * destruct (raises env (details_show details)) as [e|]; simpl; [|done].
        by destruct (is_Exception e).
    + unfold_M. destruct (raises env (details_show details)) as [e|]; simpl;
        [|by rewrite ?set_log_same].
      by destruct (is_Exception e).
  - unfold_M. destruct (raises env (details_show details)) as [e|]; simpl;
      [|done].
    by destruct (is_Exception e).
Qed.

(** C9, as the code has it.  Once the details window of the guest is
    there, cached or new: the activation of the requested page -
    performance, configuration, console, or the default page when no page
    is requested - is called exactly when [forcepage] is set or the
    window's [is_visible()] is false, and no other activation ever is;
    [show()] is called exactly when no activation raised; the window is
    returned exactly when [show()] was called and returned; an [Exception]
    raised by the activation or by [show()] is reported to [src] as "Error
    launching details: ..." and [None] is returned.  When the window cannot
    be had, the [Exception] is reported in the same way and neither an
    activation nor [show()] is called. *)
Theorem show_vm_navigates_unless_visible
    (env : environment) (src : nat) (uri uuid : string) (page : option Z)
    (forcepage : bool) (s : vmmEngine) :
  (∀ details s1,
     _get_details_dialog env uri uuid s = (Ret details, s1) →
     (∀ p, called (details_activate details p)
             ∈ new_events s (_show_vm_helper env src uri uuid page forcepage s).2 ↔
           (forcepage = true ∨ is_visible env details = false) ∧
           (page = None ∧ p = activate_default_page ∨
            page = Some DETAILS_PERF ∧ p = activate_performance_page ∨
            page = Some DETAILS_CONFIG ∧ p = activate_config_page ∨
            page = Some DETAILS_CONSOLE ∧ p = activate_console_page)) ∧
     (called (details_show details)
        ∈ new_events s (_show_vm_helper env src uri uuid page forcepage s).2 ↔
      ∀ p, called (details_activate details p)
             ∈ new_events s (_show_vm_helper env src uri uuid page forcepage s).2 →
           raises env (details_activate details p) = None) ∧
     ((_show_vm_helper env src uri uuid page forcepage s).1 = Ret (Some details) ↔
      called (details_show details)
        ∈ new_events s (_show_vm_helper env src uri uuid page forcepage s).2 ∧
      raises env (details_show details) = None) ∧
     (∀ e, ((∃ p, called (details_activate details p)
                    ∈ new_events s
                        (_show_vm_helper env src uri uuid page forcepage s).2 ∧
                  raises env (details_activate details p) = Some e) ∨
            (called (details_show details)
               ∈ new_events s
                   (_show_vm_helper env src uri uuid page forcepage s).2 ∧
             raises env (details_show details) = Some e)) →
           is_Exception e = true →
           (_show_vm_helper env src uri uuid page forcepage s).1 = Ret None ∧
           last (new_events s
                   (_show_vm_helper env src uri uuid page forcepage s).2) =
           Some (show_err src ("Error launching details: " +:+ str e)))) ∧
  (∀ e s1,
     _get_details_dialog env uri uuid s = (Raise e, s1) →
     is_Exception e = true →
     (_show_vm_helper env src uri uuid page forcepage s).1 = Ret None ∧
     last (new_events s (_show_vm_helper env src uri uuid page forcepage s).2) =
       Some (show_err src ("Error launching details: " +:+ str e)) ∧
     ∀ w, (called (details_show w)
             ∉ new_events s (_show_vm_helper env src uri uuid page forcepage s).2) ∧
          ∀ p, called (details_activate w p)
                 ∉ new_events s
                     (_show_vm_helper env src uri uuid page forcepage s).2).
Proof.
  destruct (_get_details_dialog_log env uri uuid s) as (g & Hlog & Hg).
  assert (∀ w, called (details_show w) ∉ g) as Hg_show.
  { intros w Hin. by destruct (Hg _ Hin) as (c & u & [=]). }
  assert (∀ w p, called (details_activate w p) ∉ g) as Hg_act.
  { intros w p Hin. by destruct (Hg _ Hin) as (c & u & [=]). }
  split.
  - intros details s1 Hget. rewrite Hget in Hlog. simpl in Hlog.
    rewrite (_show_vm_helper_obtained env src uri uuid page forcepage s s1
               details Hget).
    cbv zeta.
    assert ((if forcepage || negb (is_visible env details)
             then page_activation_of page else None) = None ∨
            ∃ p0, (if forcepage || negb (is_visible env details)
                   then page_activation_of page else None) = Some p0)
      as [Hnav | [p0 Hnav]]
      by (destruct (if forcepage || negb (is_visible env details)
                    then page_activation_of page else None); eauto).
    + rewrite Hnav.
      assert (∀ p, ¬ ((forcepage = true ∨ is_visible env details = false) ∧
                      page_activation_of page = Some p)) as Hnone.
      { intros p [Hv Hp]. rewrite Hp in Hnav.
        destruct forcepage, (is_visible env details); simpl in Hnav;
          try discriminate; by destruct Hv. }
      assert (∀ p, ¬ ((forcepage = true ∨ is_visible env details = false) ∧
                      (page = None ∧ p = activate_default_page ∨
                       page = Some DETAILS_PERF ∧ p = activate_performance_page ∨
                       page = Some DETAILS_CONFIG ∧ p = activate_config_page ∨
                       page = Some DETAILS_CONSOLE ∧ p = activate_console_page)))
        as Hnone'.
      { intros p [Hv Hp]. apply page_activation_of_requested in Hp.
        by apply (Hnone p). }
      assert (∀ (l : list event) p,
                (∀ q, called (details_activate details q) ∉ l) →
                called (details_activate details p) ∈ g ++ l ↔
                (forcepage = true ∨ is_visible env details = false) ∧
                (page = None ∧ p = activate_default_page ∨
                 page = Some DETAILS_PERF ∧ p = activate_performance_page ∨
                 page = Some DETAILS_CONFIG ∧ p = activate_config_page ∨
                 page = Some DETAILS_CONSOLE ∧ p = activate_console_page))
        as Hact.
      { intros l p Hl. rewrite <- page_activation_of_requested, elem_of_app.
        split; [intros [H|H]; [by apply Hg_act in H|by apply Hl in H]|].
        intros H. by apply Hnone in H. }
      destruct (raises env (details_show details)) as [e|] eqn:Hshow;
        [destruct (is_Exception e) eqn:Hexc|]; simpl;
        (erewrite new_events_app;
         [|simpl; rewrite Hlog, <- ?app_assoc; reflexivity]).
      * split; [intros p; apply Hact; intros q;
                no_such_event|].
        split.
        { split; [|intros _; in_list].
          intros _ p Hp. apply Hact in Hp; [by apply Hnone' in Hp|].
          intros q. no_such_event. }
        split; [split; [done|by intros [_ [=]]]|].
        intros e' [(p & Hp & _)|[_ He']] _.
        { apply Hact in Hp; [by apply Hnone' in Hp|].
          intros q. no_such_event. }
        injection He' as <-. split; [done|].
        by rewrite last_app.
      * split; [intros p; apply Hact; intros q;
                no_such_event|].
        split.
        { split; [|intros _; in_list].
          intros _ p Hp. apply Hact in Hp; [by apply Hnone' in Hp|].
          intros q. no_such_event. }
        split; [split; [done|by intros [_ [=]]]|].
        intros e' [(p & Hp & _)|[_ He']] He'x.
        { apply Hact in Hp; [by apply Hnone' in Hp|].
          intros q. no_such_event. }
        congruence.
      * split; [intros p; apply Hact; intros q;
                no_such_event|].
        split.
        { split; [|intros _; in_list].
          intros _ p Hp. apply Hact in Hp; [by apply Hnone' in Hp|].
          intros q. no_such_event. }
        split; [split; [intros _; split; [in_list|done]|done]|].
        intros e' [(p & Hp & _)|[_ He']] _; [|congruence].
        apply Hact in Hp; [by apply Hnone' in Hp|].
        intros q. no_such_event.
    + rewrite Hnav.
      assert ((forcepage = true ∨ is_visible env details = false) ∧
              page_activation_of page = Some p0) as [Hv Hp0].
      { destruct forcepage, (is_visible env details); simpl in Hnav;
          try discriminate; auto. }
      assert (∀ (l : list event) p,
                (∀ q, called (details_activate details q) ∉ l) →
                called (details_activate details p)
                  ∈ g ++ called (details_activate details p0) :: l ↔
                (forcepage = true ∨ is_visible env details = false) ∧
                (page = None ∧ p = activate_default_page ∨
                 page = Some DETAILS_PERF ∧ p = activate_performance_page ∨
                 page = Some DETAILS_CONFIG ∧ p = activate_config_page ∨
                 page = Some DETAILS_CONSOLE ∧ p = activate_console_page))
        as Hact.
      { intros l p Hl.
        rewrite <- page_activation_of_requested, elem_of_app, elem_of_cons.
        split.
        - intros [H|[[= ->]|H]]; [by apply Hg_act in H|done|by apply Hl in H].
        - intros [_ Hp]. right. left. congruence. }
      assert (∀ (l : list event) p,
                (∀ q, called (details_activate details q) ∉ l) →
                called (details_activate details p)
                  ∈ g ++ called (details_activate details p0) :: l →
                p = p0) as Hsame.
      { intros l p Hl Hin. apply Hact in Hin as [_ Hp]; [|done].
        apply page_activation_of_requested in Hp. congruence. }
      destruct (raises env (details_activate details p0)) as [ea|] eqn:Hraise;
        [destruct (is_Exception ea) eqn:Hexa
        |destruct (raises env (details_show details)) as [e|] eqn:Hshow;
         [destruct (is_Exception e) eqn:Hexc|]]; simpl;
        (erewrite new_events_app;
         [|simpl; rewrite ?Hlog; simpl; rewrite ?Hlog, <- ?app_assoc;
           reflexivity]).
      * split; [intros p; apply Hact; intros q;
                no_such_event|].
        split.
        { split.
          - rewrite elem_of_app.
            intros [H|H]; [by apply Hg_show in H|revert H; no_such_event].
          - intros H. specialize (H p0). rewrite Hraise in H.
            discriminate H. in_list. }
        split.
        { split; [done|]. rewrite elem_of_app.
          intros [[H|H] _]; [by apply Hg_show in H|revert H; no_such_event]. }
        intros e' [(p & Hp & He')|[Hin _]] _.
        { apply Hsame in Hp; [subst p|].
          - rewrite Hraise in He'. injection He' as <-. split; [done|].
            by rewrite last_app.
          - intros q. no_such_event. }
        exfalso. revert Hin. rewrite elem_of_app.
        intros [H|H]; [by apply Hg_show in H|revert H; no_such_event].
      * split; [intros p; apply Hact; intros q;
                no_such_event|].
        split.
        { split.
          - rewrite elem_of_app.
            intros [H|H]; [by apply Hg_show in H|revert H; no_such_event].
          - intros H. specialize (H p0). rewrite Hraise in H.
            discriminate H. in_list. }
        split.
        { split; [done|]. rewrite elem_of_app.
          intros [[H|H] _]; [by apply Hg_show in H|revert H; no_such_event]. }
        intros e' [(p & Hp & He')|[Hin _]] He'x.
        { apply Hsame in Hp; [subst p; congruence|].
          intros q. no_such_event. }
        exfalso. revert Hin. rewrite elem_of_app.
        intros [H|H]; [by apply Hg_show in H|revert H; no_such_event].
      * split; [intros p; apply Hact; intros q;
                no_such_event|].
        split.
        { split; [|intros _; in_list].
          intros _ p Hp. apply Hsame in Hp; [by subst p|].
          intros q. no_such_event. }
        split; [split; [done|by intros [_ [=]]]|].
        intros e' [(p & Hp & He')|[_ He']] _.
        { apply Hsame in Hp; [subst p; congruence|].
          intros q. no_such_event. }
        injection He' as <-. split; [done|].
        by rewrite last_app.
      * split; [intros p; apply Hact; intros q;
                no_such_event|].
        split.
        { split; [|intros _; in_list].
          intros _ p Hp. apply Hsame in Hp; [by subst p|].
          intros q. no_such_event. }
        split; [split; [done|by intros [_ [=]]]|].
        intros e' [(p & Hp & He')|[_ He']] He'x.
        { apply Hsame in Hp; [subst p; congruence|].
          intros q. no_such_event. }
        congruence.
      * split; [intros p; apply Hact; intros q;
                no_such_event|].
        split.
        { split; [|intros _; in_list].
          intros _ p Hp. apply Hsame in Hp; [by subst p|].
          intros q. no_such_event. }
        split; [split; [intros _; split; [in_list|done]|done]|].
        intros e' [(p & Hp & He')|[_ He']] _; [|congruence].
        apply Hsame in Hp; [subst p; congruence|].
        intros q. no_such_event.
  - intros e s1 Hget Hexc. rewrite Hget in Hlog. simpl in Hlog.
    assert (_show_vm_helper env src uri uuid page forcepage s =
            (Ret None,
             set_log (log s1 ++
                        [show_err src ("Error launching details: " +:+ str e)])
               s1)) as ->.
    { unfold _show_vm_helper, try_except.
      unfold mbind at 1. unfold M_bind at 1. rewrite Hget, Hexc. by unfold_M. }
    simpl. erewrite new_events_app; [|simpl; by rewrite Hlog, <- app_assoc].
    split; [done|]. split; [by rewrite last_snoc|].
    intros w. split.
    + rewrite elem_of_app, list_elem_of_singleton.
      intros [H|[=]]. by apply Hg_show in H.
    + intros p. rewrite elem_of_app, list_elem_of_singleton.
      intros [H|[=]]. by apply Hg_act in H.
Qed.

Lemma show_vm_navigates_unless_visible_witness :
  called (details_activate 11 activate_console_page)
    ∈ new_events windowed
        (_show_vm_helper calm 1 "qemu:///system" "guest1"
           (Some DETAILS_CONSOLE) false windowed).2 ∧
  called (details_show 11)
    ∈ new_events windowed
        (_show_vm_helper calm 1 "qemu:///system" "guest1"
           (Some DETAILS_CONSOLE) false windowed).2.
Proof.
  destruct (show_vm_navigates_unless_visible
              calm 1 "qemu:///system" "guest1" (Some DETAILS_CONSOLE) false
              windowed) as [Hthere _].
  destruct (Hthere 11%nat windowed) as (Hact & Hshow & _);
    [vm_compute; reflexivity|].
  split.
  - apply Hact. split; [by right|]. do 3 right. done.
  - apply Hshow. reflexivity.
Defined.

(** C9, as stated, fails on its last part: when the activation of the page
    raises, the exception is reported to [src], [show()] is not called and
    [None] is returned. *)
Lemma failed_activation_leaves_window_unshown :
  _show_vm_helper
    (with_raises (λ c, match c with
                       | details_activate _ _ => Some (Exception "no console")
                       | _ => None
                       end) calm)
    1 "qemu:///system" "guest1" (Some DETAILS_CONSOLE) false windowed =
  (Ret None,
   set_log (log windowed ++
              [called (details_activate 11 activate_console_page);
               show_err 1 "Error launching details: no console"]) windowed).
Proof. vm_compute. reflexivity. Qed.

(** A window that is on screen is shown again without changing its page,
    unless the page is forced. *)
Example show_vm_keeps_page_of_visible_window :
  new_events windowed
    (_show_vm_helper guest1_visible 1 "qemu:///system" "guest1"
       (Some DETAILS_CONSOLE) false windowed).2 =
    [called (details_show 11)] ∧
  new_events windowed
    (_show_vm_helper guest1_visible 1 "qemu:///system" "guest1"
       (Some DETAILS_CONSOLE) true windowed).2 =
    [called (details_activate 11 activate_console_page);
     called (details_show 11)].
Proof. split; vm_compute; reflexivity. Qed.

End EngineFacts.

(** ** Further properties of [DeviceTpm] *)

Module TpmRestFacts.
Import Py Tpm.

(** X1.  [set_defaults] is idempotent: applying it to its own result changes
    nothing. *)
Theorem set_defaults_idempotent {Guest : Type} (d : DeviceTpm) (g1 g2 : Guest) :
  set_defaults (set_defaults d g1) g2 = set_defaults d g1.
Proof.
  unfold set_defaults. destruct d as [t v m p]; simpl.
  destruct (truthy t) eqn:Ht, (truthy m) eqn:Hm;
    do 3 (simpl; rewrite ?Ht, ?Hm); reflexivity.
Qed.

End TpmRestFacts.

(** ** Further properties of the engine *)

Module EngineRestFacts.
Import Py Engine Runs EngineRest EngineFacts.

(** One turn of a [for] loop. *)
Lemma for_cons {A} (x : A) (l : list A) (body : A → M unit) (s : vmmEngine) :
  for_ (x :: l) body s =
  match body x s with
  | (Ret _, s1) => for_ l body s1
  | (Raise e, s1) => (Raise e, s1)
  end.
Proof.
  simpl for_. unfold mbind, M_bind. by destruct (body x s) as [[[]|e] s1].
Qed.

(** *** What a method logs *)

Section logs_only.

Context (P : event → Prop).

Lemma logs_only_silent {A} (m : M A) :
  (∀ s, log (m s).2 = log s) → logs_only P m.
Proof. intros Hm s. exists []. by rewrite Hm, app_nil_r. Qed.

Lemma logs_only_ret {A} (a : A) : logs_only P (mret a : M A).
Proof. by apply logs_only_silent. Qed.

Lemma logs_only_raise {A} (e : exn) : logs_only P (raise e : M A).
Proof. by apply logs_only_silent. Qed.

Lemma logs_only_get : logs_only P get.
Proof. by apply logs_only_silent. Qed.

Lemma logs_only_fresh : logs_only P fresh.
Proof. by apply logs_only_silent. Qed.

Lemma logs_only_modify (f : vmmEngine → vmmEngine) :
  (∀ s, log (f s) = log s) → logs_only P (modify f).
Proof. intros Hf. by apply logs_only_silent. Qed.

Lemma logs_only_record (ev : event) : P ev → logs_only P (record ev).
Proof. intros Hev s. exists [ev]. split; [done|]. by constructor. Qed.

Lemma logs_only_bind {A B} (m : M A) (f : A → M B) :
  logs_only P m → (∀ a, logs_only P (f a)) → logs_only P (m ≫= f).
Proof.
  intros Hm Hf s. unfold mbind, M_bind.
  destruct (Hm s) as (a1 & Hl1 & HP1).
  destruct (m s) as [[a|e] s1]; simpl in Hl1.
  - destruct (Hf a s1) as (a2 & Hl2 & HP2).
    exists (a1 ++ a2). split; [by rewrite Hl2, Hl1, app_assoc|].
    by apply Forall_app.
  - by exists a1.
Qed.

Lemma logs_only_try_except {A} (body : M A) (handler : exn → M A) :
  logs_only P body → (∀ e, logs_only P (handler e)) →
  logs_only P (try_except body handler).
Proof.
  intros Hm Hh s. unfold try_except.
  destruct (Hm s) as (a1 & Hl1 & HP1).
  destruct (body s) as [[a|e] s1]; simpl in Hl1.
  - by exists a1.
  - destruct (Hh e s1) as (a2 & Hl2 & HP2).
    exists (a1 ++ a2). split; [by rewrite Hl2, Hl1, app_assoc|].
    by apply Forall_app.
Qed.

Lemma logs_only_for {A} (l : list A) (body : A → M unit) :
  (∀ x, logs_only P (body x)) → logs_only P (for_ l body).
Proof.
  intros Hbody. induction l as [|x l IH]; simpl.
  - apply logs_only_ret.
  - apply logs_only_bind; [apply Hbody|]. by intros _.
Qed.

Lemma logs_only_call (env : environment) (c : extcall) :
  P (called c) → logs_only P (call env c).
Proof.
  intros Hc. unfold call. apply logs_only_bind; [by apply logs_only_record|].
  intros _. destruct (raises env c); [apply logs_only_raise|apply logs_only_ret].
Qed.

Lemma logs_only_when (b : bool) (m : M unit) :
  logs_only P m → logs_only P (when b m).
Proof. destruct b; [done|]. intros _. apply logs_only_ret. Qed.

Lemma logs_only_getitem_conns (uri : string) : logs_only P (getitem_conns uri).
Proof.
  unfold getitem_conns. apply logs_only_bind; [apply logs_only_get|].
  intros self. destruct (conns self !! uri);
    [apply logs_only_ret|apply logs_only_raise].
Qed.

Lemma logs_only_check_conn (uri : string) : logs_only P (_check_conn uri).
Proof.
  unfold _check_conn. apply logs_only_bind; [apply logs_only_get|].
  intros self. destruct (conns self !! uri); apply logs_only_ret.
Qed.

Lemma logs_only_lookup_conn (uri : string) : logs_only P (_lookup_conn uri).
Proof.
  unfold _lookup_conn. apply logs_only_bind; [apply logs_only_check_conn|].
  intros [c|]; [apply logs_only_ret|apply logs_only_raise].
Qed.

Lemma logs_only_new_events {A} (m : M A) (s : vmmEngine) (ev : event) :
  logs_only P m → ev ∈ new_events s (m s).2 → P ev.
Proof.
  intros Hm Hin. destruct (Hm s) as (added & Hl & HP).
  rewrite (new_events_app _ _ _ Hl) in Hin.
  by apply (proj1 (Forall_forall _ _) HP).
Qed.

End logs_only.

(** *** The registry: lookups, removal, round trips *)

Section registry_more.

Context (env : environment).

Lemma _lookup_conn_registered (uri : string) (s : vmmEngine) (en : conn_entry) :
  conns s !! uri = Some en → _lookup_conn uri s = (Ret (conn en), s).
Proof. intros H. unfold _lookup_conn, _check_conn. unfold_M. by rewrite H. Qed.

Lemma _lookup_conn_unregistered (uri : string) (s : vmmEngine) :
  conns s !! uri = None →
  _lookup_conn uri s = (Raise (RuntimeError ("Unknown connection URI " +:+ uri)), s).
Proof. intros H. unfold _lookup_conn, _check_conn. unfold_M. by rewrite H. Qed.

(** [remove_conn] on a registered URI whose [config.remove_conn] returns. *)
Lemma remove_conn_registered (src : nat) (uri : string) (s : vmmEngine)
    (en : conn_entry) :
  conns s !! uri = Some en →
  raises env (config_remove_conn uri) = None →
  ∃ added,
    remove_conn env src uri s =
    (Ret tt,
     set_conn_uris (filter (λ u, u ≠ uri) <$> conn_uris s)
       (set_conns (delete uri (conns s))
          (set_log (log s ++ added ++
                      [emit_conn_removed uri;
                       called (config_remove_conn uri)]) s))).
Proof.
  intros Hen Hconf.
  destruct (cleanup_conn_adds_only env uri s) as (added & Hs1 & _).
  pose proof (cleanup_conn_returns env uri s) as Hret.
  exists added. unfold remove_conn. unfold mbind at 1. unfold M_bind at 1.
  destruct (cleanup_conn env uri s) as [r s1]. simpl in Hs1, Hret.
  subst r s1. unfold delitem_conns, remove_conn_uri. unfold_M.
  rewrite Hen. simpl. rewrite Hconf. simpl. by rewrite <- !app_assoc.
Qed.

End registry_more.

(** X2.  After [add_conn_to_ui(uri)] has returned a connection,
    [_lookup_conn(uri)] and [_check_conn(uri)] return that same connection
    and leave the engine as it is. *)
Theorem lookup_after_add_conn_to_ui
    (env : environment) (uri : string) (s s' : vmmEngine) (c : vmmConnection) :
  add_conn_to_ui env uri s = (Ret c, s') →
  _lookup_conn uri s' = (Ret c, s') ∧ _check_conn uri s' = (Ret (Some c), s').
Proof.
  intros Hadd. apply add_conn_to_ui_Ret in Hadd as (en & Hen & <-).
  split; [by apply _lookup_conn_registered|].
  unfold _check_conn. unfold_M. by rewrite Hen.
Qed.

Lemma lookup_after_add_conn_to_ui_witness :
  _lookup_conn "qemu:///system" one_conn = (Ret qemu_system, one_conn).
Proof.
  apply (lookup_after_add_conn_to_ui calm "qemu:///system" engine0 one_conn
           qemu_system).
  reflexivity.
Defined.

(** X3.  [remove_conn] of a URI that is not registered raises [KeyError]:
    the failed cleanup is logged, nothing else happens; no [conn-removed] is
    emitted, [config.remove_conn] is not called, and registry and stored
    URIs are as before. *)
Theorem remove_conn_unregistered
    (env : environment) (src : nat) (uri : string) (s : vmmEngine) :
  conns s !! uri = None →
  remove_conn env src uri s =
  (Raise (KeyError uri),
   set_log (log s ++
              [logging_exception "Error cleaning up conn in engine"
                 (KeyError uri)]) s).
Proof.
  intros Hen. unfold remove_conn, cleanup_conn, delitem_conns, getitem_conns.
  unfold_M. rewrite Hen. simpl. by rewrite Hen.
Qed.

Lemma remove_conn_unregistered_witness :
  (remove_conn calm 1 "xen:///" one_conn).1 = Raise (KeyError "xen:///") ∧
  conns (remove_conn calm 1 "xen:///" one_conn).2 = conns one_conn.
Proof.
  rewrite (remove_conn_unregistered calm 1 "xen:///" one_conn);
    [|vm_compute; reflexivity].
  split; reflexivity.
Defined.

(** X4.  Adding a URI that is not registered and removing it again gives
    back the registry as it was, and the URI is unknown again:
    [_lookup_conn] raises "Unknown connection URI". *)
Theorem remove_conn_undoes_add_conn_to_ui
    (env env' : environment) (src : nat) (uri : string) (s s' : vmmEngine)
    (c : vmmConnection) :
  conns s !! uri = None →
  add_conn_to_ui env uri s = (Ret c, s') →
  raises env' (config_remove_conn uri) = None →
  (remove_conn env' src uri s').1 = Ret tt ∧
  conns (remove_conn env' src uri s').2 = conns s ∧
  (_lookup_conn uri (remove_conn env' src uri s').2).1 =
    Raise (RuntimeError ("Unknown connection URI " +:+ uri)).
Proof.
  intros Hnew Hadd Hconf.
  assert (conns s' = <[uri := fresh_entry c]> (conns s)) as Hs'.
  { rewrite (add_conn_to_ui_new env uri s Hnew) in Hadd. cbv zeta in Hadd.
    destruct (raises env _); [done|]. by injection Hadd as <- <-. }
  destruct (remove_conn_registered env' src uri s' (fresh_entry c))
    as (added & ->); [by rewrite Hs', lookup_insert_eq|done|].
  simpl. split; [done|].
  assert (delete uri (conns s') = conns s) as Hdel
    by (rewrite Hs'; by apply delete_insert_id).
  split; [done|].
  rewrite _lookup_conn_unregistered; [done|].
  simpl. rewrite Hdel. done.
Qed.

Lemma remove_conn_undoes_add_conn_to_ui_witness :
  conns (remove_conn calm 1 "qemu:///system" one_conn).2 = conns engine0.
Proof.
  apply (remove_conn_undoes_add_conn_to_ui calm calm 1 "qemu:///system"
           engine0 one_conn qemu_system); reflexivity.
Defined.

(** *** Invariants *)

Section preserves.

Context (I : vmmEngine → Prop).

Lemma preserves_ret {A} (a : A) : preserves I (mret a : M A).
Proof. by intros s. Qed.

Lemma preserves_raise {A} (e : exn) : preserves I (raise e : M A).
Proof. by intros s. Qed.

Lemma preserves_get : preserves I get.
Proof. by intros s. Qed.

Lemma preserves_modify (f : vmmEngine → vmmEngine) :
  (∀ s, I s → I (f s)) → preserves I (modify f).
Proof. intros Hf s. apply Hf. Qed.

Lemma preserves_bind {A B} (m : M A) (f : A → M B) :
  preserves I m → (∀ a, preserves I (f a)) → preserves I (m ≫= f).
Proof.
  intros Hm Hf s Hs. unfold mbind, M_bind. specialize (Hm s Hs).
  destruct (m s) as [[a|e] s1]; simpl in Hm; [|done].
  by apply Hf.
Qed.

Lemma preserves_try_except {A} (body : M A) (handler : exn → M A) :
  preserves I body → (∀ e, preserves I (handler e)) →
  preserves I (try_except body handler).
Proof.
  intros Hm Hh s Hs. unfold try_except. specialize (Hm s Hs).
  destruct (body s) as [[a|e] s1]; simpl in Hm; [done|].
  by apply Hh.
Qed.

Lemma preserves_for {A} (l : list A) (body : A → M unit) :
  (∀ x, preserves I (body x)) → preserves I (for_ l body).
Proof.
  intros Hbody. induction l as [|x l IH]; simpl.
  - apply preserves_ret.
  - apply preserves_bind; [apply Hbody|]. by intros _.
Qed.

Lemma preserves_when (b : bool) (m : M unit) :
  preserves I m → preserves I (when b m).
Proof. destruct b; [done|]. intros _. apply preserves_ret. Qed.

End preserves.

Section registry_keyed.

Context (env : environment).

(** A property that only reads the registry survives what leaves the
    registry alone. *)
Lemma preserves_conns_eq (I : vmmEngine → Prop) {A} (m : M A) :
  (∀ s s', conns s' = conns s → I s → I s') →
  (∀ s, conns (m s).2 = conns s) → preserves I m.
Proof. intros HI Hm s Hs. by apply (HI s), Hs. Qed.

Lemma registry_keyed_conns (s s' : vmmEngine) :
  conns s' = conns s → registry_keyed s → registry_keyed s'.
Proof. intros Hc Hs uri en. rewrite Hc. apply Hs. Qed.

Lemma keyed_record (ev : event) : preserves registry_keyed (record ev).
Proof. by apply (preserves_conns_eq _ _ registry_keyed_conns). Qed.

Lemma keyed_call (c : extcall) : preserves registry_keyed (call env c).
Proof.
  unfold call. apply preserves_bind; [apply keyed_record|]. intros _.
  destruct (raises env c); [apply preserves_raise|apply preserves_ret].
Qed.

Lemma keyed_add_conn_to_ui (uri : string) :
  preserves registry_keyed (add_conn_to_ui env uri).
Proof.
  intros s Hs. destruct (conns s !! uri) as [en|] eqn:Hen.
  - by rewrite (add_conn_to_ui_registered env uri s en Hen).
  - rewrite (add_conn_to_ui_new env uri s Hen). cbv zeta.
    assert (registry_keyed
              (set_conns
                 (<[uri := fresh_entry {| conn_id := next_id s; conn_uri := uri |}]>
                    (conns s)) s)) as Hk.
    { intros uri' e'. simpl. rewrite lookup_insert_Some.
      intros [[<- <-]|[_ He']]; [done|by apply Hs]. }
    destruct (raises env _); simpl;
      by apply (registry_keyed_conns _ _ eq_refl Hk).
Qed.

Lemma keyed_get_conn_uris : preserves registry_keyed (get_conn_uris env).
Proof.
  unfold get_conn_uris. apply preserves_bind; [apply keyed_call|]. intros _.
  apply preserves_bind; [apply preserves_get|]. intros self.
  apply preserves_ret.
Qed.

Lemma keyed_add_conn (uri : string) : preserves registry_keyed (add_conn env uri).
Proof.
  unfold add_conn. apply preserves_bind; [apply keyed_call|]. intros _.
  apply preserves_modify. intros s. by apply registry_keyed_conns.
Qed.

Lemma keyed_connect_to_uri (uri : string) (autoconnect : option bool)
    (do_start : bool) :
  preserves registry_keyed (connect_to_uri env uri autoconnect do_start).
Proof.
  unfold connect_to_uri. apply preserves_try_except.
  - apply preserves_bind; [apply keyed_add_conn_to_ui|]. intros c.
    apply preserves_bind; [apply keyed_get_conn_uris|]. intros uris.
    apply preserves_bind; [apply preserves_when, keyed_add_conn|]. intros _.
    apply preserves_bind.
    { destruct autoconnect; [apply keyed_call|apply preserves_ret]. }
    intros _. apply preserves_bind; [apply preserves_when, keyed_call|].
    intros _. apply preserves_ret.
  - intros e. destruct (is_Exception e); [|apply preserves_raise].
    apply preserves_bind; [apply keyed_record|]. intros _. apply preserves_ret.
Qed.

End registry_keyed.

(** *** [connect_to_uri]: what it leaves out *)

Section connect_more.

Context (env : environment).

Lemma logs_only_add_conn_to_ui (P : event → Prop) (uri : string) :
  (∀ c, P (called (conn_tick c))) → (∀ c, P (emit_conn_added c)) →
  logs_only P (add_conn_to_ui env uri).
Proof.
  intros Htick Hemit. unfold add_conn_to_ui.
  apply logs_only_bind; [apply logs_only_check_conn|].
  intros [c|]; [apply logs_only_ret|].
  apply logs_only_bind; [apply logs_only_fresh|]. intros i.
  apply logs_only_bind; [by apply logs_only_modify|]. intros _.
  apply logs_only_bind; [by apply logs_only_call|]. intros _.
  apply logs_only_bind; [by apply logs_only_record|]. intros _.
  apply logs_only_ret.
Qed.

Lemma logs_only_get_conn_uris (P : event → Prop) :
  P (called config_get_conn_uris) → logs_only P (get_conn_uris env).
Proof.
  intros HP. unfold get_conn_uris.
  apply logs_only_bind; [by apply logs_only_call|]. intros _.
  apply logs_only_bind; [apply logs_only_get|]. intros self.
  apply logs_only_ret.
Qed.

Lemma logs_only_add_conn (P : event → Prop) (uri : string) :
  P (called (config_add_conn uri)) → logs_only P (add_conn env uri).
Proof.
  intros HP. unfold add_conn.
  apply logs_only_bind; [by apply logs_only_call|]. intros _.
  by apply logs_only_modify.
Qed.

(** [connect_to_uri] logs only events of these kinds, the last two only
    when [autoconnect] and [do_start] ask for them. *)
Lemma logs_only_connect_to_uri (P : event → Prop) (uri : string)
    (autoconnect : option bool) (do_start : bool) :
  (∀ c, P (called (conn_tick c))) → (∀ c, P (emit_conn_added c)) →
  P (called config_get_conn_uris) →
  (∀ u, P (called (config_add_conn u))) →
  (∀ e, P (logging_exception ("Error connecting to " +:+ uri) e)) →
  (∀ c a, autoconnect = Some a → P (called (conn_set_autoconnect c a))) →
  (∀ c, do_start = true → P (called (conn_open c))) →
  logs_only P (connect_to_uri env uri autoconnect do_start).
Proof.
  intros Htick Hemit Hget Hadd Hlog Hauto Hopen. unfold connect_to_uri.
  apply logs_only_try_except.
  - apply logs_only_bind; [by apply logs_only_add_conn_to_ui|]. intros c.
    apply logs_only_bind; [by apply logs_only_get_conn_uris|]. intros uris.
    apply logs_only_bind; [by apply logs_only_when, logs_only_add_conn|].
    intros _. apply logs_only_bind.
    { destruct autoconnect as [a|]; [|apply logs_only_ret].
      apply logs_only_call. by apply Hauto. }
    intros _. apply logs_only_bind.
    { destruct do_start; [|apply logs_only_ret].
      apply logs_only_call. by apply Hopen. }
    intros _. apply logs_only_ret.
  - intros e. destruct (is_Exception e); [|apply logs_only_raise].
    apply logs_only_bind; [by apply logs_only_record|]. intros _.
    apply logs_only_ret.
Qed.

End connect_more.

(** X6.  [connect_to_uri] with [do_start=False] never calls [conn.open()],
    and with [autoconnect=None] never calls [conn.set_autoconnect()],
    whatever else happens during the call. *)
Theorem connect_to_uri_honours_its_flags
    (env : environment) (uri : string) (s : vmmEngine) :
  (∀ autoconnect c,
     called (conn_open c)
       ∉ new_events s (connect_to_uri env uri autoconnect false s).2) ∧
  (∀ do_start c a,
     called (conn_set_autoconnect c a)
       ∉ new_events s (connect_to_uri env uri None do_start s).2).
Proof.
  split.
  - intros autoconnect c Hin.
    assert (logs_only (λ ev, ∀ c, ev ≠ called (conn_open c))
              (connect_to_uri env uri autoconnect false)) as Hlogs
      by (apply logs_only_connect_to_uri; done).
    by apply (logs_only_new_events _ _ s _ Hlogs Hin c).
  - intros do_start c a Hin.
    assert (logs_only (λ ev, ∀ c a, ev ≠ called (conn_set_autoconnect c a))
              (connect_to_uri env uri None do_start)) as Hlogs
      by (apply logs_only_connect_to_uri; done).
    by apply (logs_only_new_events _ _ s _ Hlogs Hin c a).
Qed.

(** What follows [add_conn_to_ui] in [connect_to_uri] when the connection's
    URI is already stored. *)
Lemma connect_to_uri_rest_known (env : environment) (c : vmmConnection)
    (autoconnect : option bool) (do_start : bool) (s1 : vmmEngine) :
  py_in (get_uri c) (default [] (conn_uris s1)) = true →
  ∃ l,
    conn_uris
      ((uris ← get_conn_uris env;
        when (negb (py_in (get_uri c) (default [] uris)))
          (add_conn env (get_uri c)) ;;
        match autoconnect with
        | Some a => call env (conn_set_autoconnect c a)
        | None => mret tt
        end ;;
        when do_start (call env (conn_open c)) ;;
        mret (Some c)) s1).2 = conn_uris s1 ∧
    log
      ((uris ← get_conn_uris env;
        when (negb (py_in (get_uri c) (default [] uris)))
          (add_conn env (get_uri c)) ;;
        match autoconnect with
        | Some a => call env (conn_set_autoconnect c a)
        | None => mret tt
        end ;;
        when do_start (call env (conn_open c)) ;;
        mret (Some c)) s1).2 = log s1 ++ l ∧
    Forall (λ ev, ∀ u, ev ≠ called (config_add_conn u)) l.
Proof.
  intros Hpy. unfold get_conn_uris. unfold_M.
  destruct (raises env config_get_conn_uris) as [e|]; simpl.
  { exists [called config_get_conn_uris]. by repeat constructor. }
  rewrite Hpy. simpl.
  destruct autoconnect as [a|]; simpl;
    [destruct (raises env (conn_set_autoconnect c a)); simpl|];
    try (destruct do_start; simpl;
         [destruct (raises env (conn_open c)); simpl|]);
    (eexists; split; [reflexivity|]; split;
     [rewrite <- ?app_assoc; reflexivity|by repeat constructor]).
Qed.

Lemma connect_to_uri_unfold (env : environment) (uri : string)
    (autoconnect : option bool) (do_start : bool) (s : vmmEngine) :
  connect_to_uri env uri autoconnect do_start s =
  match add_conn_to_ui env uri s with
  | (Ret c, s1) =>
      match (uris ← get_conn_uris env;
             when (negb (py_in (get_uri c) (default [] uris)))
               (add_conn env (get_uri c)) ;;
             match autoconnect with
             | Some a => call env (conn_set_autoconnect c a)
             | None => mret tt
             end ;;
             when do_start (call env (conn_open c)) ;;
             mret (Some c)) s1 with
      | (Ret r, s2) => (Ret r, s2)
      | (Raise e, s2) =>
          if is_Exception e then
            (Ret None,
             set_log (log s2 ++
                        [logging_exception ("Error connecting to " +:+ uri) e])
               s2)
          else (Raise e, s2)
      end
  | (Raise e, s1) =>
      if is_Exception e then
        (Ret None,
         set_log (log s1 ++
                    [logging_exception ("Error connecting to " +:+ uri) e]) s1)
      else (Raise e, s1)
  end.
Proof.
  unfold connect_to_uri, try_except. unfold mbind at 1. unfold M_bind at 1.
  destruct (add_conn_to_ui env uri s) as [[c|e] s1].
  - match goal with
    | |- context [match ?rest s1 with _ => _ end] =>
        destruct (rest s1) as [[r|e] s2]
    end; [done|]. by destruct (is_Exception e).
  - by destruct (is_Exception e).
Qed.

(** X7.  When the registry is keyed by URI and [uri] is already in the
    stored URI list, [connect_to_uri(uri)] does not call [config.add_conn]
    and leaves the stored list as it is, whatever the collaborators do. *)
Theorem connect_to_uri_does_not_persist_known_uri
    (env : environment) (uri : string) (autoconnect : option bool)
    (do_start : bool) (s : vmmEngine) :
  registry_keyed s →
  uri ∈ default [] (conn_uris s) →
  conn_uris (connect_to_uri env uri autoconnect do_start s).2 = conn_uris s ∧
  ∀ u, called (config_add_conn u)
         ∉ new_events s (connect_to_uri env uri autoconnect do_start s).2.
Proof.
  intros Hkeyed Hin.
  pose proof (keyed_add_conn_to_ui env uri s Hkeyed) as Hkeyed1.
  destruct (logs_only_add_conn_to_ui env
              (λ ev, ∀ u, ev ≠ called (config_add_conn u)) uri) with s
    as (a1 & Hl1 & Ha1); [done|done|].
  assert (conn_uris (add_conn_to_ui env uri s).2 = conn_uris s) as Hu1.
  { destruct (conns s !! uri) as [en|] eqn:Hen.
    - by rewrite (add_conn_to_ui_registered env uri s en Hen).
    - rewrite (add_conn_to_ui_new env uri s Hen). cbv zeta.
      by destruct (raises env _). }
  assert (∃ added,
            conn_uris (connect_to_uri env uri autoconnect do_start s).2 =
              conn_uris s ∧
            log (connect_to_uri env uri autoconnect do_start s).2 =
              log s ++ added ∧
            Forall (λ ev, ∀ u, ev ≠ called (config_add_conn u)) added)
    as (added & Hu & Hl & Hadded).
  { rewrite connect_to_uri_unfold.
    destruct (add_conn_to_ui env uri s) as [[c|e] s1] eqn:Hadd;
      simpl in Hkeyed1, Hl1, Hu1.
    - apply add_conn_to_ui_Ret in Hadd as (en & Hen & <-).
      destruct (connect_to_uri_rest_known env (conn en) autoconnect do_start s1)
        as (l & Hul & Hll & HPl).
      { apply py_in_true. by rewrite (Hkeyed1 uri en Hen), Hu1. }
      match type of Hll with
      | log (?rest s1).2 = _ =>
          destruct (rest s1) as [[r|e] s3]; simpl in Hul, Hll
      end.
      + simpl. exists (a1 ++ l). rewrite Hul, Hll, Hl1, <- app_assoc.
        split; [done|]. split; [done|]. by apply Forall_app.
      + destruct (is_Exception e); simpl.
        * exists (a1 ++ l ++
                  [logging_exception ("Error connecting to " +:+ uri) e]).
          rewrite Hul, Hll, Hl1, <- !app_assoc. split; [done|]. split; [done|].
          apply Forall_app. split; [done|]. apply Forall_app.
          split; [done|]. by repeat constructor.
        * exists (a1 ++ l). rewrite Hul, Hll, Hl1, <- app_assoc.
          split; [done|]. split; [done|]. by apply Forall_app.
    - destruct (is_Exception e); simpl.
      + exists (a1 ++ [logging_exception ("Error connecting to " +:+ uri) e]).
        rewrite Hl1, <- app_assoc. split; [done|]. split; [done|].
        apply Forall_app. split; [done|]. by repeat constructor.
      + by exists a1. }
  split; [done|]. intros u Hu'.
  rewrite (new_events_app _ _ _ Hl) in Hu'.
  by apply (proj1 (Forall_forall _ _) Hadded _ Hu' u).
Qed.

Lemma connect_to_uri_does_not_persist_known_uri_witness :
  conn_uris (connect_to_uri calm "qemu:///system" None true connected_once).2 =
    conn_uris connected_once.
Proof.
  apply (connect_to_uri_does_not_persist_known_uri
           calm "qemu:///system" None true connected_once).
  - apply keyed_connect_to_uri. by intros uri en.
  - vm_compute. apply list_elem_of_here.
Defined.

(** *** The refresh pass: what it leaves alone *)

Section keeps_engine.

Lemma keeps_engine_ret {A} (a : A) : keeps_engine (mret a : M A).
Proof. by intros s. Qed.

Lemma keeps_engine_raise {A} (e : exn) : keeps_engine (raise e : M A).
Proof. by intros s. Qed.

Lemma keeps_engine_get : keeps_engine get.
Proof. by intros s. Qed.

Lemma keeps_engine_fresh : keeps_engine fresh.
Proof. by intros s. Qed.

Lemma keeps_engine_record (ev : event) : keeps_engine (record ev).
Proof. by intros s. Qed.

Lemma keeps_engine_bind {A B} (m : M A) (f : A → M B) :
  keeps_engine m → (∀ a, keeps_engine (f a)) → keeps_engine (m ≫= f).
Proof.
  intros Hm Hf s. unfold mbind, M_bind.
  destruct (Hm s) as (H1 & H2 & H3 & H4 & H5 & H6).
  destruct (m s) as [[a|e] s1]; simpl in *; [|done].
  destruct (Hf a s1) as (G1 & G2 & G3 & G4 & G5 & G6).
  repeat split; congruence.
Qed.

Lemma keeps_engine_try_except {A} (body : M A) (handler : exn → M A) :
  keeps_engine body → (∀ e, keeps_engine (handler e)) →
  keeps_engine (try_except body handler).
Proof.
  intros Hm Hh s. unfold try_except.
  destruct (Hm s) as (H1 & H2 & H3 & H4 & H5 & H6).
  destruct (body s) as [[a|e] s1]; simpl in *; [done|].
  destruct (Hh e s1) as (G1 & G2 & G3 & G4 & G5 & G6).
  repeat split; congruence.
Qed.

Lemma keeps_engine_for {A} (l : list A) (body : A → M unit) :
  (∀ x, keeps_engine (body x)) → keeps_engine (for_ l body).
Proof.
  intros Hbody. induction l as [|x l IH]; simpl.
  - apply keeps_engine_ret.
  - apply keeps_engine_bind; [apply Hbody|]. by intros _.
Qed.

Lemma keeps_engine_call (env : environment) (c : extcall) :
  keeps_engine (call env c).
Proof.
  unfold call. apply keeps_engine_bind; [apply keeps_engine_record|].
  intros _. destruct (raises env c);
    [apply keeps_engine_raise|apply keeps_engine_ret].
Qed.

Lemma keeps_engine_getitem_conns (uri : string) :
  keeps_engine (getitem_conns uri).
Proof.
  unfold getitem_conns. apply keeps_engine_bind; [apply keeps_engine_get|].
  intros self. destruct (conns self !! uri);
    [apply keeps_engine_ret|apply keeps_engine_raise].
Qed.

Lemma keeps_engine_tick_conn (env : environment) (frame : nat) (uri : string) :
  keeps_engine (_tick_conn env frame uri).
Proof.
  unfold _tick_conn.
  apply keeps_engine_bind; [apply keeps_engine_getitem_conns|]. intros en.
  apply keeps_engine_try_except; [apply keeps_engine_call|].
  intros [| |dom code msg| | |]; try apply keeps_engine_raise.
  apply keeps_engine_bind; [|intros _; apply keeps_engine_record].
  destruct (is_transient env dom code).
  - apply keeps_engine_bind; [apply keeps_engine_record|].
    intros _. apply keeps_engine_record.
  - apply keeps_engine_bind; [by intros s|].
    intros _. apply keeps_engine_record.
Qed.

End keeps_engine.

(** X8.  The refresh pass changes no attribute of the engine: whether it
    returns or raises, the registry, the window counter, the tick thread and
    its slow flag, the timer and the tray are as before.  What it has to say
    it hands to [idle_add]. *)
Theorem _tick_mutates_nothing (env : environment) (s : vmmEngine) :
  conns (_tick env s).2 = conns s ∧
  windows (_tick env s).2 = windows s ∧
  _tick_thread (_tick env s).2 = _tick_thread s ∧
  _tick_thread_slow (_tick env s).2 = _tick_thread_slow s ∧
  timer (_tick env s).2 = timer s ∧
  systray (_tick env s).2 = systray s.
Proof.
  assert (keeps_engine (_tick env)) as H; [|apply H].
  unfold _tick. apply keeps_engine_bind; [apply keeps_engine_fresh|].
  intros frame. apply keeps_engine_bind; [apply keeps_engine_get|].
  intros self. apply keeps_engine_bind; [|intros _; apply keeps_engine_ret].
  apply keeps_engine_for. intros uri. apply keeps_engine_tick_conn.
Qed.

Section pass_closes.

Context (env : environment).

(** An event the pass may add to the log: a [conn.close] or an error dialog
    is queued only for a connection whose [tick] raised a [libvirtError],
    the dialog only when the error is not of the transient kind. *)
Let justified (ev : event) : Prop :=
  match ev with
  | idle_add (cb_conn_close c) =>
      ∃ dom code msg, raises env (conn_tick c) = Some (libvirtError dom code msg)
  | idle_add (cb_show_err_error_msg _) =>
      ∃ c dom code msg,
        raises env (conn_tick c) = Some (libvirtError dom code msg) ∧
        is_transient env dom code = false
  | idle_add (cb_exit_app _) => False
  | _ => True
  end.

Lemma justified_tick_conn (frame : nat) (uri : string) :
  logs_only justified (_tick_conn env frame uri).
Proof.
  intros s. destruct (conns s !! uri) as [en|] eqn:Hen.
  - rewrite (_tick_conn_registered env frame uri s en Hen). cbv zeta.
    destruct (raises env (conn_tick (conn en))) as [e|] eqn:He.
    + destruct e as [| |dom code msg| | |];
        try (exists [called (conn_tick (conn en))]; by repeat constructor).
      destruct (is_transient env dom code) eqn:Htr; simpl.
      * eexists. split; [by rewrite <- app_assoc|].
        repeat constructor. by exists dom, code, msg.
      * eexists. split; [by rewrite <- app_assoc|].
        repeat constructor; [by exists (conn en), dom, code, msg|].
        by exists dom, code, msg.
    + exists [called (conn_tick (conn en))]. by repeat constructor.
  - rewrite (_tick_conn_unregistered env frame uri s Hen). exists [].
    by rewrite app_nil_r.
Qed.

Lemma justified_tick : logs_only justified (_tick env).
Proof.
  unfold _tick. apply logs_only_bind; [apply logs_only_fresh|]. intros frame.
  apply logs_only_bind; [apply logs_only_get|]. intros self.
  apply logs_only_bind; [|intros _; apply logs_only_ret].
  apply logs_only_for. intros uri. apply justified_tick_conn.
Qed.

(** X9.  The refresh pass, complete or aborted, queues [conn.close] only for
    a connection whose [tick] raised a [libvirtError], queues an error dialog
    only when some connection raised a [libvirtError] that is not of the
    transient kind, and never queues [exit_app]. *)
Theorem _tick_closes_only_faulted_connections (s : vmmEngine) :
  (∀ c, idle_add (cb_conn_close c) ∈ new_events s (_tick env s).2 →
        ∃ dom code msg,
          raises env (conn_tick c) = Some (libvirtError dom code msg)) ∧
  (∀ frame,
     idle_add (cb_show_err_error_msg frame) ∈ new_events s (_tick env s).2 →
     ∃ c dom code msg,
       raises env (conn_tick c) = Some (libvirtError dom code msg) ∧
       is_transient env dom code = false) ∧
  (∀ src, idle_add (cb_exit_app src) ∉ new_events s (_tick env s).2).
Proof.
  split; [|split].
  - intros c Hin.
    exact (logs_only_new_events _ _ s _ justified_tick Hin).
  - intros frame Hin.
    exact (logs_only_new_events _ _ s _ justified_tick Hin).
  - intros src Hin.
    exact (logs_only_new_events _ _ s _ justified_tick Hin).
Qed.

End pass_closes.

(** *** Start-up: stored URIs and autoconnect *)

Section startup.

Context (env : environment).

Lemma for_add_conn_to_ui_cons (u : string) (uris : list string)
    (s : vmmEngine) :
  for_ (u :: uris) (λ uri, add_conn_to_ui env uri ;; mret tt) s =
  match add_conn_to_ui env u s with
  | (Ret _, s1) => for_ uris (λ uri, add_conn_to_ui env uri ;; mret tt) s1
  | (Raise e, s1) => (Raise e, s1)
  end.
Proof.
  simpl for_. unfold mbind at 1. unfold M_bind at 1.
  unfold mbind at 1. unfold M_bind at 1.
  by destruct (add_conn_to_ui env u s) as [[c|e] s1].
Qed.

Lemma for_add_conn_to_ui (uris : list string) (s : vmmEngine) :
  (∀ c, raises env (conn_tick c) = None) →
  (for_ uris (λ uri, add_conn_to_ui env uri ;; mret tt) s).1 = Ret tt ∧
  (∀ uri, uri ∈ uris →
          is_Some (conns (for_ uris (λ uri, add_conn_to_ui env uri ;; mret tt)
                            s).2 !! uri)) ∧
  (∀ uri, uri ∉ uris →
          conns (for_ uris (λ uri, add_conn_to_ui env uri ;; mret tt) s).2
            !! uri = conns s !! uri) ∧
  (∀ uri en, conns s !! uri = Some en →
             conns (for_ uris (λ uri, add_conn_to_ui env uri ;; mret tt) s).2
               !! uri = Some en) ∧
  ∃ added,
    log (for_ uris (λ uri, add_conn_to_ui env uri ;; mret tt) s).2 =
      log s ++ added ∧
    ∀ uri en,
      conns s !! uri = None →
      conns (for_ uris (λ uri, add_conn_to_ui env uri ;; mret tt) s).2 !! uri
        = Some en →
      emit_conn_added (conn en) ∈ added.
Proof.
  intros Htick. revert s. induction uris as [|u uris IH]; intros s.
  - simpl. split; [done|]. split; [by intros ? ?%elem_of_nil|].
    split; [done|]. split; [done|]. exists []. rewrite app_nil_r.
    split; [done|]. intros uri en H1 H2. congruence.
  - rewrite !for_add_conn_to_ui_cons.
    destruct (conns s !! u) as [enu|] eqn:Hu.
    + rewrite (add_conn_to_ui_registered env u s enu Hu). simpl.
      destruct (IH s) as (Hr & Hin & Hout & Hold & added & Hl & Hemit).
      split; [done|]. split; [|split; [|split]].
      * intros uri [->|Huri]%elem_of_cons; [|by apply Hin].
        rewrite (Hold u enu Hu). by eexists.
      * intros uri Huri. apply Hout. intros H. apply Huri. by right.
      * done.
      * by exists added.
    + rewrite (add_conn_to_ui_new env u s Hu). cbv zeta. rewrite Htick. simpl.
      match goal with
      | |- context [for_ uris _ ?s1] =>
          destruct (IH s1) as (Hr & Hin & Hout & Hold & added & Hl & Hemit);
          set (s1' := s1) in *
      end.
      assert (conns s1' !! u =
              Some (fresh_entry {| conn_id := next_id s; conn_uri := u |}))
        as Hu1 by apply lookup_insert_eq.
      split; [done|]. split; [|split; [|split]].
      * intros uri [->|Huri]%elem_of_cons; [|by apply Hin].
        rewrite (Hold _ _ Hu1). by eexists.
      * intros uri Huri. rewrite Hout; [|intros H; apply Huri; by right].
        simpl. apply lookup_insert_ne. intros ->. apply Huri. by left.
      * intros uri en Hen. apply Hold. simpl.
        rewrite lookup_insert_ne; [done|]. intros ->. congruence.
      * exists ([called (conn_tick {| conn_id := next_id s; conn_uri := u |});
                 emit_conn_added {| conn_id := next_id s; conn_uri := u |}]
                ++ added).
        split; [rewrite Hl; simpl; by rewrite <- !app_assoc|].
        intros uri en Hnone Hsome. destruct (decide (uri = u)) as [->|Hne].
        -- rewrite (Hold _ _ Hu1) in Hsome. injection Hsome as <-. simpl.
           in_list.
        -- apply elem_of_app. right. apply (Hemit uri en); [|done].
           simpl. by rewrite lookup_insert_ne.
Qed.

End startup.

(** X10.  [load_stored_uris], when the configuration can be read and the
    initial [tick] of every new connection returns: afterwards every stored
    URI is registered, the entries that were there are untouched, no other
    URI is registered, and every connection it registered was announced with
    [conn-added]. *)
Theorem load_stored_uris_registers_every_stored_uri
    (env : environment) (s : vmmEngine) :
  raises env config_get_conn_uris = None →
  (∀ c, raises env (conn_tick c) = None) →
  (load_stored_uris env s).1 = Ret tt ∧
  (∀ uri, uri ∈ default [] (conn_uris s) →
          is_Some (conns (load_stored_uris env s).2 !! uri)) ∧
  (∀ uri, uri ∉ default [] (conn_uris s) →
          conns (load_stored_uris env s).2 !! uri = conns s !! uri) ∧
  (∀ uri en, conns s !! uri = Some en →
             conns (load_stored_uris env s).2 !! uri = Some en) ∧
  (∀ uri en, conns s !! uri = None →
             conns (load_stored_uris env s).2 !! uri = Some en →
             emit_conn_added (conn en) ∈ new_events s (load_stored_uris env s).2).
Proof.
  intros Hget Htick.
  assert (load_stored_uris env s =
          match conn_uris s with
          | None | Some [] =>
              (Ret tt, set_log (log s ++ [called config_get_conn_uris]) s)
          | Some uris =>
              for_ uris (λ uri, add_conn_to_ui env uri ;; mret tt)
                (set_log
                   (log s ++
                      [called config_get_conn_uris;
                       logging_debug
                         ("About to connect to uris " +:+ str_list uris)]) s)
          end) as ->.
  { unfold load_stored_uris, get_conn_uris.
    unfold mbind at 1. unfold M_bind at 1. unfold_M. rewrite Hget. simpl.
    destruct (conn_uris s) as [[|u uris]|]; try done.
    simpl. by rewrite <- app_assoc. }
  destruct (conn_uris s) as [[|u uris]|] eqn:Huris.
  - simpl. split; [done|]. split; [by intros ? ?%elem_of_nil|]. split; [done|].
    split; [done|]. intros uri en H1 H2. congruence.
  - match goal with
    | |- context [for_ (u :: uris) _ ?s1] =>
        destruct (for_add_conn_to_ui env (u :: uris) s1 Htick)
          as (Hr & Hin & Hout & Hold & added & Hl & Hemit);
        destruct (for_ (u :: uris) (λ uri, add_conn_to_ui env uri ;; mret tt) s1)
          as [r s'] eqn:Hfor
    end.
    simpl in Hr, Hin, Hout, Hold, Hl, Hemit. subst r.
    split; [done|]. split; [done|]. split; [done|]. split; [done|].
    intros uri en Hnone Hsome. simpl in Hsome |- *.
    erewrite new_events_app; [|rewrite Hl; by rewrite <- !app_assoc].
    apply elem_of_app. right. by apply (Hemit uri en).
  - simpl. split; [done|]. split; [by intros ? ?%elem_of_nil|]. split; [done|].
    split; [done|]. intros uri en H1 H2. congruence.
Qed.

Lemma load_stored_uris_registers_every_stored_uri_witness :
  is_Some (conns (load_stored_uris calm two_stored).2 !! "xen:///").
Proof.
  destruct (load_stored_uris_registers_every_stored_uri calm two_stored)
    as (_ & Hin & _); [reflexivity|reflexivity|].
  apply Hin. vm_compute. apply list_elem_of_further, list_elem_of_here.
Defined.

Section autostart.

Context (env : environment).

Hypothesis config_reads : raises env config_get_conn_uris = None.
Hypothesis config_writes : ∀ u, raises env (config_add_conn u) = None.
Hypothesis open_faults :
  ∀ c e, raises env (conn_open c) = Some e → is_Exception e = true.

(** [connect_to_uri(uri)] on a registered URI opens that connection and no
    other, and returns even when the open is refused. *)
Lemma connect_to_uri_registered_opens (uri : string) (s : vmmEngine)
    (en : conn_entry) :
  conns s !! uri = Some en →
  (∃ r, (connect_to_uri env uri None true s).1 = Ret r) ∧
  conns (connect_to_uri env uri None true s).2 = conns s ∧
  ∃ added,
    log (connect_to_uri env uri None true s).2 = log s ++ added ∧
    called (conn_open (conn en)) ∈ added ∧
    Forall (λ ev, ∀ c, ev = called (conn_open c) → c = conn en) added.
Proof.
  intros Hen. rewrite connect_to_uri_unfold.
  rewrite (add_conn_to_ui_registered env uri s en Hen).
  unfold get_conn_uris, add_conn. unfold_M. rewrite config_reads. simpl.
  destruct (py_in (get_uri (conn en)) (default [] (conn_uris s))); simpl;
    rewrite ?config_writes; simpl;
    destruct (raises env (conn_open (conn en))) as [e|] eqn:Hopen; simpl;
    rewrite ?(open_faults _ _ Hopen); simpl;
    (split; [by eexists|]); (split; [done|]);
    (eexists; split; [rewrite <- ?app_assoc; reflexivity|]);
    (split; [in_list|]);
    repeat constructor; by intros c [= <-].
Qed.

Lemma for_autostart (get_autoconnect : vmmConnection → bool)
    (keys : list string) (s : vmmEngine) :
  (∀ k, k ∈ keys → is_Some (conns s !! k)) →
  (for_ keys
     (λ uri,
        e ← getitem_conns uri;
        if get_autoconnect (conn e) then connect_to_uri env uri None true ;; mret tt
        else mret tt) s).1 = Ret tt ∧
  conns (for_ keys
           (λ uri,
              e ← getitem_conns uri;
              if get_autoconnect (conn e)
              then connect_to_uri env uri None true ;; mret tt
              else mret tt) s).2 = conns s ∧
  ∃ added,
    log (for_ keys
           (λ uri,
              e ← getitem_conns uri;
              if get_autoconnect (conn e)
              then connect_to_uri env uri None true ;; mret tt
              else mret tt) s).2 = log s ++ added ∧
    (∀ uri en, uri ∈ keys → conns s !! uri = Some en →
               get_autoconnect (conn en) = true →
               called (conn_open (conn en)) ∈ added) ∧
    Forall (λ ev, ∀ c, ev = called (conn_open c) → get_autoconnect c = true)
      added.
Proof.
  revert s. induction keys as [|k keys IH]; intros s Hreg.
  - simpl. split; [done|]. split; [done|]. exists []. rewrite app_nil_r.
    split; [done|]. split; [|done]. by intros ? ? ?%elem_of_nil.
  - destruct (Hreg k) as [en Hen]; [by left|].
    assert (∃ s1 a1,
              (e ← getitem_conns k;
               if get_autoconnect (conn e)
               then connect_to_uri env k None true ;; mret tt
               else mret tt) s = (Ret tt, s1) ∧
              conns s1 = conns s ∧ log s1 = log s ++ a1 ∧
              (get_autoconnect (conn en) = true →
               called (conn_open (conn en)) ∈ a1) ∧
              Forall (λ ev, ∀ c, ev = called (conn_open c) →
                                 get_autoconnect c = true) a1)
      as (s1 & a1 & Hstep & Hc1 & Hl1 & Hopen1 & HP1).
    { unfold getitem_conns. unfold mbind at 1. unfold M_bind at 1.
      unfold mbind at 1. unfold M_bind at 1. unfold get at 1.
      rewrite Hen. unfold mret at 1. unfold M_ret at 1.
      destruct (get_autoconnect (conn en)) eqn:Hauto.
      - destruct (connect_to_uri_registered_opens k s en Hen)
          as ([r Hr] & Hc & a1 & Hl & Hin & HP).
        unfold mbind, M_bind.
        destruct (connect_to_uri env k None true s) as [r' s1].
        simpl in Hr, Hc, Hl. subst r'.
        exists s1, a1. split; [done|]. split; [done|]. split; [done|].
        split; [done|]. eapply Forall_impl; [exact HP|].
        intros ev Hev c Hc'. by rewrite (Hev c Hc').
      - exists s, []. rewrite app_nil_r. split; [done|]. split; [done|].
        split; [done|]. split; [done|]. done. }
    rewrite !for_cons, Hstep.
    destruct (IH s1) as (Hr & Hc & a2 & Hl & Hopen & HP).
    { intros k' Hk'. rewrite Hc1. apply Hreg. by right. }
    split; [done|]. split; [congruence|].
    exists (a1 ++ a2). split; [by rewrite Hl, Hl1, app_assoc|]. split.
    + intros uri en' [->|Huri]%elem_of_cons Hen' Hauto; apply elem_of_app.
      * left. assert (en' = en) as -> by congruence. by apply Hopen1.
      * right. apply (Hopen uri en'); [done| |done]. by rewrite Hc1.
    + by apply Forall_app.
Qed.

End autostart.

(** X11.  [autostart_conns], when the configuration can be read and written
    and every failure of a [conn.open()] is an [Exception]: it returns,
    leaves the registry as it is, calls [conn.open()] on every registered
    connection whose autoconnect flag is set, a refused open stopping
    nothing, and on no connection whose flag is clear. *)
Theorem autostart_conns_opens_the_flagged_connections
    (env : environment) (get_autoconnect : vmmConnection → bool)
    (s : vmmEngine) :
  raises env config_get_conn_uris = None →
  (∀ u, raises env (config_add_conn u) = None) →
  (∀ c e, raises env (conn_open c) = Some e → is_Exception e = true) →
  (autostart_conns env get_autoconnect s).1 = Ret tt ∧
  conns (autostart_conns env get_autoconnect s).2 = conns s ∧
  (∀ uri en, conns s !! uri = Some en → get_autoconnect (conn en) = true →
             called (conn_open (conn en))
               ∈ new_events s (autostart_conns env get_autoconnect s).2) ∧
  (∀ c, called (conn_open c)
          ∈ new_events s (autostart_conns env get_autoconnect s).2 →
        get_autoconnect c = true).
Proof.
  intros Hget Hadd Hopen.
  destruct (for_autostart env Hget Hadd Hopen get_autoconnect
              (dict_keys (conns s)) s)
    as (Hr & Hc & added & Hl & Hin & HP).
  { intros k Hk. by apply elem_of_dict_keys in Hk. }
  assert (autostart_conns env get_autoconnect s =
          for_ (dict_keys (conns s))
            (λ uri,
               e ← getitem_conns uri;
               if get_autoconnect (conn e)
               then connect_to_uri env uri None true ;; mret tt
               else mret tt) s) as -> by reflexivity.
  split; [done|]. split; [done|].
  rewrite (new_events_app _ _ _ Hl). split.
  - intros uri en Hen Hauto. apply (Hin uri en); [|done|done].
    apply elem_of_dict_keys. by exists en.
  - intros c Hc'. by apply (proj1 (Forall_forall _ _) HP _ Hc' c).
Qed.

Lemma autostart_conns_opens_the_flagged_connections_witness :
  called (conn_open qemu_system)
    ∈ new_events two_conns
        (autostart_conns every_open_refused
           (λ c, bool_decide (c = qemu_system)) two_conns).2 ∧
  called (conn_open xen)
    ∉ new_events two_conns
        (autostart_conns every_open_refused
           (λ c, bool_decide (c = qemu_system)) two_conns).2.
Proof.
  destruct (autostart_conns_opens_the_flagged_connections every_open_refused
              (λ c, bool_decide (c = qemu_system)) two_conns)
    as (_ & _ & Hin & Honly).
  - reflexivity.
  - reflexivity.
  - intros c e. simpl. intros [= <-]. reflexivity.
  - split.
    + apply (Hin "qemu:///system" (fresh_entry qemu_system));
        vm_compute; reflexivity.
    + intros H. apply Honly in H. vm_compute in H. discriminate H.
Defined.

(** *** A guest goes away *)

(** X12.  [_do_vm_removed] for a guest whose details window is cached and
    whose [cleanup()] returns: the window is cleaned up and forgotten; the
    other details windows of the connection, its host and clone windows and
    all other connections are as before. *)
Theorem _do_vm_removed_forgets_the_window
    (env : environment) (c : vmmConnection) (vmuuid : string) (s : vmmEngine)
    (en : conn_entry) (w : nat) :
  conns s !! get_uri c = Some en →
  windowDetails en !! vmuuid = Some w →
  raises env (win_cleanup w) = None →
  (_do_vm_removed env c vmuuid s).1 = Ret tt ∧
  new_events s (_do_vm_removed env c vmuuid s).2 = [called (win_cleanup w)] ∧
  (∃ en',
     conns (_do_vm_removed env c vmuuid s).2 !! get_uri c = Some en' ∧
     windowDetails en' = delete vmuuid (windowDetails en) ∧
     conn en' = conn en ∧ windowHost en' = windowHost en ∧
     windowClone en' = windowClone en) ∧
  (∀ uri, uri ≠ get_uri c →
          conns (_do_vm_removed env c vmuuid s).2 !! uri = conns s !! uri).
Proof.
  intros Hen Hw Hclean.
  assert (_do_vm_removed env c vmuuid s =
          (Ret tt,
           set_conns
             (<[get_uri c :=
                  {| conn := conn en; windowHost := windowHost en;
                     windowDetails := delete vmuuid (windowDetails en);
                     windowClone := windowClone en |}]> (conns s))
             (set_log (log s ++ [called (win_cleanup w)]) s))) as ->.
  { unfold _do_vm_removed, getitem_windowDetails, delitem_windowDetails,
      getitem_conns. unfold_M. rewrite Hen. simpl. rewrite Hw. simpl.
    rewrite Hen. simpl. rewrite Hw. simpl. rewrite Hclean. simpl.
    rewrite Hen. simpl. by rewrite Hw. }
  simpl. split; [done|]. split; [by apply new_events_app|]. split.
  - eexists. split; [apply lookup_insert_eq|]. done.
  - intros uri Hne. by apply lookup_insert_ne.
Qed.

Lemma _do_vm_removed_forgets_the_window_witness :
  new_events windowed (_do_vm_removed calm qemu_system "guest1" windowed).2 =
    [called (win_cleanup 11)].
Proof.
  destruct (_do_vm_removed_forgets_the_window calm qemu_system "guest1"
              windowed windowed_entry 11) as (_ & H & _);
    [vm_compute; reflexivity|vm_compute; reflexivity|reflexivity|].
  exact H.
Defined.

(** X13.  When the [cleanup()] of the cached details window raises,
    [_do_vm_removed] raises the same exception before the [del]: the
    registry is unchanged, so the window is still cached and
    [_get_details_dialog] goes on handing it out. *)
Theorem _do_vm_removed_keeps_window_when_cleanup_raises
    (env env' : environment) (c : vmmConnection) (vmuuid : string)
    (s : vmmEngine) (en : conn_entry) (w : nat) (e : exn) :
  conns s !! get_uri c = Some en →
  windowDetails en !! vmuuid = Some w →
  raises env (win_cleanup w) = Some e →
  (_do_vm_removed env c vmuuid s).1 = Raise e ∧
  conns (_do_vm_removed env c vmuuid s).2 = conns s ∧
  (_get_details_dialog env' (get_uri c) vmuuid
     (_do_vm_removed env c vmuuid s).2).1 = Ret w.
Proof.
  intros Hen Hw Hclean.
  assert (_do_vm_removed env c vmuuid s =
          (Raise e, set_log (log s ++ [called (win_cleanup w)]) s)) as ->.
  { unfold _do_vm_removed, getitem_windowDetails, getitem_conns. unfold_M.
    rewrite Hen. simpl. rewrite Hw. simpl. rewrite Hen. simpl. rewrite Hw.
    simpl. by rewrite Hclean. }
  simpl. split; [done|]. split; [done|].
  by rewrite (_get_details_dialog_cached env' (get_uri c) vmuuid _ en w).
Qed.

Lemma _do_vm_removed_keeps_window_when_cleanup_raises_witness :
  (_do_vm_removed details_cleanup_fails qemu_system "guest1" windowed).1 =
    Raise (Exception "already destroyed") ∧
  conns (_do_vm_removed details_cleanup_fails qemu_system "guest1" windowed).2 =
    conns windowed.
Proof.
  destruct (_do_vm_removed_keeps_window_when_cleanup_raises
              details_cleanup_fails calm qemu_system "guest1" windowed
              windowed_entry 11 (Exception "already destroyed"))
    as (H1 & H2 & _);
    [vm_compute; reflexivity|vm_compute; reflexivity|reflexivity|].
  split; [exact H1|exact H2].
Defined.

(** *** Details windows *)

(** X14.  [_get_details_dialog] is a get-or-create: once it has returned a
    window for a guest, every later call for that guest returns the same
    window, calls no collaborator and changes nothing. *)
Theorem _get_details_dialog_returns_the_cached_window
    (env env' : environment) (uri uuid : string) (s s1 : vmmEngine) (w : nat) :
  _get_details_dialog env uri uuid s = (Ret w, s1) →
  _get_details_dialog env' uri uuid s1 = (Ret w, s1).
Proof.
  intros Hget.
  destruct (conns s !! uri) as [en|] eqn:Hen.
  - destruct (windowDetails en !! uuid) as [w0|] eqn:Hw.
    + rewrite (_get_details_dialog_cached env uri uuid s en w0 Hen Hw) in Hget.
      injection Hget as <- <-.
      by apply (_get_details_dialog_cached env' uri uuid s en w0).
    + destruct (raises env (conn_get_vm (conn en) uuid)) as [e|] eqn:Hvm.
      * exfalso. revert Hget.
        unfold _get_details_dialog, getitem_conns, _lookup_conn, _check_conn,
          get_vm. unfold_M. rewrite Hen. simpl. rewrite Hw. simpl.
        rewrite Hen. simpl. by rewrite Hvm.
      * rewrite (_get_details_dialog_new env uri uuid s en Hen Hw Hvm) in Hget.
        injection Hget as <- <-.
        eapply _get_details_dialog_cached.
        -- simpl. apply lookup_insert_eq.
        -- simpl. apply lookup_insert_eq.
  - exfalso. revert Hget. unfold _get_details_dialog, getitem_conns.
    unfold_M. by rewrite Hen.
Qed.

Lemma _get_details_dialog_returns_the_cached_window_witness :
  _get_details_dialog busy "qemu:///system" "guest2"
    (_get_details_dialog calm "qemu:///system" "guest2" windowed).2 =
  (Ret 1%nat, (_get_details_dialog calm "qemu:///system" "guest2" windowed).2).
Proof.
  apply (_get_details_dialog_returns_the_cached_window calm busy
           "qemu:///system" "guest2" windowed).
  vm_compute. reflexivity.
Defined.

(** X15.  [_show_vm_helper] for a URI that is not registered raises nothing
    and shows nothing: the [KeyError] of [self.conns[uri]] is reported to
    [src] as "Error launching details: " followed by the [repr] of the URI
    (the text of a [KeyError]), [None] is returned and the engine is
    otherwise unchanged. *)
Theorem _show_vm_helper_reports_unknown_uri
    (env : environment) (src : nat) (uri uuid : string) (page : option Z)
    (forcepage : bool) (s : vmmEngine) :
  conns s !! uri = None →
  _show_vm_helper env src uri uuid page forcepage s =
  (Ret None,
   set_log (log s ++
              [show_err src ("Error launching details: " +:+ repr uri)]) s).
Proof.
  intros Hen. unfold _show_vm_helper, _get_details_dialog, getitem_conns.
  unfold_M. by rewrite Hen.
Qed.

Lemma _show_vm_helper_reports_unknown_uri_witness :
  _show_vm_helper calm 1 "qemu+ssh://o'neil@host/system" "guest1" None false
    one_conn =
  (Ret None,
   set_log (log one_conn ++
              [show_err 1 ("Error launching details: " +:+
                           String double_quote
                             ("qemu+ssh://o'neil@host/system" +:+
                              String double_quote ""))]) one_conn).
Proof.
  rewrite (_show_vm_helper_reports_unknown_uri calm 1
             "qemu+ssh://o'neil@host/system" "guest1" None false one_conn);
    [reflexivity|vm_compute; reflexivity].
Defined.

Section unknown_page.

Context (env : environment).

Lemma logs_only_get_details_dialog (P : event → Prop) (uri uuid : string) :
  (∀ c u, P (called (conn_get_vm c u))) →
  logs_only P (_get_details_dialog env uri uuid).
Proof.
  intros HP. unfold _get_details_dialog.
  assert (∀ uri uuid, logs_only P (getitem_windowDetails uri uuid)) as Hgw.
  { intros uri' uuid'. unfold getitem_windowDetails.
    apply logs_only_bind; [apply logs_only_getitem_conns|]. intros e.
    destruct (windowDetails e !! uuid');
      [apply logs_only_ret|apply logs_only_raise]. }
  apply logs_only_bind; [apply logs_only_getitem_conns|]. intros e.
  destruct (bool_decide _); [apply Hgw|].
  apply logs_only_bind; [apply logs_only_lookup_conn|]. intros con.
  apply logs_only_bind.
  { unfold get_vm. apply logs_only_bind; [by apply logs_only_call|].
    intros _. apply logs_only_ret. }
  intros vm. apply logs_only_bind; [apply logs_only_fresh|]. intros obj.
  apply logs_only_bind; [|intros _; apply Hgw].
  unfold setitem_windowDetails.
  apply logs_only_bind; [apply logs_only_getitem_conns|]. intros e'.
  by apply logs_only_modify.
Qed.

End unknown_page.

(** X16.  With a [page] that is neither [None] nor one of [DETAILS_PERF],
    [DETAILS_CONFIG], [DETAILS_CONSOLE], [_show_vm_helper] activates no page
    at all, forced or not. *)
Theorem _show_vm_helper_ignores_unknown_page
    (env : environment) (src : nat) (uri uuid : string) (p : Z)
    (forcepage : bool) (s : vmmEngine) :
  p ≠ DETAILS_PERF → p ≠ DETAILS_CONFIG → p ≠ DETAILS_CONSOLE →
  ∀ w q, called (details_activate w q)
           ∉ new_events s
               (_show_vm_helper env src uri uuid (Some p) forcepage s).2.
Proof.
  intros H1 H2 H3 w q Hin.
  assert (page_activation_of (Some p) = None) as Hpage.
  { unfold page_activation_of.
    by rewrite !(proj2 (Z.eqb_neq _ _)). }
  assert (logs_only (λ ev, ∀ w q, ev ≠ called (details_activate w q))
            (_show_vm_helper env src uri uuid (Some p) forcepage)) as Hlogs.
  { unfold _show_vm_helper. rewrite Hpage. apply logs_only_try_except.
    - apply logs_only_bind; [by apply logs_only_get_details_dialog|].
      intros details. apply logs_only_bind.
      { apply logs_only_when, logs_only_ret. }
      intros _. apply logs_only_bind; [by apply logs_only_call|].
      intros _. apply logs_only_ret.
    - intros e. destruct (is_Exception e); [|apply logs_only_raise].
      apply logs_only_bind; [by apply logs_only_record|]. intros _.
      apply logs_only_ret. }
  by apply (logs_only_new_events _ _ s _ Hlogs Hin w q).
Qed.

Lemma _show_vm_helper_ignores_unknown_page_witness :
  called (details_activate 11 activate_console_page)
    ∉ new_events windowed
        (_show_vm_helper calm 1 "qemu:///system" "guest1" (Some 7) true
           windowed).2.
Proof.
  apply (_show_vm_helper_ignores_unknown_page calm 1 "qemu:///system" "guest1"
           7 true windowed); unfold DETAILS_PERF, DETAILS_CONFIG,
    DETAILS_CONSOLE; lia.
Defined.

(** *** The reboot action as a whole *)

(** X17.  [_do_reboot_domain] for a URI that is not registered raises
    [RuntimeError] "Unknown connection URI <uri>" out of the action: the
    lookup stands outside every [try], so nothing is asked, called or
    reported, and the engine is unchanged. *)
Theorem _do_reboot_domain_unknown_uri_raises
    (env : environment) (src : nat) (uri uuid : string) (s : vmmEngine) :
  conns s !! uri = None →
  _do_reboot_domain env src uri uuid s =
  (Raise (RuntimeError ("Unknown connection URI " +:+ uri)), s).
Proof.
  intros Hen. unfold _do_reboot_domain.
  unfold mbind at 1. unfold M_bind at 1.
  by rewrite (_lookup_conn_unregistered uri s Hen).
Qed.

Lemma _do_reboot_domain_unknown_uri_raises_witness :
  (_do_reboot_domain calm 1 "xen:///" "guest1" one_conn).1 =
  Raise (RuntimeError "Unknown connection URI xen:///").
Proof.
  rewrite (_do_reboot_domain_unknown_uri_raises calm 1 "xen:///" "guest1"
             one_conn); [reflexivity|vm_compute; reflexivity].
Defined.

Section reboot_action.

Context (env : environment).

(** What the reboot action may log: [vm.reboot()] only after the user has
    confirmed, [vm.manual_reboot()] only after [vm.reboot()] has raised an
    [Exception] that [is_error_nosupport] accepts. *)
Let permitted (src : nat) (ev : event) : Prop :=
  match ev with
  | called (vm_reboot vm) =>
      chkbox_helper env src
        ("Are you sure you want to reboot '" +:+ get_name env vm +:+ "'?") = true
  | called (vm_manual_reboot vm) =>
      ∃ e, raises env (vm_reboot vm) = Some e ∧ is_Exception e = true ∧
           is_error_nosupport env e = true
  | _ => True
  end.

Lemma permitted_reboot_cb (src : nat) (vm : vmmDomain) :
  chkbox_helper env src
    ("Are you sure you want to reboot '" +:+ get_name env vm +:+ "'?") = true →
  logs_only (permitted src) (reboot_cb env vm).
Proof.
  intros Hconfirmed s. rewrite reboot_cb_unfold. cbv zeta.
  destruct (raises env (vm_reboot vm)) as [e|] eqn:Hreboot;
    [|exists [called (vm_reboot vm)]; by repeat constructor].
  destruct (is_Exception e) eqn:Hexc;
    [|exists [called (vm_reboot vm)]; by repeat constructor].
  destruct (is_error_nosupport env e) eqn:Hns;
    [|exists [called (vm_reboot vm)]; by repeat constructor].
  destruct (raises env (vm_manual_reboot vm)) as [e2|]; simpl;
    (eexists; split; [rewrite <- ?app_assoc; reflexivity|]);
    repeat constructor; try done; by exists e.
Qed.

Lemma permitted_do_reboot_domain (src : nat) (uri uuid : string) :
  logs_only (permitted src) (_do_reboot_domain env src uri uuid).
Proof.
  unfold _do_reboot_domain.
  apply logs_only_bind; [apply logs_only_lookup_conn|]. intros c.
  apply logs_only_bind.
  { unfold get_vm. apply logs_only_bind; [by apply logs_only_call|].
    intros _. apply logs_only_ret. }
  intros vm. destruct (chkbox_helper env src _) eqn:Hconfirmed; simpl;
    [|apply logs_only_ret].
  apply logs_only_bind; [by apply logs_only_record|]. intros _.
  unfold simple_async_noshow. apply logs_only_try_except.
  - by apply permitted_reboot_cb.
  - intros e. by apply logs_only_record.
Qed.

(** X18.  In the reboot action, [vm.reboot()] is called only on a guest for
    which the confirmation was given, and [vm.manual_reboot()] only on a
    guest whose [vm.reboot()] raised an [Exception] that
    [is_error_nosupport] accepts. *)
Theorem _do_reboot_domain_reboots_only_when_confirmed
    (src : nat) (uri uuid : string) (s : vmmEngine) (vm : vmmDomain) :
  (called (vm_reboot vm) ∈ new_events s (_do_reboot_domain env src uri uuid s).2 →
   chkbox_helper env src
     ("Are you sure you want to reboot '" +:+ get_name env vm +:+ "'?") = true) ∧
  (called (vm_manual_reboot vm)
     ∈ new_events s (_do_reboot_domain env src uri uuid s).2 →
   ∃ e, raises env (vm_reboot vm) = Some e ∧ is_Exception e = true ∧
        is_error_nosupport env e = true).
Proof.
  split; intros Hin;
    exact (logs_only_new_events _ _ s _
             (permitted_do_reboot_domain src uri uuid) Hin).
Qed.

End reboot_action.

Lemma _do_reboot_domain_reboots_only_when_confirmed_witness :
  called (vm_reboot guest1)
    ∉ new_events one_conn
        (_do_reboot_domain declined 1 "qemu:///system" "guest1" one_conn).2.
Proof.
  intros Hin.
  apply (_do_reboot_domain_reboots_only_when_confirmed declined) in Hin.
  vm_compute in Hin. discriminate Hin.
Defined.

(** *** The window counter and the exit *)

Section counter_exit.

Lemma do_counter_call_log (env : environment) (c : counter_call)
    (s : vmmEngine) :
  systray (do_counter_call env c s).2 = systray s ∧
  ∃ added,
    log (do_counter_call env c s).2 = log s ++ added ∧
    filter (λ ev, is_idle_add ev = true) added =
      match c with
      | increment _ => []
      | decrement src =>
          if (windows s - 1 <=? 0) &&
             match systray s with
             | Some tray => negb (is_visible env tray)
             | None => false
             end
          then [idle_add (cb_exit_app src)] else []
      end.
Proof.
  destruct c as [src|src]; simpl.
  - split; [done|]. eexists. split; [reflexivity|]. done.
  - unfold decrement_window_counter. unfold_M.
    destruct ((windows s - 1 <=? 0) && _); simpl;
      (split; [done|]); (eexists; split;
       [rewrite <- ?app_assoc; reflexivity|done]).
Qed.

Lemma counter_history_cons (env : environment) (c : counter_call)
    (calls : list (environment * counter_call)) (s : vmmEngine) :
  counter_history ((env, c) :: calls) s =
  windows (do_counter_call env c s).2
    :: counter_history calls (do_counter_call env c s).2.
Proof. reflexivity. Qed.

End counter_exit.

(** X19.  Over any sequence of window-counter calls, no [exit_app] is queued
    (indeed nothing is handed to [idle_add]) when the engine has no tray
    object, or when the counter stays above zero after every call. *)
Theorem no_exit_without_tray_or_while_windows_remain
    (calls : list (environment * counter_call)) (s : vmmEngine) :
  systray s = None ∨ Forall (λ z, 0 < z) (counter_history calls s) →
  filter (λ ev, is_idle_add ev = true)
    (new_events s (run_counter_calls calls s)) = [].
Proof.
  intros Hcond.
  assert (∃ added, log (run_counter_calls calls s) = log s ++ added ∧
                   filter (λ ev, is_idle_add ev = true) added = [])
    as (added & Hl & Hnone); [|by rewrite (new_events_app _ _ _ Hl)].
  revert s Hcond. induction calls as [|[env c] calls IH]; intros s Hcond.
  - exists []. by rewrite app_nil_r.
  - simpl run_counter_calls.
    destruct (do_counter_call_log env c s) as (Htray & a1 & Hl1 & Hf1).
    pose proof (do_counter_call_windows (env, c) s) as Hw. simpl in Hw.
    destruct (IH (do_counter_call env c s).2) as (a2 & Hl2 & Hf2).
    { destruct Hcond as [Hnone|Hpos]; [left; by rewrite Htray|right].
      rewrite counter_history_cons in Hpos.
      by apply Forall_cons_1 in Hpos as [_ Hpos]. }
    exists (a1 ++ a2). split; [by rewrite Hl2, Hl1, app_assoc|].
    rewrite filter_app, Hf2, app_nil_r, Hf1.
    destruct c as [src|src]; [done|].
    destruct Hcond as [->|Hpos]; [by rewrite andb_false_r|].
    rewrite counter_history_cons in Hpos.
    apply Forall_cons_1 in Hpos as [Hpos _].
    rewrite Hw in Hpos. unfold delta, is_increment in Hpos. simpl in Hpos.
    replace (windows s - 1 <=? 0) with false; [done|].
    symmetry. apply Z.leb_gt. lia.
Qed.

Lemma no_exit_without_tray_or_while_windows_remain_witness :
  filter (λ ev, is_idle_add ev = true)
    (new_events engine0
       (run_counter_calls
          [(calm, increment 1); (calm, increment 2); (calm, decrement 1)]
          engine0)) = [].
Proof.
  apply no_exit_without_tray_or_while_windows_remain.
  right. vm_compute. repeat constructor.
Defined.

End EngineRestFacts.

(** ** Singleton windows, timer, exit and actions *)

Module EngineWindowsFacts.
Import Py Engine Runs EngineRest EngineWindows EngineFacts EngineRestFacts.

Ltac unfold_M2 :=
  unfold when2, call2, record2, modify2, get2, raise2, try_except2;
  unfold mbind, M2_bind, mret, M2_ret; simpl.

Lemma new_trace_app (s s' : vmmEngineFull) (added : list event2) :
  trace s' = trace s ++ added → new_trace s s' = added.
Proof. intros H. unfold new_trace. rewrite H. apply drop_app_length. Qed.

Lemma lift_run {A} (m : M A) (s : vmmEngineFull) (r : res A) (c : vmmEngine)
    (added : list event) :
  m (core s) = (r, c) → log c = log (core s) ++ added →
  lift m s = (r, set_trace (trace s ++ (core_event <$> added)) (set_core c s)).
Proof.
  intros Hm Hlog. unfold lift. rewrite Hm.
  by rewrite (new_events_app _ _ _ Hlog).
Qed.

Lemma lift_silent {A} (m : M A) (s : vmmEngineFull) (r : res A) (c : vmmEngine) :
  m (core s) = (r, c) → log c = log (core s) →
  lift m s = (r, set_trace (trace s) (set_core c s)).
Proof.
  intros Hm Hlog.
  rewrite (lift_run m s r c []); [by rewrite app_nil_r|done|by rewrite app_nil_r].
Qed.

Lemma lift_record (ev : event) (s : vmmEngineFull) :
  lift (record ev) s =
  (Ret tt, set_trace (trace s ++ [core_event ev])
             (set_core (set_log (log (core s) ++ [ev]) (core s)) s)).
Proof. by apply (lift_run _ _ _ _ [ev]). Qed.

Lemma for2_cons {A} (x : A) (l : list A) (body : A → M2 unit)
    (s : vmmEngineFull) :
  for2 (x :: l) body s =
  match body x s with
  | (Ret _, s') => for2 l body s'
  | (Raise e, s') => (Raise e, s')
  end.
Proof. reflexivity. Qed.

(** *** The manager window *)

Lemma lift_getitem_conns (uri : string) (s : vmmEngineFull) (en : conn_entry) :
  conns (core s) !! uri = Some en →
  lift (getitem_conns uri) s = (Ret en, s).
Proof.
  intros Hen. destruct s as [c ? ? ? ? ? ? ? ? ? tr]. simpl in Hen.
  unfold lift, getitem_conns. unfold_M. rewrite Hen. simpl.
  unfold new_events. simpl. rewrite drop_all. simpl. rewrite app_nil_r.
  reflexivity.
Qed.

Lemma for2_replay (kvs : list (string * conn_entry)) (s : vmmEngineFull) :
  (∀ kv, kv ∈ kvs → conns (core s) !! kv.1 = Some kv.2) →
  for2 (kvs.*1)
    (λ uri, e ← lift (getitem_conns uri);
            lift (record (emit_conn_added (conn e)))) s =
  (Ret tt,
   set_trace (trace s ++ ((λ kv, core_event (emit_conn_added (conn kv.2))) <$> kvs))
     (set_core (set_log (log (core s) ++
                         ((λ kv, emit_conn_added (conn kv.2)) <$> kvs))
                  (core s)) s)).
Proof.
  revert s. induction kvs as [|[uri en] kvs IH]; intros s Hkvs.
  - destruct s as [[] ? ? ? ? ? ? ? ? ? tr]. simpl. unfold mret, M2_ret.
    unfold set_trace, set_core, set_log. simpl. by rewrite !app_nil_r.
  - rewrite fmap_cons, for2_cons. simpl.
    assert (conns (core s) !! uri = Some en) as Hen
      by (apply (Hkvs (uri, en)); left).
    unfold mbind at 1, M2_bind at 1. rewrite (lift_getitem_conns _ _ _ Hen).
    rewrite lift_record. rewrite IH.
    + unfold set_trace, set_core, set_log. simpl. by rewrite <- !app_assoc.
    + intros kv Hkv. simpl. apply Hkvs. by right.
Qed.

Lemma connect_conn_added (s : vmmEngineFull) :
  connect "conn-added" s =
  (Ret tt,
   set_trace (trace s ++ ((λ kv, core_event (emit_conn_added (conn kv.2)))
                            <$> map_to_list (conns (core s))))
     (set_core (set_log (log (core s) ++
                         ((λ kv, emit_conn_added (conn kv.2))
                            <$> map_to_list (conns (core s))))
                  (core s)) s)).
Proof.
  unfold connect. simpl. unfold mbind, M2_bind, get2. unfold dict_keys.
  apply for2_replay. intros [k v] Hkv. simpl. by apply elem_of_map_to_list.
Qed.

Lemma connect_conn_removed (s : vmmEngineFull) :
  connect "conn-removed" s = (Ret tt, s).
Proof. reflexivity. Qed.

Lemma get_manager_new (s : vmmEngineFull) :
  windowManager s = None →
  get_manager s =
  (Ret (next_id (core s)),
   set_windowManager (Some (next_id (core s)))
     (set_trace (trace s ++ ((λ kv, core_event (emit_conn_added (conn kv.2)))
                               <$> map_to_list (conns (core s))))
        (set_core (set_next_id (S (next_id (core s)))
                     (set_log (log (core s) ++
                               ((λ kv, emit_conn_added (conn kv.2))
                                  <$> map_to_list (conns (core s))))
                        (core s))) s))).
Proof.
  intros Hnone. unfold get_manager. unfold mbind at 1, M2_bind at 1, get2.
  rewrite Hnone.
  unfold mbind at 1, M2_bind at 1.
  rewrite (lift_silent fresh s (Ret (next_id (core s)))
             (set_next_id (S (next_id (core s))) (core s))); [|done|done].
  unfold mbind at 1, M2_bind at 1. rewrite connect_conn_added.
  unfold mbind at 1, M2_bind at 1. rewrite connect_conn_removed.
  unfold_M2. reflexivity.
Qed.

Lemma get_manager_cached (s : vmmEngineFull) (w : nat) :
  windowManager s = Some w → get_manager s = (Ret w, s).
Proof.
  intros Hw. unfold get_manager. unfold mbind, M2_bind, get2. by rewrite Hw.
Qed.

Lemma get_manager_returns (s : vmmEngineFull) :
  ∃ m s0, get_manager s = (Ret m, s0) ∧ conns (core s0) = conns (core s).
Proof.
  destruct (windowManager s) as [m0|] eqn:Hm0.
  - exists m0, s. by rewrite (get_manager_cached _ _ Hm0).
  - eexists _, _. by rewrite (get_manager_new _ Hm0).
Qed.

(** X20.  [get_manager] makes the manager window once.  The window it
    returns is the engine's [windowManager] from then on, and a further call
    returns that window and changes nothing; the registry is as before.  If
    the manager was there already, it is the one returned and nothing
    happens.  If it had to be made, what the call adds to the trace is, in
    some order, one [conn-added] for every registered connection and
    nothing else. *)
Theorem get_manager_makes_the_manager_once_and_replays
    (s s' : vmmEngineFull) (w : nat) :
  get_manager s = (Ret w, s') →
  windowManager s' = Some w ∧
  get_manager s' = (Ret w, s') ∧
  conns (core s') = conns (core s) ∧
  (∀ w0, windowManager s = Some w0 → w = w0 ∧ s' = s) ∧
  (windowManager s = None →
   new_trace s s' ≡ₚ
   (λ en, core_event (emit_conn_added (conn en)))
     <$> dict_values (conns (core s))).
Proof.
  intros Hrun. destruct (windowManager s) as [w0|] eqn:Hw.
  - rewrite (get_manager_cached _ _ Hw) in Hrun. injection Hrun as <- <-.
    split; [done|]. split; [by apply get_manager_cached|]. split; [done|].
    split; [by intros ? [= <-]|done].
  - rewrite (get_manager_new _ Hw) in Hrun. injection Hrun as <- <-.
    split; [done|]. split; [by apply get_manager_cached|]. split; [done|].
    split; [done|]. intros _.
    erewrite new_trace_app; [|done]. unfold dict_values.
    by rewrite <- list_fmap_compose.
Qed.

Lemma get_manager_makes_the_manager_once_and_replays_witness :
  new_trace full_two_conns (get_manager full_two_conns).2 ≡ₚ
  [core_event (emit_conn_added xen); core_event (emit_conn_added qemu_system)].
Proof.
  destruct (get_manager_makes_the_manager_once_and_replays
              full_two_conns (get_manager full_two_conns).2 2)
    as (_ & _ & _ & _ & Hreplay); [vm_compute; reflexivity|].
  rewrite (Hreplay eq_refl). vm_compute. apply Permutation_swap.
Defined.

(** *** What a method keeps *)

Section preserves2.

Context (I : vmmEngineFull → Prop).

Lemma preserves2_ret {A} (a : A) : preserves2 I (mret a : M2 A).
Proof. by intros s. Qed.

Lemma preserves2_raise {A} (e : exn) : preserves2 I (raise2 e : M2 A).
Proof. by intros s. Qed.

Lemma preserves2_get : preserves2 I get2.
Proof. by intros s. Qed.

Lemma preserves2_modify (f : vmmEngineFull → vmmEngineFull) :
  (∀ s, I s → I (f s)) → preserves2 I (modify2 f).
Proof. intros Hf s Hs. by apply Hf. Qed.

Lemma preserves2_bind {A B} (m : M2 A) (f : A → M2 B) :
  preserves2 I m → (∀ a, preserves2 I (f a)) → preserves2 I (m ≫= f).
Proof.
  intros Hm Hf s Hs. unfold mbind, M2_bind.
  specialize (Hm s Hs). destruct (m s) as [[a|e] s']; simpl in *; [|done].
  by apply Hf.
Qed.

Lemma preserves2_try_except {A} (body : M2 A) (handler : exn → M2 A) :
  preserves2 I body → (∀ e, preserves2 I (handler e)) →
  preserves2 I (try_except2 body handler).
Proof.
  intros Hb Hh s Hs. unfold try_except2.
  specialize (Hb s Hs). destruct (body s) as [[a|e] s']; simpl in *; [done|].
  by apply Hh.
Qed.

Lemma preserves2_for {A} (l : list A) (body : A → M2 unit) :
  (∀ x, preserves2 I (body x)) → preserves2 I (for2 l body).
Proof.
  intros Hbody. induction l as [|x l IH]; simpl; [apply preserves2_ret|].
  apply preserves2_bind; [apply Hbody|]. by intros _.
Qed.

Lemma preserves2_when (b : bool) (m : M2 unit) :
  preserves2 I m → preserves2 I (when2 b m).
Proof. intros Hm. destruct b; simpl; [done|apply preserves2_ret]. Qed.

(** [I] does not read the trace. *)
Hypothesis I_trace : ∀ s t, I s → I (set_trace t s).

Lemma preserves2_record (ev : event2) : preserves2 I (record2 ev).
Proof. apply preserves2_modify. intros s. apply I_trace. Qed.

Lemma preserves2_call (env2 : environment2) (c : extcall2) :
  preserves2 I (call2 env2 c).
Proof.
  unfold call2. apply preserves2_bind; [apply preserves2_record|]. intros _.
  destruct (raises2 env2 c); [apply preserves2_raise|apply preserves2_ret].
Qed.

(** [I] reads what a registry method leaves as it is. *)
Lemma preserves2_lift {A} (m : M A) :
  (∀ s, I s → I (set_core (m (core s)).2 s)) → preserves2 I (lift m).
Proof.
  intros Hm s Hs. unfold lift. specialize (Hm s Hs).
  destruct (m (core s)) as [r c]. simpl in *. by apply I_trace.
Qed.

End preserves2.

(** *** [_cleanup] and [exit_app] *)

Section ensures.

Context (Q : vmmEngineFull → Prop).

Lemma ensures_bind_l {A B} (m : M2 A) (f : A → M2 B) :
  ensures Q m → (∀ a, preserves2 Q (f a)) → ensures Q (m ≫= f).
Proof.
  intros Hm Hf s. unfold mbind, M2_bind. specialize (Hm s).
  destruct (m s) as [[a|e] s1]; [|done].
  specialize (Hf a s1 Hm). by destruct (f a s1) as [[b|e] s2].
Qed.

Lemma ensures_bind_r {A B} (m : M2 A) (f : A → M2 B) :
  (∀ a, ensures Q (f a)) → ensures Q (m ≫= f).
Proof.
  intros Hf s. unfold mbind, M2_bind.
  destruct (m s) as [[a|e] s1]; [|done]. apply Hf.
Qed.

Lemma ensures_modify (f : vmmEngineFull → vmmEngineFull) :
  (∀ s, Q (f s)) → ensures Q (modify2 f).
Proof. intros Hf s. apply Hf. Qed.

End ensures.

Lemma keeps_engine_cleanup_conn (env : environment) (uri : string) :
  keeps_engine (cleanup_conn env uri).
Proof.
  unfold cleanup_conn. apply keeps_engine_try_except.
  - apply keeps_engine_bind; [apply keeps_engine_getitem_conns|]. intros e1.
    apply keeps_engine_bind.
    { destruct (windowHost e1);
        [apply keeps_engine_call|apply keeps_engine_ret]. }
    intros _.
    apply keeps_engine_bind; [apply keeps_engine_getitem_conns|]. intros e2.
    apply keeps_engine_bind.
    { destruct (windowClone e2);
        [apply keeps_engine_call|apply keeps_engine_ret]. }
    intros _.
    apply keeps_engine_bind; [apply keeps_engine_getitem_conns|]. intros e3.
    apply keeps_engine_bind.
    { apply keeps_engine_for. intros w. apply keeps_engine_call. }
    intros _.
    apply keeps_engine_bind; [apply keeps_engine_getitem_conns|]. intros e4.
    apply keeps_engine_call.
  - intros e. apply keeps_engine_record.
Qed.

Lemma keeps_engine_lookup_conn (uri : string) : keeps_engine (_lookup_conn uri).
Proof.
  intros s. unfold _lookup_conn, _check_conn. unfold_M.
  by destruct (conns s !! uri).
Qed.

Lemma keeps_engine_get_vm (env : environment) (c : vmmConnection)
    (uuid : string) : keeps_engine (get_vm env c uuid).
Proof.
  unfold get_vm. apply keeps_engine_bind; [apply keeps_engine_call|].
  intros _. apply keeps_engine_ret.
Qed.

Lemma preserves2_get_manager (I : vmmEngineFull → Prop) :
  (∀ s c t, windowManager s = None → I s →
            conns c = conns (core s) → timer c = timer (core s) →
            systray c = systray (core s) →
            I (set_windowManager (Some (next_id (core s)))
                 (set_trace t (set_core c s)))) →
  preserves2 I get_manager.
Proof.
  intros HI s Hs. destruct (windowManager s) as [w|] eqn:Hw.
  - by rewrite (get_manager_cached _ _ Hw).
  - rewrite (get_manager_new _ Hw). simpl. by apply HI.
Qed.

Lemma preserves2_lift_keeps (I : vmmEngineFull → Prop) {A} (m : M A) :
  (∀ s c t, I s → conns c = conns (core s) → timer c = timer (core s) →
            systray c = systray (core s) → I (set_trace t (set_core c s))) →
  keeps_engine m → preserves2 I (lift m).
Proof.
  intros HI Hm s Hs. unfold lift.
  destruct (Hm (core s)) as (Hconns & _ & _ & _ & Htimer & Htray).
  destruct (m (core s)) as [r c]. simpl in *. by apply HI.
Qed.

Lemma ensures_cleanup_window (env2 : environment2)
    (field : vmmEngineFull → option nat)
    (clear : vmmEngineFull → vmmEngineFull) :
  (∀ s, field (clear s) = None) →
  ensures (λ s, field s = None) (cleanup_window env2 field clear).
Proof.
  intros Hclear s. unfold cleanup_window. unfold mbind at 1, M2_bind at 1, get2.
  destruct (field s) as [w|] eqn:Hw; [|done].
  unfold mbind, M2_bind.
  destruct (lift (call (env env2) (win_cleanup w)) s) as [[[]|e] s1]; [|done].
  apply Hclear.
Qed.


(** [I] reads neither the trace nor the log. *)
Ltac stable2 := intros []; intros; simpl in *; (done || congruence).

(** Solves [preserves2 I m] for a method [m] written with the combinators,
    when [I] is stable and no statement of [m] changes what it reads. *)
Ltac keeps2 :=
  repeat first
    [ apply preserves2_ret
    | apply preserves2_raise
    | apply preserves2_get
    | apply preserves2_bind; [|intros ?]
    | apply preserves2_try_except; [|intros ?]
    | apply preserves2_for; intros ?
    | apply preserves2_when
    | apply preserves2_call; stable2
    | apply preserves2_record; stable2
    | apply preserves2_modify; stable2
    | apply preserves2_get_manager; stable2
    | apply preserves2_lift_keeps;
        [stable2
        |first [ apply keeps_engine_call | apply keeps_engine_cleanup_conn
               | apply keeps_engine_lookup_conn | apply keeps_engine_get_vm
               | apply keeps_engine_getitem_conns | apply keeps_engine_fresh
               | apply keeps_engine_record ]]
    | apply preserves2_lift; [stable2|stable2]
    | match goal with
      | |- preserves2 _ (match ?x with _ => _ end) => destruct x
      | |- preserves2 _ (if ?x then _ else _) => destruct x
      | |- preserves2 _ (cleanup_window _ _ _) => unfold cleanup_window
      | |- preserves2 _ (report_to _ _ _) => unfold report_to
      | |- preserves2 _ (simple_async_noshow2 _ _ _) =>
          unfold simple_async_noshow2
      end ].

Section cleanup.

Context (env2 : environment2).

Lemma _cleanup_err : ensures (λ s, err s = None) (_cleanup env2).
Proof.
  unfold _cleanup. apply ensures_bind_r; intros _.
  apply ensures_bind_l; [by apply ensures_modify|]. intros _. keeps2.
Qed.

Lemma _cleanup_err_early (s : vmmEngineFull) :
  raises2 env2 uihelpers_cleanup = None → err (_cleanup env2 s).2 = None.
Proof.
  intros Hret. unfold _cleanup.
  unfold mbind at 1, M2_bind at 1. unfold call2 at 1.
  unfold mbind at 1, M2_bind at 1. unfold record2 at 1, modify2 at 1.
  rewrite Hret. unfold mret at 1, M2_ret at 1.
  unfold mbind at 1, M2_bind at 1. unfold modify2 at 1.
  match goal with
  | |- err (?rest ?s1).2 = None =>
      assert (preserves2 (λ s, err s = None) rest) as Hrest by keeps2;
      by apply (Hrest s1)
  end.
Qed.

Lemma _cleanup_inspection : ensures (λ s, inspection s = None) (_cleanup env2).
Proof.
  unfold _cleanup. do 2 (apply ensures_bind_r; intros _).
  apply ensures_bind_l; [|intros _; keeps2].
  intros s. unfold mbind at 1, M2_bind at 1, get2.
  destruct (inspection s) as [i|] eqn:Hi; [|done].
  unfold mbind, M2_bind.
  by destruct (call2 env2 (obj_cleanup i) s) as [[[]|e] s1].
Qed.

Lemma _cleanup_systray : ensures (λ s, systray (core s) = None) (_cleanup env2).
Proof.
  unfold _cleanup. do 4 (apply ensures_bind_r; intros _).
  apply ensures_bind_l; [|intros _; keeps2].
  intros s. unfold mbind at 1, M2_bind at 1, get2.
  destruct (systray (core s)) as [t|] eqn:Ht; [|done].
  unfold mbind, M2_bind.
  by destruct (call2 env2 (obj_cleanup t) s) as [[[]|e] s1].
Qed.

Lemma _cleanup_windows : ensures no_window_left (_cleanup env2).
Proof.
  assert (ensures (λ s, windowManager s = None) (_cleanup env2)) as H1.
  { unfold _cleanup. do 6 (apply ensures_bind_r; intros _).
    apply ensures_bind_l; [by apply ensures_cleanup_window|intros _; keeps2]. }
  assert (ensures (λ s, windowPreferences s = None) (_cleanup env2)) as H2.
  { unfold _cleanup. do 7 (apply ensures_bind_r; intros _).
    apply ensures_bind_l; [by apply ensures_cleanup_window|intros _; keeps2]. }
  assert (ensures (λ s, windowAbout s = None) (_cleanup env2)) as H3.
  { unfold _cleanup. do 8 (apply ensures_bind_r; intros _).
    apply ensures_bind_l; [by apply ensures_cleanup_window|intros _; keeps2]. }
  assert (ensures (λ s, windowConnect s = None) (_cleanup env2)) as H4.
  { unfold _cleanup. do 9 (apply ensures_bind_r; intros _).
    apply ensures_bind_l; [by apply ensures_cleanup_window|intros _; keeps2]. }
  assert (ensures (λ s, windowCreate s = None) (_cleanup env2)) as H5.
  { unfold _cleanup. do 10 (apply ensures_bind_r; intros _).
    apply ensures_bind_l; [by apply ensures_cleanup_window|intros _; keeps2]. }
  assert (ensures (λ s, windowMigrate s = None) (_cleanup env2)) as H6.
  { unfold _cleanup. do 11 (apply ensures_bind_r; intros _).
    apply ensures_bind_l; [by apply ensures_cleanup_window|intros _; keeps2]. }
  assert (ensures (λ s, delete_dialog s = None) (_cleanup env2)) as H7.
  { unfold _cleanup. do 12 (apply ensures_bind_r; intros _).
    apply ensures_bind_l; [by apply ensures_cleanup_window|intros _; keeps2]. }
  intros s. specialize (H1 s). specialize (H2 s). specialize (H3 s).
  specialize (H4 s). specialize (H5 s). specialize (H6 s). specialize (H7 s).
  by destruct (_cleanup env2 s) as [[[]|e] s'].
Qed.

Lemma _cleanup_conns : ensures (λ s, conns (core s) = ∅) (_cleanup env2).
Proof.
  unfold _cleanup. do 14 (apply ensures_bind_r; intros _).
  by apply ensures_modify.
Qed.

Lemma _cleanup_timer (t : option nat) :
  preserves2 (λ s, timer (core s) = t) (_cleanup env2).
Proof. unfold _cleanup. keeps2. Qed.

End cleanup.

(** X21.  When [_cleanup] returns, nothing is left: the error dialog, the
    inspection thread, the tray icon and all seven singleton windows are
    dropped and the registry is empty.  The [timer] attribute is the one it
    leaves as it was. *)
Theorem _cleanup_leaves_nothing_behind (env2 : environment2)
    (s : vmmEngineFull) :
  (_cleanup env2 s).1 = Ret tt →
  err (_cleanup env2 s).2 = None ∧
  inspection (_cleanup env2 s).2 = None ∧
  systray (core (_cleanup env2 s).2) = None ∧
  no_window_left (_cleanup env2 s).2 ∧
  conns (core (_cleanup env2 s).2) = ∅ ∧
  timer (core (_cleanup env2 s).2) = timer (core s).
Proof.
  intros Hret.
  pose proof (_cleanup_err env2 s) as H1.
  pose proof (_cleanup_inspection env2 s) as H2.
  pose proof (_cleanup_systray env2 s) as H3.
  pose proof (_cleanup_windows env2 s) as H4.
  pose proof (_cleanup_conns env2 s) as H5.
  pose proof (_cleanup_timer env2 (timer (core s)) s eq_refl) as H6.
  destruct (_cleanup env2 s) as [[[]|e] s']; simpl in *; [done|discriminate].
Qed.

(** X22.  Exit happens once: as soon as [_cleanup] is past its first
    statement, whether it then returns or raises, [exit_app] from any source
    returns at once and does nothing. *)
Theorem exit_app_does_nothing_once_cleanup_began
    (env2 env2' : environment2) (cleanup : M2 unit) (src : nat)
    (s : vmmEngineFull) :
  raises2 env2 uihelpers_cleanup = None →
  exit_app env2' cleanup src (_cleanup env2 s).2 =
  (Ret tt, (_cleanup env2 s).2).
Proof.
  intros Hret. unfold exit_app. unfold mbind at 1, M2_bind at 1, get2.
  by rewrite (_cleanup_err_early env2 s Hret).
Qed.

Lemma _cleanup_leaves_nothing_behind_witness :
  err (_cleanup calm2 full_busy).2 = None ∧
  inspection (_cleanup calm2 full_busy).2 = None ∧
  systray (core (_cleanup calm2 full_busy).2) = None ∧
  no_window_left (_cleanup calm2 full_busy).2 ∧
  conns (core (_cleanup calm2 full_busy).2) = ∅ ∧
  timer (core (_cleanup calm2 full_busy).2) = timer (core full_busy).
Proof.
  apply (_cleanup_leaves_nothing_behind calm2 full_busy).
  vm_compute. reflexivity.
Defined.

Lemma exit_app_does_nothing_once_cleanup_began_witness :
  exit_app calm2 (_cleanup calm2) 20 (_cleanup calm2 full_busy).2 =
  (Ret tt, (_cleanup calm2 full_busy).2).
Proof.
  apply (exit_app_does_nothing_once_cleanup_began
           calm2 calm2 (_cleanup calm2) 20 full_busy).
  reflexivity.
Defined.

(** *** The refresh timer *)

Lemma armed_app (tr tr' : list event2) (acc : list nat) :
  armed (tr ++ tr') acc = armed tr' (armed tr acc).
Proof.
  revert acc. induction tr as [|ev tr IH]; intros acc; [done|].
  destruct ev as [ev|[]]; simpl; apply IH.
Qed.

Lemma lift_fresh (s : vmmEngineFull) :
  lift fresh s =
  (Ret (next_id (core s)),
   set_core (set_next_id (S (next_id (core s))) (core s)) s).
Proof.
  destruct s as [c ? ? ? ? ? ? ? ? ? tr]. unfold lift, fresh, new_events.
  simpl. rewrite drop_all. simpl. by rewrite app_nil_r.
Qed.

Lemma call2_returns (env2 : environment2) (c : extcall2) (s : vmmEngineFull) :
  raises2 env2 c = None →
  call2 env2 c s = (Ret tt, set_trace (trace s ++ [called2 c]) s).
Proof. intros Hc. unfold_M2. by rewrite Hc. Qed.

Lemma call2_raises (env2 : environment2) (c : extcall2) (e : exn)
    (s : vmmEngineFull) :
  raises2 env2 c = Some e →
  call2 env2 c s = (Raise e, set_trace (trace s ++ [called2 c]) s).
Proof. intros Hc. unfold_M2. by rewrite Hc. Qed.

(** X23.  Re-arming never leaks a timer: while the [timer] attribute names
    the armed timer, [schedule_timer] - as long as the two GLib calls
    return - takes the old timer back before it adds the new one, so that
    afterwards exactly one timer is armed, the new one, and [timer] names
    it. *)
Theorem schedule_timer_keeps_one_timer_armed (env2 : environment2)
    (s : vmmEngineFull) :
  (∀ t, raises2 env2 (remove_gobject_timeout t) = None) →
  (∀ i t, raises2 env2 (timeout_add i t) = None) →
  timer_tracks_armed s →
  (schedule_timer env2 s).1 = Ret tt ∧
  timer (core (schedule_timer env2 s).2) = Some (next_id (core s)) ∧
  armed (trace (schedule_timer env2 s).2) [] = [next_id (core s)] ∧
  timer_tracks_armed (schedule_timer env2 s).2.
Proof.
  intros Hremove Hadd Htracks. unfold timer_tracks_armed in *.
  assert (∀ s0 : vmmEngineFull,
            (t ← lift fresh;
             call2 env2 (timeout_add (get_stats_update_interval env2 * 1000) t) ;;
             modify2 (λ s, set_core (set_timer (Some t) (core s)) s)) s0 =
            (Ret tt,
             set_core (set_timer (Some (next_id (core s0)))
                         (set_next_id (S (next_id (core s0))) (core s0)))
               (set_trace
                  (trace s0 ++
                   [called2 (timeout_add (get_stats_update_interval env2 * 1000)
                               (next_id (core s0)))]) s0))) as Htail.
  { intros s0. unfold mbind at 1, M2_bind at 1. rewrite lift_fresh.
    unfold mbind at 1, M2_bind at 1. rewrite call2_returns by apply Hadd.
    reflexivity. }
  destruct (schedule_timer env2 s) as [r s'] eqn:Hrun. simpl.
  unfold schedule_timer in Hrun.
  unfold mbind at 1, M2_bind at 1, get2 in Hrun.
  unfold mbind at 1, M2_bind at 1 in Hrun.
  destruct (timer (core s)) as [t|] eqn:Ht; simpl in Htracks.
  - unfold mbind at 1, M2_bind at 1 in Hrun.
    rewrite call2_returns in Hrun by apply Hremove.
    unfold modify2 at 1 in Hrun. rewrite Htail in Hrun.
    injection Hrun as <- <-. simpl.
    rewrite !armed_app, Htracks. simpl.
    rewrite filter_cons_False by (by intros H). done.
  - unfold mret at 1, M2_ret at 1 in Hrun. rewrite Htail in Hrun.
    injection Hrun as <- <-. simpl.
    rewrite !armed_app, Htracks. done.
Qed.

Lemma schedule_timer_keeps_one_timer_armed_witness :
  (schedule_timer calm2 full_busy).1 = Ret tt ∧
  timer (core (schedule_timer calm2 full_busy).2) =
    Some (next_id (core full_busy)) ∧
  armed (trace (schedule_timer calm2 full_busy).2) [] =
    [next_id (core full_busy)] ∧
  timer_tracks_armed (schedule_timer calm2 full_busy).2.
Proof.
  apply (schedule_timer_keeps_one_timer_armed calm2 full_busy);
    [done|done|reflexivity].
Defined.

(** *** The singleton windows *)

Section singletons.

Context (env2 : environment2) (k : singleton) (w : nat).

Ltac made_stable := unfold made; destruct k; stable2.

Ltac made_keeps := unfold made; destruct k; simpl; keeps2.

Lemma made_get_manager : preserves2 (made k w) get_manager.
Proof. apply preserves2_get_manager. made_stable. Qed.

Lemma made_get_preferences : preserves2 (made k w) _get_preferences.
Proof.
  intros s Hs. unfold _get_preferences. unfold mbind at 1, M2_bind at 1, get2.
  destruct (windowPreferences s) as [p|] eqn:Hp; [done|].
  unfold mbind at 1, M2_bind at 1. rewrite lift_fresh. unfold_M2.
  revert s Hs Hp. made_stable.
Qed.

Lemma made_get_create_dialog : preserves2 (made k w) _get_create_dialog.
Proof.
  intros s Hs. unfold _get_create_dialog. unfold mbind at 1, M2_bind at 1, get2.
  destruct (windowCreate s) as [p|] eqn:Hp; [done|].
  unfold mbind at 1, M2_bind at 1. rewrite lift_fresh. unfold_M2.
  revert s Hs Hp. made_stable.
Qed.

Lemma made_call (c : extcall2) : preserves2 (made k w) (call2 env2 c).
Proof. made_keeps. Qed.

Lemma made_report_to (src : nat) (intro : string) (e : exn) :
  preserves2 (made k w) (report_to src intro e).
Proof. made_keeps. Qed.

Lemma made_show_manager (src : option nat) :
  preserves2 (made k w) (_do_show_manager env2 src).
Proof.
  unfold _do_show_manager. apply preserves2_try_except.
  - apply preserves2_bind; [apply made_get_manager|]. intros m.
    apply made_call.
  - intros e. made_keeps.
Qed.

Lemma made_toggle_manager : preserves2 (made k w) (_do_toggle_manager env2).
Proof.
  unfold _do_toggle_manager.
  apply preserves2_bind; [apply made_get_manager|]. intros m.
  destruct (is_visible (env env2) m); apply made_call.
Qed.

Lemma made_system_tray_changed :
  preserves2 (made k w) (system_tray_changed env2).
Proof.
  unfold system_tray_changed. apply preserves2_bind; [apply preserves2_get|].
  intros self. apply preserves2_when, made_show_manager.
Qed.

Lemma made_show_about (src : nat) :
  preserves2 (made k w) (_do_show_about env2 src).
Proof.
  unfold _do_show_about. apply preserves2_try_except;
    [|intros e; apply made_report_to].
  intros s Hs. unfold mbind at 1, M2_bind at 1, get2.
  destruct (windowAbout s) as [p|] eqn:Hp.
  - unfold mbind, M2_bind, mret, M2_ret. by apply made_call.
  - unfold mbind at 1, M2_bind at 1. unfold mbind at 1, M2_bind at 1.
    rewrite lift_fresh. unfold mbind at 1, M2_bind at 1.
    unfold modify2 at 1. unfold mret at 1, M2_ret at 1.
    apply made_call. revert s Hs Hp. made_stable.
Qed.

Lemma made_show_preferences (src : nat) :
  preserves2 (made k w) (_do_show_preferences env2 src).
Proof.
  unfold _do_show_preferences. apply preserves2_try_except;
    [|intros e; apply made_report_to].
  apply preserves2_bind; [apply made_get_preferences|]. intros p.
  apply made_call.
Qed.

Lemma made_show_create (src : nat) (uri : string) :
  preserves2 (made k w) (_do_show_create env2 src uri).
Proof.
  unfold _do_show_create. apply preserves2_try_except;
    [|intros e; apply made_report_to].
  apply preserves2_bind; [apply made_get_create_dialog|]. intros p.
  apply made_call.
Qed.

Lemma made_show_host (src : nat) (uri : string) :
  preserves2 (made k w) (_do_show_host env2 src uri).
Proof. unfold _do_show_host. made_keeps. Qed.

Lemma made_show_clone (src : nat) (uri uuid : string) :
  preserves2 (made k w) (_do_show_clone env2 src uri uuid).
Proof. unfold _do_show_clone. made_keeps. Qed.

Lemma made_conn_changed (c : vmmConnection) :
  preserves2 (made k w) (_do_conn_changed env2 c).
Proof. unfold _do_conn_changed. made_keeps. Qed.

Lemma made_schedule_timer : preserves2 (made k w) (schedule_timer env2).
Proof. unfold schedule_timer. made_keeps. Qed.

Lemma made_power_action (a : power_action) (src : nat) (uri uuid : string) :
  preserves2 (made k w) (run_power_action env2 a src uri uuid).
Proof.
  destruct a; simpl;
    unfold _do_destroy_domain, _do_suspend_domain, _do_resume_domain,
      _do_shutdown_domain, _do_reset_domain; made_keeps.
Qed.

Lemma made_show_domain (uri uuid : string) :
  preserves2 (made k w) (show_domain_console env2 uri uuid) ∧
  preserves2 (made k w) (show_domain_editor env2 uri uuid) ∧
  preserves2 (made k w) (show_domain_performance env2 uri uuid).
Proof.
  unfold show_domain_console, show_domain_editor, show_domain_performance.
  split_and!;
    (apply preserves2_bind; [apply made_get_manager|]; intros m; made_keeps).
Qed.

End singletons.

Lemma made_show_host_summary (env2 : environment2) (k : singleton) (w : nat)
    (uri : string) : preserves2 (made k w) (show_host_summary env2 uri).
Proof.
  unfold show_host_summary.
  apply preserves2_bind; [apply made_get_manager|]. intros m.
  apply made_show_host.
Qed.

Lemma made_show_domain_creator (env2 : environment2) (k : singleton) (w : nat)
    (uri : string) : preserves2 (made k w) (show_domain_creator env2 uri).
Proof.
  unfold show_domain_creator.
  apply preserves2_bind; [apply made_get_manager|]. intros m.
  apply made_show_create.
Qed.

(** X24.  The manager, preferences, about and create windows are made at
    most once: a window that is one of them stays so through every launcher,
    the timer, the connection-state handler and every power action, whether
    they return or raise.  Only [_cleanup] drops it. *)
Theorem singleton_windows_are_made_once (env2 : environment2) (k : singleton)
    (w : nat) :
  preserves2 (made k w) get_manager ∧
  (∀ src, preserves2 (made k w) (_do_show_manager env2 src)) ∧
  preserves2 (made k w) (_do_toggle_manager env2) ∧
  preserves2 (made k w) (system_tray_changed env2) ∧
  (∀ src, preserves2 (made k w) (_do_show_about env2 src)) ∧
  (∀ src, preserves2 (made k w) (_do_show_preferences env2 src)) ∧
  (∀ src uri, preserves2 (made k w) (_do_show_create env2 src uri)) ∧
  (∀ src uri, preserves2 (made k w) (_do_show_host env2 src uri)) ∧
  (∀ src uri uuid, preserves2 (made k w) (_do_show_clone env2 src uri uuid)) ∧
  (∀ c, preserves2 (made k w) (_do_conn_changed env2 c)) ∧
  preserves2 (made k w) (schedule_timer env2) ∧
  (∀ a src uri uuid,
     preserves2 (made k w) (run_power_action env2 a src uri uuid)) ∧
  (∀ uri uuid,
     preserves2 (made k w) (show_domain_console env2 uri uuid) ∧
     preserves2 (made k w) (show_domain_editor env2 uri uuid) ∧
     preserves2 (made k w) (show_domain_performance env2 uri uuid)) ∧
  (∀ uri, preserves2 (made k w) (show_host_summary env2 uri)) ∧
  (∀ uri, preserves2 (made k w) (show_domain_creator env2 uri)).
Proof.
  split; [apply made_get_manager|].
  split; [apply made_show_manager|].
  split; [apply made_toggle_manager|].
  split; [apply made_system_tray_changed|].
  split; [apply made_show_about|].
  split; [apply made_show_preferences|].
  split; [apply made_show_create|].
  split; [apply made_show_host|].
  split; [apply made_show_clone|].
  split; [apply made_conn_changed|].
  split; [apply made_schedule_timer|].
  split; [apply made_power_action|].
  split; [apply made_show_domain|].
  split; [apply made_show_host_summary|apply made_show_domain_creator].
Qed.

Lemma singleton_windows_are_made_once_witness :
  made the_about 21
    (_do_show_preferences calm2 20 (_do_show_about calm2 20 full_busy).2).2.
Proof.
  destruct (singleton_windows_are_made_once calm2 the_about 21)
    as (_ & _ & _ & _ & Habout & Hprefs & _).
  apply (Hprefs 20%nat), (Habout 20%nat). reflexivity.
Defined.

(** *** What a method adds to the trace *)

Section traces_only.

Context (P : event2 → Prop).

Lemma traces_only_ret {A} (a : A) : traces_only P (mret a : M2 A).
Proof. intros s. exists []. by rewrite app_nil_r. Qed.

Lemma traces_only_raise {A} (e : exn) : traces_only P (raise2 e : M2 A).
Proof. intros s. exists []. by rewrite app_nil_r. Qed.

Lemma traces_only_record (ev : event2) : P ev → traces_only P (record2 ev).
Proof. intros Hev s. exists [ev]. split; [by destruct s|by constructor]. Qed.

Lemma traces_only_bind {A B} (m : M2 A) (f : A → M2 B) :
  traces_only P m → (∀ a, traces_only P (f a)) → traces_only P (m ≫= f).
Proof.
  intros Hm Hf s. unfold mbind, M2_bind.
  destruct (Hm s) as (added1 & Hlog1 & HP1).
  destruct (m s) as [[a|e] s1]; simpl in *; [|by exists added1].
  destruct (Hf a s1) as (added2 & Hlog2 & HP2).
  exists (added1 ++ added2). split.
  - by rewrite Hlog2, Hlog1, app_assoc.
  - by apply Forall_app.
Qed.

Lemma traces_only_try_except {A} (body : M2 A) (handler : exn → M2 A) :
  traces_only P body → (∀ e, traces_only P (handler e)) →
  traces_only P (try_except2 body handler).
Proof.
  intros Hb Hh s. unfold try_except2.
  destruct (Hb s) as (added1 & Hlog1 & HP1).
  destruct (body s) as [[a|e] s1]; simpl in *; [by exists added1|].
  destruct (Hh e s1) as (added2 & Hlog2 & HP2).
  exists (added1 ++ added2). split.
  - by rewrite Hlog2, Hlog1, app_assoc.
  - by apply Forall_app.
Qed.

Lemma traces_only_call (env2 : environment2) (c : extcall2) :
  P (called2 c) → traces_only P (call2 env2 c).
Proof.
  intros Hc. unfold call2.
  apply traces_only_bind; [by apply traces_only_record|]. intros _.
  destruct (raises2 env2 c); [apply traces_only_raise|apply traces_only_ret].
Qed.

Lemma traces_only_lift {A} (m : M A) :
  logs_only (λ ev, P (core_event ev)) m → traces_only P (lift m).
Proof.
  intros Hm s. destruct (Hm (core s)) as (added & Hlog & HP).
  exists (core_event <$> added). unfold lift.
  destruct (m (core s)) as [r c]. simpl in *.
  rewrite (new_events_app _ _ _ Hlog). split; [by destruct s|].
  by apply Forall_fmap.
Qed.

Lemma traces_only_new_trace {A} (m : M2 A) (s : vmmEngineFull) (ev : event2) :
  traces_only P m → ev ∈ new_trace s (m s).2 → P ev.
Proof.
  intros Hm Hev. destruct (Hm s) as (added & Hlog & HP).
  rewrite (new_trace_app _ _ _ Hlog) in Hev.
  by apply (proj1 (Forall_forall _ _) HP).
Qed.

End traces_only.

(** *** The power actions *)

Lemma lift_lookup_conn_registered (uri : string) (s : vmmEngineFull)
    (en : conn_entry) :
  conns (core s) !! uri = Some en →
  lift (_lookup_conn uri) s = (Ret (conn en), s).
Proof.
  intros Hen. destruct s as [c ? ? ? ? ? ? ? ? ? tr]. simpl in Hen.
  unfold lift, _lookup_conn, _check_conn. unfold_M. rewrite Hen. simpl.
  unfold new_events. simpl. rewrite drop_all. simpl. by rewrite app_nil_r.
Qed.

Lemma lift_lookup_conn_unregistered (uri : string) (s : vmmEngineFull) :
  conns (core s) !! uri = None →
  lift (_lookup_conn uri) s =
  (Raise (RuntimeError ("Unknown connection URI " +:+ uri)), s).
Proof.
  intros Hen. destruct s as [c ? ? ? ? ? ? ? ? ? tr]. simpl in Hen.
  unfold lift, _lookup_conn, _check_conn. unfold_M. rewrite Hen. simpl.
  unfold new_events. simpl. rewrite drop_all. simpl. by rewrite app_nil_r.
Qed.

Lemma lift_call (env : environment) (c : extcall) (s : vmmEngineFull) :
  lift (call env c) s =
  (match raises env c with
   | Some e => Raise e
   | None => Ret tt
   end,
   set_trace (trace s ++ [core_event (called c)])
     (set_core (set_log (log (core s) ++ [called c]) (core s)) s)).
Proof.
  rewrite (lift_run _ s
             (match raises env c with Some e => Raise e | None => Ret tt end)
             (set_log (log (core s) ++ [called c]) (core s)) [called c]);
    [done| |done].
  unfold_M. by destruct (raises env c).
Qed.

Lemma lift_get_vm (env : environment) (c : vmmConnection) (uuid : string)
    (s : vmmEngineFull) :
  lift (get_vm env c uuid) s =
  (match raises env (conn_get_vm c uuid) with
   | Some e => Raise e
   | None => Ret {| vm_conn := c; vm_uuid := uuid |}
   end,
   set_trace (trace s ++ [core_event (called (conn_get_vm c uuid))])
     (set_core (set_log (log (core s) ++ [called (conn_get_vm c uuid)])
                  (core s)) s)).
Proof.
  rewrite (lift_run _ s
             (match raises env (conn_get_vm c uuid) with
              | Some e => Raise e
              | None => Ret {| vm_conn := c; vm_uuid := uuid |}
              end)
             (set_log (log (core s) ++ [called (conn_get_vm c uuid)]) (core s))
             [called (conn_get_vm c uuid)]); [done| |done].
  unfold get_vm. unfold_M. by destruct (raises env (conn_get_vm c uuid)).
Qed.

Section power_actions.

Context (env2 : environment2) (src : nat).

(** What a power action on the guest [vm] may add to the trace: any event
    of the registry methods, and of its own calls only the one hypervisor
    call of the action, after its question was answered with yes. *)
Let asked (a : power_action) (vm : vmmDomain) (ev : event2) : Prop :=
  match ev with
  | core_event _ => True
  | called2 c =>
      c = power_call a vm ∧
      ∀ q, power_question a (get_name (env env2) vm) = Some q →
           chkbox_helper (env env2) src q = true
  end.

Lemma asked_power_call (a : power_action) (vm : vmmDomain)
    (intro : string) :
  (∀ q, power_question a (get_name (env env2) vm) = Some q →
        chkbox_helper (env env2) src q = true) →
  traces_only (asked a vm)
    (simple_async_noshow2 (call2 env2 (power_call a vm)) src intro).
Proof.
  intros Hasked. unfold simple_async_noshow2. apply traces_only_try_except.
  - by apply traces_only_call.
  - intros e. apply traces_only_lift. by apply logs_only_record.
Qed.

Lemma asked_debug (a : power_action) (vm : vmmDomain) (msg : string) :
  traces_only (asked a vm) (lift (record (logging_debug msg))).
Proof. apply traces_only_lift. by apply logs_only_record. Qed.

(** A power action, once it has the connection and the guest. *)
Lemma asked_power_action (a : power_action) (uri uuid : string)
    (s : vmmEngineFull) (en : conn_entry) (ev : event2) :
  conns (core s) !! uri = Some en →
  ev ∈ new_trace s (run_power_action env2 a src uri uuid s).2 →
  asked a {| vm_conn := conn en; vm_uuid := uuid |} ev.
Proof.
  intros Hen.
  assert (∀ (tail : vmmDomain → M2 unit),
            (∀ vm, traces_only (asked a vm) (tail vm)) →
            ev ∈ new_trace s
                   ((conn ← lift (_lookup_conn uri);
                     vm ← lift (get_vm (env env2) conn uuid);
                     tail vm) s).2 →
            asked a {| vm_conn := conn en; vm_uuid := uuid |} ev) as Hshape.
  { intros tail Htail.
    unfold mbind at 1, M2_bind at 1.
    rewrite (lift_lookup_conn_registered _ _ _ Hen).
    unfold mbind at 1, M2_bind at 1. rewrite lift_get_vm.
    destruct (raises (env env2) (conn_get_vm (conn en) uuid)) as [e|].
    - simpl. unfold new_trace. simpl. rewrite drop_app_length.
      intros Hev. apply list_elem_of_singleton in Hev. by subst ev.
    - match goal with
      | |- _ ∈ new_trace s (tail ?vm ?s1).2 → _ =>
          destruct (Htail vm s1) as (added & Htr & HP);
          rewrite (new_trace_app s _ ([core_event (called (conn_get_vm (conn en) uuid))] ++ added))
      end.
      + intros Hev. apply elem_of_app in Hev as [Hev|Hev].
        * apply list_elem_of_singleton in Hev. by subst ev.
        * by apply (proj1 (Forall_forall _ _) HP).
      + rewrite Htr. simpl. by rewrite <- app_assoc. }
  destruct a; simpl; apply Hshape; intros vm;
    (destruct (chkbox_helper (env env2) src _) eqn:Hconfirmed; simpl;
       [|apply traces_only_ret]) ||  idtac;
    (apply traces_only_bind; [apply asked_debug|]; intros _);
    first [ apply (asked_power_call act_destroy)
          | apply (asked_power_call act_suspend)
          | apply (asked_power_call act_resume)
          | apply (asked_power_call act_shutdown)
          | apply (asked_power_call act_reset) ];
    simpl; intros q Hq; congruence.
Qed.

(** X25.  A power action calls nothing but its own hypervisor operation, on
    the guest of the registered connection, and - for force off, pause,
    shut down and force reset - only after [chkbox_helper] answered the
    action's own question with yes.  Resuming asks nothing. *)
Theorem power_action_calls_only_what_was_confirmed (a : power_action)
    (uri uuid : string) (s : vmmEngineFull) (c : extcall2) :
  called2 c ∈ new_trace s (run_power_action env2 a src uri uuid s).2 →
  ∃ en, conns (core s) !! uri = Some en ∧
        c = power_call a {| vm_conn := conn en; vm_uuid := uuid |} ∧
        ∀ q, power_question a
               (get_name (env env2) {| vm_conn := conn en; vm_uuid := uuid |})
             = Some q →
             chkbox_helper (env env2) src q = true.
Proof.
  intros Hc. destruct (conns (core s) !! uri) as [en|] eqn:Hen.
  - exists en. split; [done|].
    exact (asked_power_action a uri uuid s en (called2 c) Hen Hc).
  - exfalso. revert Hc.
    destruct a; simpl;
      unfold _do_destroy_domain, _do_suspend_domain, _do_resume_domain,
        _do_shutdown_domain, _do_reset_domain;
      unfold mbind at 1, M2_bind at 1;
      rewrite (lift_lookup_conn_unregistered _ _ Hen); simpl;
      unfold new_trace; rewrite drop_all; apply not_elem_of_nil.
Qed.

End power_actions.

Lemma power_action_calls_only_what_was_confirmed_witness :
  ∃ en, conns (core full_windowed) !! "qemu:///system" = Some en ∧
        vm_destroy guest1 =
          power_call act_destroy {| vm_conn := conn en; vm_uuid := "guest1" |} ∧
        ∀ q, power_question act_destroy
               (get_name (env calm2) {| vm_conn := conn en; vm_uuid := "guest1" |})
             = Some q →
             chkbox_helper (env calm2) 20 q = true.
Proof.
  apply (power_action_calls_only_what_was_confirmed calm2 20 act_destroy
           "qemu:///system" "guest1" full_windowed).
  vm_compute. do 2 apply list_elem_of_further. apply list_elem_of_here.
Defined.

(** *** The cli launchers of a details window *)

Lemma _show_vm_helper_forced (env : environment) (src : nat)
    (uri uuid : string) (page : option Z) (p : page_activation)
    (s : vmmEngine) (en : conn_entry) (w : nat) :
  conns s !! uri = Some en →
  windowDetails en !! uuid = Some w →
  page_activation_of page = Some p →
  raises env (details_activate w p) = None →
  raises env (details_show w) = None →
  _show_vm_helper env src uri uuid page true s =
  (Ret (Some w),
   set_log (log s ++ [called (details_activate w p); called (details_show w)]) s).
Proof.
  intros Hen Hw Hpage Hactivate Hshow. unfold _show_vm_helper, try_except.
  unfold mbind at 1, M_bind at 1.
  rewrite (_get_details_dialog_cached env uri uuid s en w Hen Hw).
  rewrite Hpage. simpl. unfold_M. rewrite Hactivate. simpl. rewrite Hshow.
  simpl. destruct s. unfold set_log. simpl. by rewrite <- app_assoc.
Qed.

(** X26.  The cli launchers of a details window force their page: on a
    guest whose details window exists, [show_domain_console],
    [show_domain_editor] and [show_domain_performance] - once the manager
    is there - activate the console, the configuration and the performance
    page, whether the window is visible or not, and then show it. *)
Theorem cli_launchers_force_their_page (env2 : environment2)
    (uri uuid : string) (s : vmmEngineFull) (en : conn_entry) (w : nat) :
  conns (core s) !! uri = Some en →
  windowDetails en !! uuid = Some w →
  (∀ p, raises (env env2) (details_activate w p) = None) →
  raises (env env2) (details_show w) = None →
  new_trace (get_manager s).2 (show_domain_console env2 uri uuid s).2 =
    [core_event (called (details_activate w activate_console_page));
     core_event (called (details_show w))] ∧
  new_trace (get_manager s).2 (show_domain_editor env2 uri uuid s).2 =
    [core_event (called (details_activate w activate_config_page));
     core_event (called (details_show w))] ∧
  new_trace (get_manager s).2 (show_domain_performance env2 uri uuid s).2 =
    [core_event (called (details_activate w activate_performance_page));
     core_event (called (details_show w))].
Proof.
  intros Hen Hw Hactivate Hshow.
  destruct (get_manager_returns s) as (m' & s0 & Hgm & Hconns).
  rewrite Hgm. simpl. rewrite <- Hconns in Hen.
  unfold show_domain_console, show_domain_editor, show_domain_performance.
  unfold mbind at 1 3 5, M2_bind at 1 3 5. rewrite Hgm.
  unfold mbind, M2_bind.
  rewrite (lift_run _ s0 _ _ _
             (_show_vm_helper_forced (env env2) m' uri uuid
                (Some DETAILS_CONSOLE) activate_console_page (core s0) en w
                Hen Hw eq_refl (Hactivate _) Hshow) eq_refl).
  rewrite (lift_run _ s0 _ _ _
             (_show_vm_helper_forced (env env2) m' uri uuid
                (Some DETAILS_CONFIG) activate_config_page (core s0) en w
                Hen Hw eq_refl (Hactivate _) Hshow) eq_refl).
  rewrite (lift_run _ s0 _ _ _
             (_show_vm_helper_forced (env env2) m' uri uuid
                (Some DETAILS_PERF) activate_performance_page (core s0) en w
                Hen Hw eq_refl (Hactivate _) Hshow) eq_refl).
  simpl. split_and!; by apply new_trace_app.
Qed.

Lemma cli_launchers_force_their_page_witness :
  new_trace (get_manager full_windowed).2
    (show_domain_console (with_env guest1_visible calm2)
       "qemu:///system" "guest1" full_windowed).2 =
    [core_event (called (details_activate 11 activate_console_page));
     core_event (called (details_show 11))] ∧
  new_trace (get_manager full_windowed).2
    (show_domain_editor (with_env guest1_visible calm2)
       "qemu:///system" "guest1" full_windowed).2 =
    [core_event (called (details_activate 11 activate_config_page));
     core_event (called (details_show 11))] ∧
  new_trace (get_manager full_windowed).2
    (show_domain_performance (with_env guest1_visible calm2)
       "qemu:///system" "guest1" full_windowed).2 =
    [core_event (called (details_activate 11 activate_performance_page));
     core_event (called (details_show 11))].
Proof.
  apply (cli_launchers_force_their_page (with_env guest1_visible calm2)
           "qemu:///system" "guest1" full_windowed windowed_entry 11);
    [vm_compute; reflexivity|reflexivity|reflexivity|reflexivity].
Defined.

(** *** Launchers and failures *)

(** X27.  A manager window that cannot be shown: [show_manager], which has
    no source window, lets the exception reach its caller, while
    [_do_show_manager] called from a window reports it there as "Error
    launching manager: ..." and returns. *)
Theorem show_manager_failure_reaches_the_caller (env2 : environment2)
    (s : vmmEngineFull) (e : exn) :
  is_Exception e = true →
  (∀ w, raises2 env2 (win_show w) = Some e) →
  (show_manager env2 s).1 = Raise e ∧
  ∀ src, (_do_show_manager env2 (Some src) s).1 = Ret tt ∧
         last (trace (_do_show_manager env2 (Some src) s).2) =
         Some (core_event (show_err src ("Error launching manager: " +:+ str e))).
Proof.
  intros Hexc Hshow.
  destruct (get_manager_returns s) as (m & s0 & Hgm & _).
  assert (∀ src, _do_show_manager env2 src s =
                 (if is_Exception e then
                    match src with
                    | None => raise2 e
                    | Some src =>
                        lift (record (show_err src
                                        ("Error launching manager: " +:+ str e)))
                    end
                  else raise2 e)
                   (set_trace (trace s0 ++ [called2 (win_show m)]) s0)) as Hrun.
  { intros src. unfold _do_show_manager, try_except2.
    unfold mbind at 1, M2_bind at 1. rewrite Hgm.
    by rewrite (call2_raises _ _ e) by apply Hshow. }
  unfold show_manager. rewrite !Hrun, Hexc. split; [done|].
  intros src. rewrite Hrun, Hexc, lift_record. simpl. split; [done|].
  by rewrite last_snoc.
Qed.

Lemma show_manager_failure_reaches_the_caller_witness :
  (show_manager show_fails full_two_conns).1 =
    Raise (Exception "cannot open display") ∧
  ∀ src, (_do_show_manager show_fails (Some src) full_two_conns).1 = Ret tt ∧
         last (trace (_do_show_manager show_fails (Some src) full_two_conns).2) =
         Some (core_event
                 (show_err src ("Error launching manager: " +:+
                                str (Exception "cannot open display")))).
Proof.
  apply (show_manager_failure_reaches_the_caller show_fails full_two_conns
           (Exception "cannot open display")); [reflexivity|done].
Defined.

(** X28.  An unknown URI, two ways: [_do_show_host] looks the URI up inside
    its [try], so that the [KeyError] of [self.conns[uri]] is reported to
    [src] as "Error launching host dialog: " followed by the [repr] of the
    URI (the text of a [KeyError]) and the launcher returns;
    [_do_show_clone] looks it up before its [try], so that the
    [RuntimeError] "Unknown connection URI <uri>" leaves the launcher and
    nothing is reported. *)
Theorem unknown_uri_is_reported_by_host_and_raised_by_clone
    (env2 : environment2) (src : nat) (uri : string) (s : vmmEngineFull) :
  conns (core s) !! uri = None →
  _do_show_host env2 src uri s =
    (Ret tt,
     set_trace
       (trace s ++
        [core_event (show_err src ("Error launching host dialog: " +:+
                                   repr uri))])
       (set_core
          (set_log
             (log (core s) ++
              [show_err src ("Error launching host dialog: " +:+ repr uri)])
             (core s)) s)) ∧
  ∀ uuid, _do_show_clone env2 src uri uuid s =
          (Raise (RuntimeError ("Unknown connection URI " +:+ uri)), s).
Proof.
  intros Hen. split.
  - unfold _do_show_host, try_except2. unfold mbind at 1, M2_bind at 1.
    assert (lift (_get_host_dialog uri) s = (Raise (KeyError uri), s)) as ->.
    { destruct s as [c ? ? ? ? ? ? ? ? ? tr]. simpl in Hen.
      unfold lift, _get_host_dialog, getitem_conns. unfold_M. rewrite Hen.
      simpl. unfold new_events. simpl. rewrite drop_all. simpl.
      by rewrite app_nil_r. }
    unfold report_to. simpl. by rewrite lift_record.
  - intros uuid. unfold _do_show_clone. unfold mbind at 1, M2_bind at 1.
    by rewrite (lift_lookup_conn_unregistered _ _ Hen).
Qed.

Lemma unknown_uri_is_reported_by_host_and_raised_by_clone_witness :
  new_trace full_two_conns
    (_do_show_host calm2 20 "qemu+ssh://o'neil@host/system" full_two_conns).2 =
    [core_event
       (show_err 20 ("Error launching host dialog: " +:+
                     String double_quote
                       ("qemu+ssh://o'neil@host/system" +:+
                        String double_quote "")))] ∧
  (_do_show_clone calm2 20 "qemu+ssh://o'neil@host/system" "guest1"
     full_two_conns).1 =
    Raise (RuntimeError "Unknown connection URI qemu+ssh://o'neil@host/system").
Proof.
  destruct (unknown_uri_is_reported_by_host_and_raised_by_clone calm2 20
              "qemu+ssh://o'neil@host/system" full_two_conns)
    as [Hhost Hclone]; [vm_compute; reflexivity|].
  by rewrite Hhost, Hclone.
Defined.

(** *** The clone window of a connection *)

Lemma lift_setitem_windowClone (uri : string) (obj : nat) (s : vmmEngineFull)
    (en : conn_entry) :
  conns (core s) !! uri = Some en →
  lift (setitem_windowClone uri obj) s =
  (Ret tt,
   set_core
     (set_conns
        (<[uri := {| conn := conn en; windowHost := windowHost en;
                     windowDetails := windowDetails en;
                     windowClone := Some obj |}]> (conns (core s)))
        (core s)) s).
Proof.
  intros Hen. destruct s as [c ? ? ? ? ? ? ? ? ? tr]. simpl in Hen.
  unfold lift, setitem_windowClone, getitem_conns. unfold_M. rewrite Hen.
  simpl. unfold new_events. simpl. rewrite drop_all. simpl.
  by rewrite app_nil_r.
Qed.

(** X29.  One clone window per connection: for a registered URI, when the
    calls return, [_do_show_clone] shows the connection's clone window.  If
    there is none it makes one for the guest; if there is one it re-targets
    that window with [set_orig_vm] instead of making another.  Either way
    the window is the connection's clone window afterwards. *)
Theorem _do_show_clone_reuses_the_window (env2 : environment2) (src : nat)
    (uri uuid : string) (s : vmmEngineFull) (en : conn_entry) :
  conns (core s) !! uri = Some en →
  raises (env env2) (conn_get_vm (conn en) uuid) = None →
  (∀ w vm, raises2 env2 (clone_set_orig_vm w vm) = None) →
  (∀ w, raises2 env2 (win_show w) = None) →
  (_do_show_clone env2 src uri uuid s).1 = Ret tt ∧
  conns (core (_do_show_clone env2 src uri uuid s).2) =
    <[uri := {| conn := conn en; windowHost := windowHost en;
                windowDetails := windowDetails en;
                windowClone :=
                  Some (default (next_id (core s)) (windowClone en)) |}]>
      (conns (core s)) ∧
  new_trace s (_do_show_clone env2 src uri uuid s).2 =
    core_event (called (conn_get_vm (conn en) uuid)) ::
    match windowClone en with
    | Some w =>
        [called2 (clone_set_orig_vm w {| vm_conn := conn en; vm_uuid := uuid |})]
    | None => []
    end ++
    [called2 (win_show (default (next_id (core s)) (windowClone en)))].
Proof.
  intros Hen Hvm Hset Hshow.
  destruct (_do_show_clone env2 src uri uuid s) as [r s'] eqn:Hrun. simpl.
  unfold _do_show_clone in Hrun.
  unfold mbind at 1, M2_bind at 1 in Hrun.
  rewrite (lift_lookup_conn_registered _ _ _ Hen) in Hrun.
  unfold mbind at 1, M2_bind at 1 in Hrun.
  rewrite lift_get_vm, Hvm in Hrun.
  unfold mbind at 1, M2_bind at 1 in Hrun.
  rewrite (lift_getitem_conns uri _ en) in Hrun by done.
  unfold try_except2 in Hrun.
  unfold mbind at 1, M2_bind at 1 in Hrun.
  destruct (windowClone en) as [w|] eqn:Hclone.
  - unfold mbind at 1, M2_bind at 1 in Hrun.
    rewrite call2_returns in Hrun by apply Hset.
    unfold mret at 1, M2_ret at 1 in Hrun.
    rewrite call2_returns in Hrun by apply Hshow.
    injection Hrun as <- <-. simpl. split_and!; [done| |].
    + symmetry. apply insert_id. rewrite Hen. f_equal.
      destruct en. simpl in *. by subst.
    + apply new_trace_app. simpl. by rewrite <- !app_assoc.
  - unfold mbind at 1, M2_bind at 1 in Hrun. rewrite lift_fresh in Hrun.
    unfold mbind at 1, M2_bind at 1 in Hrun.
    rewrite (lift_setitem_windowClone uri _ _ en) in Hrun by done.
    unfold mret at 1, M2_ret at 1 in Hrun.
    rewrite call2_returns in Hrun by apply Hshow.
    injection Hrun as <- <-. simpl. split_and!; [done|done|].
    apply new_trace_app. simpl. by rewrite <- !app_assoc.
Qed.

Lemma _do_show_clone_reuses_the_window_witness :
  new_trace full_windowed
    (_do_show_clone calm2 20 "qemu:///system" "guest2" full_windowed).2 =
  [core_event (called (conn_get_vm qemu_system "guest2"));
   called2 (clone_set_orig_vm 12
              {| vm_conn := qemu_system; vm_uuid := "guest2" |});
   called2 (win_show 12)].
Proof.
  destruct (_do_show_clone_reuses_the_window calm2 20 "qemu:///system" "guest2"
              full_windowed windowed_entry) as (_ & _ & Htrace);
    [vm_compute; reflexivity|reflexivity|done|done|].
  exact Htrace.
Defined.

(** *** A connection goes away *)

Lemma lookup_foldl_delete {V} (l : list string) (d : gmap string V)
    (k : string) :
  foldl (λ d k, delete k d) d l !! k = if decide (k ∈ l) then None else d !! k.
Proof.
  revert d. induction l as [|x l IH]; intros d.
  - done.
  - change (foldl (λ d k, delete k d) d (x :: l))
      with (foldl (λ d k, delete k d) (delete x d) l).
    rewrite IH. repeat case_decide; try done.
    + exfalso. rename select (k ∉ x :: l) into Hnin. apply Hnin. by right.
    + rename select (k ∈ x :: l) into Hin.
      apply elem_of_cons in Hin as [->|?]; [apply lookup_delete_eq|done].
    + apply lookup_delete_ne. intros ->.
      rename select (k ∉ k :: l) into Hnin. apply Hnin. by left.
Qed.

Lemma foldl_delete_all {V} (d : gmap string V) :
  foldl (λ d k, delete k d) d (dict_keys d) = ∅.
Proof.
  apply map_eq. intros k. rewrite lookup_foldl_delete, lookup_empty.
  destruct (decide (k ∈ dict_keys d)) as [Hin|Hnin]; [done|].
  destruct (d !! k) as [v|] eqn:Hk; [|done].
  exfalso. apply Hnin. unfold dict_keys. apply list_elem_of_fmap.
  exists (k, v). split; [done|]. by apply elem_of_map_to_list.
Qed.

Lemma lift_getitem_windowDetails (uri uuid : string) (s : vmmEngineFull)
    (en : conn_entry) (w : nat) :
  conns (core s) !! uri = Some en →
  windowDetails en !! uuid = Some w →
  lift (getitem_windowDetails uri uuid) s = (Ret w, s).
Proof.
  intros Hen Hw. destruct s as [c ? ? ? ? ? ? ? ? ? tr]. simpl in Hen.
  unfold lift, getitem_windowDetails, getitem_conns. unfold_M. rewrite Hen.
  simpl. rewrite Hw. simpl.
  unfold new_events. simpl. rewrite drop_all. simpl. by rewrite app_nil_r.
Qed.

Lemma lift_delitem_windowDetails (uri uuid : string) (s : vmmEngineFull)
    (en : conn_entry) (w : nat) :
  conns (core s) !! uri = Some en →
  windowDetails en !! uuid = Some w →
  lift (delitem_windowDetails uri uuid) s =
  (Ret tt,
   set_core
     (set_conns
        (<[uri := {| conn := conn en; windowHost := windowHost en;
                     windowDetails := delete uuid (windowDetails en);
                     windowClone := windowClone en |}]> (conns (core s)))
        (core s)) s).
Proof.
  intros Hen Hw. destruct s as [c ? ? ? ? ? ? ? ? ? tr]. simpl in Hen.
  unfold lift, delitem_windowDetails, getitem_conns. unfold_M. rewrite Hen.
  simpl. rewrite Hw. simpl.
  unfold new_events. simpl. rewrite drop_all. simpl. by rewrite app_nil_r.
Qed.

Lemma for2_drop_details (env2 : environment2) (uri : string)
    (kvs : list (string * nat)) (s : vmmEngineFull) (en : conn_entry) :
  conns (core s) !! uri = Some en →
  NoDup (kvs.*1) →
  (∀ kv, kv ∈ kvs → windowDetails en !! kv.1 = Some kv.2 ∧
                    raises (env env2) (win_cleanup kv.2) = None) →
  for2 (kvs.*1)
    (λ vmuuid,
       w ← lift (getitem_windowDetails uri vmuuid);
       lift (call (env env2) (win_cleanup w)) ;;
       lift (delitem_windowDetails uri vmuuid)) s =
  (Ret tt,
   set_trace
     (trace s ++ ((λ kv, core_event (called (win_cleanup kv.2))) <$> kvs))
     (set_core
        (set_conns
           (<[uri := {| conn := conn en; windowHost := windowHost en;
                        windowDetails :=
                          foldl (λ d k, delete k d) (windowDetails en) (kvs.*1);
                        windowClone := windowClone en |}]> (conns (core s)))
           (set_log (log (core s) ++
                     ((λ kv, called (win_cleanup kv.2)) <$> kvs)) (core s)))
        s)).
Proof.
  revert s en. induction kvs as [|[k w] kvs IH]; intros s en Hen Hnodup Hkvs.
  - simpl. unfold mret, M2_ret. f_equal.
    destruct s as [[] ? ? ? ? ? ? ? ? ? tr]. simpl in *.
    unfold set_trace, set_core, set_conns, set_log. simpl.
    rewrite !app_nil_r. f_equal. f_equal.
    symmetry. apply insert_id. rewrite Hen. by destruct en.
  - rewrite fmap_cons, for2_cons. simpl.
    destruct (Hkvs (k, w)) as [Hw Hclean]; [by left|]. simpl in Hw, Hclean.
    apply NoDup_cons in Hnodup as [Hk Hnodup].
    unfold mbind at 1, M2_bind at 1.
    rewrite (lift_getitem_windowDetails _ _ _ _ _ Hen Hw).
    unfold mbind at 1, M2_bind at 1. rewrite lift_call, Hclean.
    rewrite (lift_delitem_windowDetails uri k _ en w) by done.
    rewrite (IH _ {| conn := conn en; windowHost := windowHost en;
                     windowDetails := delete k (windowDetails en);
                     windowClone := windowClone en |}).
    + destruct s as [[] ? ? ? ? ? ? ? ? ? tr]. simpl.
      unfold set_trace, set_core, set_conns, set_log. simpl.
      by rewrite insert_insert_eq, <- !app_assoc.
    + simpl. apply lookup_insert_eq.
    + done.
    + intros [k' w'] Hin. simpl. destruct (Hkvs (k', w')) as [Hw' Hclean'];
        [by right|]. simpl in Hw', Hclean'. split; [|done].
      rewrite lookup_delete_ne; [done|]. intros ->. apply Hk.
      apply list_elem_of_fmap. by exists (k', w').
Qed.

(** X30.  [_do_conn_changed] does nothing while the connection is active or
    connecting.  In any other state, when each [cleanup()] returns, it
    cleans up every details window of the connection and forgets them all;
    the connection stays registered with its host and clone windows, and
    the other connections are as before. *)
Theorem _do_conn_changed_drops_the_details_windows (env2 : environment2)
    (c : vmmConnection) (s : vmmEngineFull) (en : conn_entry) :
  conns (core s) !! get_uri c = Some en →
  (∀ k w, windowDetails en !! k = Some w →
          raises (env env2) (win_cleanup w) = None) →
  (get_state env2 c = STATE_ACTIVE ∨ get_state env2 c = STATE_CONNECTING →
   _do_conn_changed env2 c s = (Ret tt, s)) ∧
  (get_state env2 c ≠ STATE_ACTIVE → get_state env2 c ≠ STATE_CONNECTING →
   conns (core (_do_conn_changed env2 c s).2) =
     <[get_uri c := {| conn := conn en; windowHost := windowHost en;
                       windowDetails := ∅; windowClone := windowClone en |}]>
       (conns (core s)) ∧
   ∀ k w, windowDetails en !! k = Some w →
          core_event (called (win_cleanup w))
            ∈ new_trace s (_do_conn_changed env2 c s).2).
Proof.
  intros Hen Hclean. split.
  - intros Hstate. unfold _do_conn_changed.
    destruct Hstate as [Hstate|Hstate]; rewrite Hstate; reflexivity.
  - intros Hactive Hconnecting.
    destruct (_do_conn_changed env2 c s) as [r s'] eqn:Hrun. simpl.
    unfold _do_conn_changed in Hrun.
    rewrite !bool_decide_eq_false_2 in Hrun by done. simpl in Hrun.
    unfold mbind at 1, M2_bind at 1 in Hrun.
    rewrite (lift_getitem_conns _ _ _ Hen) in Hrun.
    unfold mbind at 1, M2_bind at 1 in Hrun. unfold dict_keys in Hrun.
    rewrite (for2_drop_details env2 (get_uri c) _ s en Hen) in Hrun.
    + fold (dict_keys (windowDetails en)) in Hrun.
      rewrite foldl_delete_all in Hrun.
      unfold mbind at 1, M2_bind at 1, get2 in Hrun.
      assert (∀ (s1 : vmmEngineFull) (m : M2 unit),
                (m = mret tt ∨ ∃ w, m = call2 env2 (win_close w)) →
                conns (core (m s1).2) = conns (core s1) ∧
                ∃ more, trace (m s1).2 = trace s1 ++ more) as Hclose.
      { intros s1 m [-> | [w ->]].
        - split; [done|]. exists []. by rewrite app_nil_r.
        - unfold_M2. split; [by destruct (raises2 env2 (win_close w))|].
          exists [called2 (win_close w)].
          by destruct (raises2 env2 (win_close w)). }
      match type of Hrun with
      | ?m ?s1 = _ =>
          destruct (Hclose s1 m) as [Hconns [more Htrace]];
          [|rewrite Hrun in Hconns, Htrace; simpl in Hconns, Htrace]
      end.
      { simpl. destruct (windowCreate s) as [w|]; [|by left].
        destruct (create_conn env2 w) as [c'|]; [|by left].
        destruct (String.eqb (get_uri c') (get_uri c)); simpl;
          [right; by exists w|by left]. }
      split; [done|]. intros k w Hw.
      unfold new_trace. rewrite Htrace, <- app_assoc, drop_app_length.
      apply elem_of_app. left. apply list_elem_of_fmap.
      exists (k, w). split; [done|]. by apply elem_of_map_to_list.
    + apply NoDup_fst_map_to_list.
    + intros [k w] Hin. apply elem_of_map_to_list in Hin. simpl.
      split; [done|]. by apply (Hclean k).
Qed.

Lemma _do_conn_changed_drops_the_details_windows_witness :
  conns (core (_do_conn_changed (with_get_state (λ _, STATE_DISCONNECTED) calm2)
                 qemu_system full_windowed).2) =
    <["qemu:///system" :=
        {| conn := qemu_system; windowHost := Some 10%nat;
           windowDetails := ∅; windowClone := Some 12%nat |}]>
      (conns windowed) ∧
  core_event (called (win_cleanup 11))
    ∈ new_trace full_windowed
        (_do_conn_changed (with_get_state (λ _, STATE_DISCONNECTED) calm2)
           qemu_system full_windowed).2.
Proof.
  destruct (_do_conn_changed_drops_the_details_windows
              (with_get_state (λ _, STATE_DISCONNECTED) calm2)
              qemu_system full_windowed windowed_entry) as [_ Hdrop];
    [vm_compute; reflexivity|done|].
  destruct Hdrop as [Hconns Hclean]; [done|done|].
  split; [exact Hconns|]. apply (Hclean "guest1"). reflexivity.
Defined.

End EngineWindowsFacts.
